(** * c_class: a runtime object model for C, verified against its sources

    The repository holds successive iterations of one program:
      - [src/c_class/src/main.c]            (module [Iter1]): members only;
      - [src/unnamed/part_000]               (module [Iter3]): constructor and
        function table added;
      - [src/unnamed/part_001], second program (module [Iter4]): destructor,
        binary member functions and copying creation.
    (The first program of [part_001] is [part_000] without the constructor.)

    The C code is embedded shallowly: every C function becomes a computation
    in a state-and-fault monad over an explicit store of allocated blocks.
    Unsigned [size_t] arithmetic is written out modulo [2^64]. *)

From Stdlib Require Import ZArith String List Lia.
From Stdlib Require Import Floats.SpecFloat.
From stdpp Require Import base decidable option list gmap strings.

Local Open Scope Z_scope.

(** ** Machine integers *)

Definition SIZE_MOD : Z := 2 ^ 64.

Definition size_wrap (z : Z) : Z := z mod SIZE_MOD.
Definition size_add (a b : Z) : Z := size_wrap (a + b).
Definition size_sub (a b : Z) : Z := size_wrap (a - b).
Definition size_mul (a b : Z) : Z := size_wrap (a * b).

Definition is_size (z : Z) : Prop := 0 <= z < SIZE_MOD.

(** ** Values, pointers and the store *)

(** A block address; a pointer is null or designates element [i] of block [b]. *)
Definition addr := positive.
Bind Scope positive_scope with addr.

Inductive ptr :=
| NULL
| Ptr (b : addr) (i : Z).

Arguments Ptr b%_positive i%_Z.

#[global] Instance ptr_eq_dec : EqDecision ptr.
Proof. solve_decision. Defined.

(** [char*]: the null pointer or a string literal. *)
Definition cstr := option string.

(** A function pointer: null or the name of the C function it designates. *)
Definition code := string.
Definition fnptr := option code.

(** A struct field or local that has been declared but perhaps not assigned. *)
Inductive slot (A : Type) :=
| Indet
| Init (a : A).
Arguments Indet {A}.
Arguments Init {A} a.

(** Automatic (stack) storage or dynamic ([malloc]) storage. *)
Inductive storage := Auto | Dyn.

#[global] Instance storage_eq_dec : EqDecision storage.
Proof. solve_decision. Defined.

(** Observable actions: the [__debugbreak()] trap, a call through a function
    pointer, a call of [free]. *)
Inductive event :=
| EvBreak
| EvCall (f : code) (self : ptr)
| EvCall2 (f : code) (self other : ptr)
| EvFree (b : addr).

Arguments EvFree b%_positive.

Inductive fault :=
| UndefinedBehaviour
| OutOfFuel.

Inductive result (A : Type) :=
| Ok (a : A)
| Fault (e : fault).
Arguments Ok {A} a.
Arguments Fault {A} e.

(** *** Member data *)

Inductive MemberType :=
| MEMBER_TYPE_F32
| MEMBER_TYPE_F64
| MEMBER_TYPE_I32
| MEMBER_TYPE_U32.

(** IEEE-754 binary32 and binary64 values. *)
Definition float := spec_float.
Definition double := spec_float.

Definition f32_add : float -> float -> float := SFadd 24 128.
Definition f32_of_Z (z : Z) : float := binary_normalize 24 128 z 0 false.

(** [union MemberData]: the model records which member was stored last. *)
Inductive MemberData :=
| data_indet
| f_data (f : float)
| d_data (d : double)
| i_data (i : Z)
| u_data (u : Z).

Record Member := mkMember {
  Member_data : MemberData;
  Member_name : slot cstr;
  Member_type : slot MemberType
}.

Definition indet_Member : Member := mkMember data_indet Indet Indet.

Definition set_Member_data (d : MemberData) (m : Member) : Member :=
  mkMember d (Member_name m) (Member_type m).
Definition set_Member_name (n : slot cstr) (m : Member) : Member :=
  mkMember (Member_data m) n (Member_type m).
Definition set_Member_type (t : slot MemberType) (m : Member) : Member :=
  mkMember (Member_data m) (Member_name m) t.

(** [sizeof(Member)] on the 64-bit targets: 8 (union) + 8 (pointer) + 4 (enum),
    padded to 24. *)
Definition sizeof_Member : Z := 24.

(** ** The store and the monad *)

Section Store.
(** [F] is the iteration's [Function] struct, [C] its [Class] struct. *)
Context {F C : Type}.

Inductive block :=
| BClass (c : C)
| BMembers (ms : list Member)
| BFunctions (fs : list F).

Record state := mkState {
  heap : gmap addr (storage * block);
  next : addr;
  (** outcomes of the coming allocation requests, [true] for success;
      once exhausted every request fails *)
  oracle : list bool;
  trace : list event
}.

Definition M (A : Type) : Type := state -> result (A * state).

Definition ret {A} (a : A) : M A := fun s => Ok (a, s).

Definition bind {A B} (c : M A) (k : A -> M B) : M B :=
  fun s => match c s with
           | Ok (a, s') => k a s'
           | Fault e => Fault e
           end.

Definition ub {A} : M A := fun _ => Fault UndefinedBehaviour.

Definition out_of_fuel {A} : M A := fun _ => Fault OutOfFuel.

(** reading a field: an indeterminate value may be copied but not used *)
Definition rd {A} (v : slot A) : M A :=
  match v with
  | Init a => ret a
  | Indet => ub
  end.

Definition emit (e : event) : M unit :=
  fun s => Ok (tt, mkState (heap s) (next s) (oracle s) (trace s ++ [e])).

(** [DEBUG_BREAK(msg)] expands to [__debugbreak();]: the trap is recorded and
    control continues with the next statement. *)
Definition DEBUG_BREAK : M unit := emit EvBreak.

Definition set_heap (h : gmap addr (storage * block)) (s : state) : state :=
  mkState h (next s) (oracle s) (trace s).

(** *** Blocks *)

Definition new_block (st : storage) (b : block) : M ptr :=
  fun s => Ok (Ptr (next s) 0,
               mkState (<[next s := (st, b)]> (heap s)) (Pos.succ (next s))
                       (oracle s) (trace s)).

(** A local variable comes into being; no allocation request is involved. *)
Definition alloca (b : block) : M ptr := new_block Auto b.

(** The local's lifetime ends. *)
Definition leave (p : ptr) : M unit :=
  match p with
  | Ptr b 0 =>
      fun s => match heap s !! b with
               | Some (Auto, _) => Ok (tt, set_heap (delete b (heap s)) s)
               | _ => Fault UndefinedBehaviour
               end
  | _ => ub
  end.

Definition malloc_block (b : block) : M ptr :=
  fun s => match oracle s with
           | true :: o =>
               new_block Dyn b (mkState (heap s) (next s) o (trace s))
           | false :: o => Ok (NULL, mkState (heap s) (next s) o (trace s))
           | [] => Ok (NULL, s)
           end.

(** [free(p)] *)
Definition free (p : ptr) : M unit :=
  match p with
  | NULL => ret tt
  | Ptr b i =>
      fun s => match heap s !! b with
               | Some (Dyn, _) =>
                   if decide (i = 0)
                   then Ok (tt, mkState (delete b (heap s)) (next s) (oracle s)
                                        (trace s ++ [EvFree b]))
                   else Fault UndefinedBehaviour
               | _ => Fault UndefinedBehaviour
               end
  end.

(** [&p[i]] *)
Definition index (p : ptr) (i : Z) : M ptr :=
  match p with
  | NULL => ub
  | Ptr b o => ret (Ptr b (o + i))
  end.

Definition load_block (b : addr) : M block :=
  fun s => match heap s !! b with
           | Some (_, blk) => Ok (blk, s)
           | None => Fault UndefinedBehaviour
           end.

Definition store_block (b : addr) (blk : block) : M unit :=
  fun s => match heap s !! b with
           | Some (st, _) => Ok (tt, set_heap (<[b := (st, blk)]> (heap s)) s)
           | None => Fault UndefinedBehaviour
           end.

(** *** Typed access *)

Definition elem {A} (l : list A) (i : Z) : option A :=
  if decide (0 <= i) then l !! Z.to_nat i else None.

Definition load_Member (p : ptr) : M Member :=
  match p with
  | NULL => ub
  | Ptr b i =>
      bind (load_block b) (fun blk =>
        match blk with
        | BMembers ms => match elem ms i with Some m => ret m | None => ub end
        | _ => ub
        end)
  end.

Definition update_Member (p : ptr) (f : Member -> Member) : M unit :=
  match p with
  | NULL => ub
  | Ptr b i =>
      bind (load_block b) (fun blk =>
        match blk with
        | BMembers ms =>
            match elem ms i with
            | Some m => store_block b (BMembers (<[Z.to_nat i := f m]> ms))
            | None => ub
            end
        | _ => ub
        end)
  end.

Definition load_Function (p : ptr) : M F :=
  match p with
  | NULL => ub
  | Ptr b i =>
      bind (load_block b) (fun blk =>
        match blk with
        | BFunctions fs => match elem fs i with Some f => ret f | None => ub end
        | _ => ub
        end)
  end.

Definition update_Function (p : ptr) (f : F -> F) : M unit :=
  match p with
  | NULL => ub
  | Ptr b i =>
      bind (load_block b) (fun blk =>
        match blk with
        | BFunctions fs =>
            match elem fs i with
            | Some x => store_block b (BFunctions (<[Z.to_nat i := f x]> fs))
            | None => ub
            end
        | _ => ub
        end)
  end.

Definition load_Class (p : ptr) : M C :=
  match p with
  | Ptr b 0 =>
      bind (load_block b) (fun blk =>
        match blk with
        | BClass c => ret c
        | _ => ub
        end)
  | _ => ub
  end.

Definition update_Class (p : ptr) (f : C -> C) : M unit :=
  match p with
  | Ptr b 0 =>
      bind (load_block b) (fun blk =>
        match blk with
        | BClass c => store_block b (BClass (f c))
        | _ => ub
        end)
  | _ => ub
  end.

(** *** Typed allocation *)

(** [(T* )malloc(bytes)] for an array of [T]: room for [bytes / sizeof(T)]
    elements, all indeterminate. *)
Definition fresh_array {A} (indet : A) (elt_size bytes : Z) : list A :=
  replicate (Z.to_nat (bytes / elt_size)) indet.

Definition malloc_Members (bytes : Z) : M ptr :=
  malloc_block (BMembers (fresh_array indet_Member sizeof_Member bytes)).

Definition malloc_Functions (indet : F) (elt_size bytes : Z) : M ptr :=
  malloc_block (BFunctions (fresh_array indet elt_size bytes)).

Definition malloc_Class (indet : C) : M ptr :=
  malloc_block (BClass indet).

(** [realloc(p, bytes)]: on success the contents move to a block of the new
    size and the old block is gone; on failure the old block is untouched
    and the null pointer is returned. *)
Definition resize {A} (indet : A) (elt_size bytes : Z) (l : list A) : list A :=
  let cap := Z.to_nat (bytes / elt_size) in
  take cap l ++ replicate (cap - length l)%nat indet.

Definition realloc_with (p : ptr) (fresh : block)
    (grow : block -> option block) : M ptr :=
  match p with
  | NULL => malloc_block fresh
  | Ptr b i =>
      fun s => match heap s !! b with
               | Some (Dyn, blk) =>
                   match grow blk with
                   | Some blk' =>
                       if decide (i = 0) then
                         match oracle s with
                         | true :: o =>
                             new_block Dyn blk'
                               (mkState (delete b (heap s)) (next s) o (trace s))
                         | false :: o =>
                             Ok (NULL, mkState (heap s) (next s) o (trace s))
                         | [] => Ok (NULL, s)
                         end
                       else Fault UndefinedBehaviour
                   | None => Fault UndefinedBehaviour
                   end
               | _ => Fault UndefinedBehaviour
               end
  end.

Definition realloc_Members (p : ptr) (bytes : Z) : M ptr :=
  realloc_with p (BMembers (fresh_array indet_Member sizeof_Member bytes))
    (fun blk => match blk with
                | BMembers ms =>
                    Some (BMembers (resize indet_Member sizeof_Member bytes ms))
                | _ => None
                end).

Definition realloc_Functions (indet : F) (elt_size : Z) (p : ptr) (bytes : Z)
    : M ptr :=
  realloc_with p (BFunctions (fresh_array indet elt_size bytes))
    (fun blk => match blk with
                | BFunctions fs => Some (BFunctions (resize indet elt_size bytes fs))
                | _ => None
                end).

(** [for (size_t i = from; i < from + n; i++) body(i)] *)
Fixpoint for_loop (n : nat) (i : Z) (body : Z -> M unit) : M unit :=
  match n with
  | O => ret tt
  | S n' => bind (body i) (fun _ => for_loop n' (i + 1) body)
  end.

End Store.

Arguments block : clear implicits.
Arguments state : clear implicits.
Arguments M : clear implicits.

Notation "'let!' x ':=' c 'in' k" := (bind c (fun x => k))
  (at level 10, x name, c at level 100, k at level 200).
Notation "c ';;;' k" := (bind c (fun _ => k))
  (at level 100, k at level 200, right associativity).

(** ** Vocabulary for stating properties *)

(** The value a computation returns, whatever state it leaves. *)
Definition value {F C A} (r : result (A * state F C)) : option A :=
  match r with
  | Ok (a, _) => Some a
  | Fault _ => None
  end.

(** Nothing is allocated at or above the allocation pointer. *)
Definition fresh {F C} (s : state F C) : Prop :=
  forall a, (next s <= a)%positive -> heap s !! a = None.

(** A computation is determined by the store when its outcome and the store
    it leaves depend on no other component of the state. The read accessors
    are of this kind. *)
Definition store_determined {F C A} (c : M F C A) : Prop :=
  forall s s', heap s = heap s' ->
    match c s, c s' with
    | Ok (a, t), Ok (a', t') => a = a' /\ heap t = heap t'
    | Fault _, Fault _ => True
    | _, _ => False
    end.

(** * Member accessors

    [member_get_type] and [member_get_data] read the same in all files;
    [member_get_name] below is the one of [part_000] and [part_001], the one
    of [main.c] is [Iter1.member_get_name]. *)

Section Members.
Context {F C : Type}.

Definition member_get_name (member : ptr) : M F C cstr :=
  if decide (member = NULL) then ret None
  else let! m := load_Member member in rd (Member_name m).

Definition member_get_type (member : ptr) : M F C MemberType :=
  if decide (member = NULL) then ret MEMBER_TYPE_I32
  else let! m := load_Member member in rd (Member_type m).

(** After the trap the null pointer is dereferenced all the same. *)
Definition member_get_data (member : ptr) : M F C MemberData :=
  (if decide (member = NULL) then DEBUG_BREAK else ret tt) ;;;
  let! m := load_Member member in ret (Member_data m).

End Members.

(** * The type names: [member_type_to_string]

    The function is the same in all files. Its parameter is an object of
    enumeration type, which holds an integer; the enumerators are the values
    0 to 3. *)

Definition MemberType_value (t : MemberType) : Z :=
  match t with
  | MEMBER_TYPE_F32 => 0
  | MEMBER_TYPE_F64 => 1
  | MEMBER_TYPE_I32 => 2
  | MEMBER_TYPE_U32 => 3
  end.

Section TypeNames.
Context {F C : Type}.

Definition member_type_to_string (type : Z) : M F C cstr :=
  if decide (type = MemberType_value MEMBER_TYPE_F32) then ret (Some "f32"%string)
  else if decide (type = MemberType_value MEMBER_TYPE_F64) then ret (Some "f64"%string)
  else if decide (type = MemberType_value MEMBER_TYPE_I32) then ret (Some "i32"%string)
  else if decide (type = MemberType_value MEMBER_TYPE_U32) then ret (Some "u32"%string)
  else DEBUG_BREAK ;;; ret (Some EmptyString).

End TypeNames.

(** * Output

    [printf] and [putchar] are library functions; the model records the
    calls. A format is recorded as the source writes it. An argument is a
    string, a [size_t], or the [MemberData] read through the union member
    that the call names. *)

Inductive printf_arg :=
| arg_str (s : cstr)
| arg_size (n : Z)
| arg_f_data (d : MemberData)
| arg_d_data (d : MemberData)
| arg_i_data (d : MemberData)
| arg_u_data (d : MemberData).

Inductive output :=
| Printf (format : string) (args : list printf_arg)
| Putchar (c : Z).

(** ['\n'] *)
Definition newline : Z := 10.

Section Printing.
Context {F C : Type}.

(** A statement that prints: the computation returns what it printed. *)
Definition say (o : list output) : M F C (list output) := ret o.

Definition then_say (c1 c2 : M F C (list output)) : M F C (list output) :=
  let! a := c1 in let! b := c2 in ret (a ++ b).

(** [for (size_t i = from; i < from + n; i++) body(i)] for a printing body *)
Fixpoint for_say (n : nat) (i : Z) (body : Z -> M F C (list output))
    : M F C (list output) :=
  match n with
  | O => ret []
  | S n' => then_say (body i) (for_say n' (i + 1) body)
  end.

(** The [switch (member_type)] that prints the data of a member. *)
Definition print_data (member_type : MemberType) (data : MemberData) : output :=
  match member_type with
  | MEMBER_TYPE_F32 => Printf "%f" [arg_f_data data]
  | MEMBER_TYPE_F64 => Printf "%lf" [arg_d_data data]
  | MEMBER_TYPE_I32 => Printf "%d" [arg_i_data data]
  | MEMBER_TYPE_U32 => Printf "%i" [arg_u_data data]
  end.
End Printing.

Notation "c1 '+++' c2" := (then_say c1 c2)
  (at level 60, right associativity).

(** * First iteration: [src/c_class/src/main.c] *)

Module Iter1.

Record Class := mkClass {
  Class_name : slot cstr;
  Class_members : slot ptr;
  Class_num_members : slot Z
}.

Definition indet_Class : Class := mkClass Indet Indet Indet.

Definition set_Class_name v (c : Class) : Class :=
  mkClass v (Class_members c) (Class_num_members c).
Definition set_Class_members v (c : Class) : Class :=
  mkClass (Class_name c) v (Class_num_members c).
Definition set_Class_num_members v (c : Class) : Class :=
  mkClass (Class_name c) (Class_members c) v.

(** This iteration has no function table. *)
Abbreviation St := (state Empty_set Class).
Abbreviation Mon := (M Empty_set Class).

Definition field {A} (klass : ptr) (proj : Class -> slot A) : Mon A :=
  let! c := load_Class klass in rd (proj c).

Definition member_get_name (member : ptr) : Mon cstr :=
  if decide (member = NULL) then ret (Some EmptyString)
  else let! m := load_Member member in rd (Member_name m).

Definition class_new (name : cstr) (members : ptr) (num_members : Z)
    : Mon ptr :=
  let! klass := malloc_Class indet_Class in
  if decide (klass = NULL) then ret NULL
  else
    update_Class klass (set_Class_name (Init name)) ;;;
    update_Class klass (set_Class_members (Init members)) ;;;
    update_Class klass (set_Class_num_members (Init num_members)) ;;;
    ret klass.

Definition class_get_name (klass : ptr) : Mon cstr :=
  if decide (klass = NULL) then ret None
  else field klass Class_name.

Definition class_get_num_members (klass : ptr) : Mon Z :=
  if decide (klass = NULL) then ret 0
  else field klass Class_num_members.

Definition class_free (klass : ptr) : Mon unit :=
  if decide (klass = NULL) then
    DEBUG_BREAK ;;; ret tt
  else
    let! num_members := class_get_num_members klass in
    (if decide (num_members > 0) then
       let! members := field klass Class_members in free members
     else ret tt) ;;;
    free klass.

(** [klass == NULL || member == NULL || klass->members == NULL], evaluated
    left to right. *)
Definition class_add_member (klass member : ptr) : Mon unit :=
  let! invalid :=
    (if decide (klass = NULL) then ret true
     else if decide (member = NULL) then ret true
     else let! members := field klass Class_members in
          ret (bool_decide (members = NULL))) in
  if invalid then
    DEBUG_BREAK ;;; ret tt
  else
    let element_size := sizeof_Member in
    let! num_members := class_get_num_members klass in
    let data_size := size_mul element_size num_members in
    let! old := field klass Class_members in
    let! members := realloc_Members old (size_add data_size element_size) in
    update_Class klass (set_Class_members (Init members)) ;;;
    if decide (members = NULL) then ret tt
    else
      (let! n := field klass Class_num_members in
       update_Class klass (set_Class_num_members (Init (size_add n 1)))) ;;;
      let! members := field klass Class_members in
      let! n := field klass Class_num_members in
      let! dst := index members (size_sub n 1) in
      let! m := load_Member member in
      update_Member dst (fun _ => m).

Definition class_get_member (klass : ptr) (idx : Z) : Mon ptr :=
  if decide (klass = NULL) then ret NULL
  else
    let! num_members := class_get_num_members klass in
    if decide (idx < num_members) then
      let! members := field klass Class_members in
      index members idx
    else
      DEBUG_BREAK ;;; ret NULL.

Definition start (o : list bool) : St := mkState ∅ 1%positive o [].

(** *** Example stores *)

(** The third member of the program in [main.c]: [MyInt], a signed 32-bit 3. *)
Definition MyInt : Member :=
  mkMember (i_data 3) (Init (Some "MyInt"%string)) (Init MEMBER_TYPE_I32).

Definition MyInt_state : St :=
  mkState {[ 1%positive := (Dyn, BMembers [MyInt]) ]} 2 [] [].

(** The same store with one allocation to come. *)
Definition MyInt_state_live : St :=
  mkState {[ 1%positive := (Dyn, BMembers [MyInt]) ]} 2 [true] [].

(** An instance in block [k] with the given fields. *)
Definition instance_at (s : St) (k : addr) (nm : cstr) (pm : ptr) (n : Z)
    : Prop :=
  heap s !! k =
    Some (Dyn, BClass (mkClass (Init nm) (Init pm) (Init n))).

End Iter1.

(** * Second iteration: [src/unnamed/part_001], first program

    The function table without kinds: a function is a name and a callable,
    and [class_invoke_function] calls it directly. *)

Module Iter2.

Record Function := mkFunction {
  Function_name : slot cstr;
  Function_fn : slot fnptr
}.

Definition indet_Function : Function := mkFunction Indet Indet.

Record Class := mkClass {
  Class_name : slot cstr;
  Class_members : slot ptr;
  Class_num_members : slot Z;
  Class_functions : slot ptr;
  Class_num_functions : slot Z
}.

Abbreviation St := (state Function Class).
Abbreviation Mon := (M Function Class).

Definition field {A} (klass : ptr) (proj : Class -> slot A) : Mon A :=
  let! c := load_Class klass in rd (proj c).

Definition class_get_num_functions (klass : ptr) : Mon Z :=
  if decide (klass = NULL) then ret 0
  else field klass Class_num_functions.

Definition class_get_function (klass : ptr) (idx : Z) : Mon ptr :=
  if decide (klass = NULL) then ret NULL
  else
    let! num_functions := class_get_num_functions klass in
    if decide (idx < num_functions) then
      let! functions := field klass Class_functions in
      index functions idx
    else
      DEBUG_BREAK ;;; ret NULL.

Section Dispatch.
(** What the functions behind the pointers do; they may print. *)
Variable unary_code : code -> ptr -> Mon (list output).

(** [function->fn] is read without a null check. *)
Definition class_invoke_function (klass : ptr) (idx : Z)
    : Mon (list output) :=
  if decide (klass = NULL) then
    DEBUG_BREAK ;;; ret []
  else
    let! num_functions := class_get_num_functions klass in
    if decide (idx > size_sub num_functions 1) then
      DEBUG_BREAK ;;; ret []
    else
      let! function := class_get_function klass idx in
      let! f := load_Function function in
      let! fn := rd (Function_fn f) in
      match fn with
      | Some c => emit (EvCall c klass) ;;; unary_code c klass
      | None => ub
      end.
End Dispatch.

(** An instance in block [k] whose function table is [fs] in block [fb]
    (or the null pointer when [fs] is empty and [fb] is [None]). *)
Definition functions_of (s : St) (k : addr) (c : Class)
    (fb : option addr) (fs : list Function) : Prop :=
  heap s !! k = Some (Dyn, BClass c) /\
  Class_num_functions c = Init (Z.of_nat (length fs)) /\
  Z.of_nat (length fs) < SIZE_MOD /\
  match fb with
  | Some b =>
      Class_functions c = Init (Ptr b 0) /\
      exists st, heap s !! b = Some (st, BFunctions fs)
  | None => Class_functions c = Init NULL /\ fs = []
  end.

(** *** Example stores *)

Definition my_class_method_record : Function :=
  mkFunction (Init (Some "my_class_method"%string))
    (Init (Some "my_class_method"%string)).

(** The instance of [main] after [class_add_function]. *)
Definition test_class : Class :=
  mkClass (Init (Some "TestClass"%string)) (Init NULL) (Init 0)
    (Init (Ptr 2 0)) (Init 1).

Definition test_state : St :=
  mkState
    (<[2%positive := (Dyn, BFunctions [my_class_method_record])]>
       {[ 1%positive := (Dyn, BClass test_class) ]})
    3 [] [].

(** A callable that prints nothing. *)
Definition quiet (c : code) (p : ptr) : Mon (list output) := ret [].

End Iter2.

(** * Third iteration: [src/unnamed/part_000] *)

Module Iter3.

Inductive FunctionType :=
| FUNCTION_TYPE_CONSTRUCTOR
| FUNCTION_TYPE_CLASS_METHOD.

Record Function := mkFunction {
  Function_name : slot cstr;
  Function_type : slot FunctionType;
  Function_fn : slot fnptr
}.

Definition indet_Function : Function := mkFunction Indet Indet Indet.

(** 8 (pointer) + 4 (enum) + 4 (padding) + 8 *)
Definition sizeof_Function : Z := 24.

Definition set_Function_name v (f : Function) : Function :=
  mkFunction v (Function_type f) (Function_fn f).
Definition set_Function_type v (f : Function) : Function :=
  mkFunction (Function_name f) v (Function_fn f).
Definition set_Function_fn v (f : Function) : Function :=
  mkFunction (Function_name f) (Function_type f) v.

Record Class := mkClass {
  Class_name : slot cstr;
  Class_ctor : slot ptr;
  Class_members : slot ptr;
  Class_num_members : slot Z;
  Class_functions : slot ptr;
  Class_num_functions : slot Z
}.

Definition indet_Class : Class := mkClass Indet Indet Indet Indet Indet Indet.

Definition set_Class_name v (c : Class) : Class :=
  mkClass v (Class_ctor c) (Class_members c) (Class_num_members c)
    (Class_functions c) (Class_num_functions c).
Definition set_Class_ctor v (c : Class) : Class :=
  mkClass (Class_name c) v (Class_members c) (Class_num_members c)
    (Class_functions c) (Class_num_functions c).
Definition set_Class_members v (c : Class) : Class :=
  mkClass (Class_name c) (Class_ctor c) v (Class_num_members c)
    (Class_functions c) (Class_num_functions c).
Definition set_Class_num_members v (c : Class) : Class :=
  mkClass (Class_name c) (Class_ctor c) (Class_members c) v
    (Class_functions c) (Class_num_functions c).
Definition set_Class_functions v (c : Class) : Class :=
  mkClass (Class_name c) (Class_ctor c) (Class_members c)
    (Class_num_members c) v (Class_num_functions c).
Definition set_Class_num_functions v (c : Class) : Class :=
  mkClass (Class_name c) (Class_ctor c) (Class_members c)
    (Class_num_members c) (Class_functions c) v.

Record ClassCreateInfo := mkClassCreateInfo {
  ci_name : cstr;
  ci_ctor : ptr;
  ci_members : ptr;
  ci_num_members : Z;
  ci_functions : ptr;
  ci_num_functions : Z
}.

Abbreviation St := (state Function Class).
Abbreviation Mon := (M Function Class).

Definition field {A} (klass : ptr) (proj : Class -> slot A) : Mon A :=
  let! c := load_Class klass in rd (proj c).

Definition function_get_name (function : ptr) : Mon cstr :=
  if decide (function = NULL) then ret None
  else let! f := load_Function function in rd (Function_name f).

Definition function_get_type (function : ptr) : Mon FunctionType :=
  if decide (function = NULL) then ret FUNCTION_TYPE_CLASS_METHOD
  else let! f := load_Function function in rd (Function_type f).

Section Dispatch.
Variable unary_code : code -> ptr -> Mon unit.

(** [function->fn(klass)] *)
Definition call_fn (function klass : ptr) : Mon unit :=
  let! f := load_Function function in
  let! fn := rd (Function_fn f) in
  match fn with
  | Some c => emit (EvCall c klass) ;;; unary_code c klass
  | None => ub
  end.

Definition function_invoke (function klass : ptr) : Mon unit :=
  if decide (function = NULL \/ klass = NULL) then
    DEBUG_BREAK ;;; ret tt
  else
    let! type := function_get_type function in
    match type with
    | FUNCTION_TYPE_CONSTRUCTOR => call_fn function klass
    | FUNCTION_TYPE_CLASS_METHOD => call_fn function klass
    end.

Definition class_has_constructor (klass : ptr) : Mon Z :=
  if decide (klass = NULL) then ret 0
  else let! p := field klass Class_ctor in
       ret (if decide (p <> NULL) then 1 else 0).

(** The class keeps the descriptor's pointers: constructor record, member
    array and function array stay shared with the caller. *)
Definition class_create (createInfo : ClassCreateInfo) : Mon ptr :=
  let! klass := malloc_Class indet_Class in
  if decide (klass = NULL) then ret NULL
  else
    update_Class klass (set_Class_name (Init (ci_name createInfo))) ;;;
    update_Class klass (set_Class_ctor (Init (ci_ctor createInfo))) ;;;
    update_Class klass (set_Class_members (Init (ci_members createInfo))) ;;;
    update_Class klass
      (set_Class_num_members (Init (ci_num_members createInfo))) ;;;
    update_Class klass
      (set_Class_functions (Init (ci_functions createInfo))) ;;;
    update_Class klass
      (set_Class_num_functions (Init (ci_num_functions createInfo))) ;;;
    let! has := class_has_constructor klass in
    (if decide (has = 1) then
       let! ctor := field klass Class_ctor in
       update_Function ctor
         (set_Function_type (Init FUNCTION_TYPE_CONSTRUCTOR)) ;;;
       let! ctor := field klass Class_ctor in
       function_invoke ctor klass
     else ret tt) ;;;
    ret klass.

Definition class_get_name (klass : ptr) : Mon cstr :=
  if decide (klass = NULL) then ret None
  else field klass Class_name.

Definition class_get_constructor (klass : ptr) : Mon ptr :=
  if decide (klass = NULL) then ret NULL
  else field klass Class_ctor.

Definition class_get_num_members (klass : ptr) : Mon Z :=
  if decide (klass = NULL) then ret 0
  else field klass Class_num_members.

Definition class_get_num_functions (klass : ptr) : Mon Z :=
  if decide (klass = NULL) then ret 0
  else field klass Class_num_functions.

Definition class_destroy (klass : ptr) : Mon unit :=
  if decide (klass = NULL) then
    DEBUG_BREAK ;;; ret tt
  else
    let! num_members := class_get_num_members klass in
    (if decide (num_members > 0) then
       let! members := field klass Class_members in free members
     else ret tt) ;;;
    let! num_functions := class_get_num_functions klass in
    (if decide (num_functions > 0) then
       let! functions := field klass Class_functions in free functions
     else ret tt) ;;;
    let! has := class_has_constructor klass in
    (if decide (has = 1) then
       let! ctor := field klass Class_ctor in free ctor
     else ret tt) ;;;
    free klass.

Definition class_get_member (klass : ptr) (idx : Z) : Mon ptr :=
  if decide (klass = NULL) then ret NULL
  else
    let! num_members := class_get_num_members klass in
    if decide (idx < num_members) then
      let! members := field klass Class_members in
      index members idx
    else
      DEBUG_BREAK ;;; ret NULL.

Definition class_get_function (klass : ptr) (idx : Z) : Mon ptr :=
  if decide (klass = NULL) then ret NULL
  else
    let! num_functions := class_get_num_functions klass in
    if decide (idx < num_functions) then
      let! functions := field klass Class_functions in
      index functions idx
    else
      DEBUG_BREAK ;;; ret NULL.

Definition class_invoke_function (klass : ptr) (idx : Z) : Mon unit :=
  if decide (klass = NULL) then
    DEBUG_BREAK ;;; ret tt
  else
    let! num_functions := class_get_num_functions klass in
    if decide (idx > size_sub num_functions 1) then
      DEBUG_BREAK ;;; ret tt
    else
      let! function := class_get_function klass idx in
      function_invoke function klass.

End Dispatch.

Definition start (o : list bool) : St := mkState ∅ 1%positive o [].

(** *** Vocabulary and example stores *)

(** [*class_get_member(klass, i)] *)
Definition member_at (klass : ptr) (i : Z) : Mon Member :=
  let! p := class_get_member klass i in load_Member p.

(** A store with the array the caller built with [malloc], as
    [create_vec2] of [part_000] does, here with one element. *)
Definition x_member : Member :=
  mkMember (f_data (f32_of_Z 1)) (Init (Some "x"%string)) (Init MEMBER_TYPE_F32).




(** *** Mutators *)

Definition class_add_member (klass member : ptr) : Mon unit :=
  if decide (klass = NULL) then
    DEBUG_BREAK ;;; ret tt
  else if decide (member = NULL) then
    DEBUG_BREAK ;;; ret tt
  else
    let element_size := sizeof_Member in
    let! num_members := class_get_num_members klass in
    let data_size := size_mul element_size num_members in
    let! old := field klass Class_members in
    let! members := realloc_Members old (size_add data_size element_size) in
    update_Class klass (set_Class_members (Init members)) ;;;
    if decide (members = NULL) then ret tt
    else
      (let! n := field klass Class_num_members in
       update_Class klass (set_Class_num_members (Init (size_add n 1)))) ;;;
      let! members := field klass Class_members in
      let! n := field klass Class_num_members in
      let! dst := index members (size_sub n 1) in
      let! m := load_Member member in
      update_Member dst (fun _ => m).

Definition class_add_function (klass function : ptr) : Mon unit :=
  if decide (klass = NULL) then
    DEBUG_BREAK ;;; ret tt
  else if decide (function = NULL) then
    DEBUG_BREAK ;;; ret tt
  else
    let element_size := sizeof_Function in
    let! num_functions := class_get_num_functions klass in
    let data_size := size_mul element_size num_functions in
    let! old := field klass Class_functions in
    let! functions :=
      realloc_Functions indet_Function sizeof_Function old
        (size_add data_size element_size) in
    update_Class klass (set_Class_functions (Init functions)) ;;;
    if decide (functions = NULL) then ret tt
    else
      (let! n := field klass Class_num_functions in
       update_Class klass (set_Class_num_functions (Init (size_add n 1)))) ;;;
      let! functions := field klass Class_functions in
      let! n := field klass Class_num_functions in
      let! dst := index functions (size_sub n 1) in
      let! f := load_Function function in
      update_Function dst (fun _ => f).

(** ** The demonstration program of [part_000] *)

Definition vec2_ctor (this : ptr) : Mon unit := ret tt.

(** The unary functions that [main] can reach. *)
Definition unary_table (c : code) : ptr -> Mon unit :=
  if decide (c = "vec2_ctor"%string) then vec2_ctor
  else fun _ => ub.

(** In this iteration [create_vec2] builds the constructor record and the
    member array with [malloc] and hands them to the class. The designated
    initialiser leaves the function array null and its count zero. *)
Definition create_vec2 (x y : float) : Mon ptr :=
  let! ctor := malloc_Functions indet_Function sizeof_Function sizeof_Function in
  if decide (ctor = NULL) then ret NULL
  else
    update_Function ctor (set_Function_fn (Init (Some "vec2_ctor"%string))) ;;;
    update_Function ctor (set_Function_name (Init (Some "vec2_ctor"%string))) ;;;
    let num_members := 2 in
    let! members := malloc_Members (size_mul sizeof_Member num_members) in
    if decide (members = NULL) then ret NULL
    else
      for_loop (Z.to_nat num_members) 0
        (fun i => let! member := index members i in
                  update_Member member (set_Member_type (Init MEMBER_TYPE_F32))) ;;;
      (let! member := index members 0 in
       update_Member member (set_Member_name (Init (Some "x"%string))) ;;;
       update_Member member (set_Member_data (f_data x)) ;;;
       let! member := index members 1 in
       update_Member member (set_Member_name (Init (Some "y"%string))) ;;;
       update_Member member (set_Member_data (f_data y))) ;;;
      let createInfo :=
        mkClassCreateInfo (Some "Vec2"%string) ctor members num_members NULL 0 in
      let! klass := class_create unary_table createInfo in
      if decide (klass = NULL) then ret NULL
      else ret klass.

(** *** Further vocabulary *)

(** An instance in block [k] with the given fields. *)
Definition instance_at (s : St) (k : addr) (nm : cstr) (pc pm : ptr) (n : Z)
    (pf : ptr) (nf : Z) : Prop :=
  heap s !! k =
    Some (Dyn, BClass (mkClass (Init nm) (Init pc) (Init pm) (Init n)
                         (Init pf) (Init nf))).

(** The constructor record [create_vec2] builds. *)
Definition vec2_ctor_record : Function :=
  mkFunction (Init (Some "vec2_ctor"%string)) Indet
    (Init (Some "vec2_ctor"%string)).

(** An instance without constructor and without arrays, as
    [class_create] makes it from a descriptor that only has a name. *)
Definition bare_state (o : list bool) : St :=
  mkState
    (<[2%positive := (Dyn, BMembers [x_member])]>
       {[ 1%positive :=
            (Dyn, BClass (mkClass (Init (Some "Bare"%string)) (Init NULL)
                            (Init NULL) (Init 0) (Init NULL) (Init 0))) ]})
    3 o [].

(** An instance that owns a constructor record (block 2), a member array
    (block 3) and a function array (block 4). *)
Definition owner_state : St :=
  mkState
    (<[4%positive := (Dyn, BFunctions [vec2_ctor_record])]>
       (<[3%positive := (Dyn, BMembers [x_member])]>
          (<[2%positive := (Dyn, BFunctions [vec2_ctor_record])]>
             {[ 1%positive :=
                  (Dyn, BClass (mkClass (Init (Some "Vec1"%string))
                                  (Init (Ptr 2 0)) (Init (Ptr 3 0)) (Init 1)
                                  (Init (Ptr 4 0)) (Init 1))) ]})))
    5 [] [].

End Iter3.

(** * Fourth iteration: [src/unnamed/part_001], second program *)

Module Iter4.

Inductive FunctionType :=
| FUNCTION_TYPE_CONSTRUCTOR
| FUNCTION_TYPE_DESTRUCTOR
| FUNCTION_TYPE_MEMBER_FUNCTION.

Record Function := mkFunction {
  Function_name : slot cstr;
  Function_type : slot FunctionType;
  Function_fn : slot fnptr;
  Function_binary_member_fn : slot fnptr
}.

Definition indet_Function : Function := mkFunction Indet Indet Indet Indet.

(** 8 (pointer) + 4 (enum) + 4 (padding) + 8 + 8 *)
Definition sizeof_Function : Z := 32.

Definition set_Function_name v (f : Function) : Function :=
  mkFunction v (Function_type f) (Function_fn f) (Function_binary_member_fn f).
Definition set_Function_type v (f : Function) : Function :=
  mkFunction (Function_name f) v (Function_fn f) (Function_binary_member_fn f).
Definition set_Function_fn v (f : Function) : Function :=
  mkFunction (Function_name f) (Function_type f) v (Function_binary_member_fn f).
Definition set_Function_binary_member_fn v (f : Function) : Function :=
  mkFunction (Function_name f) (Function_type f) (Function_fn f) v.

Record Class := mkClass {
  Class_name : slot cstr;
  Class_ctor : slot ptr;
  Class_dtor : slot ptr;
  Class_members : slot ptr;
  Class_num_members : slot Z;
  Class_functions : slot ptr;
  Class_num_functions : slot Z
}.

Definition indet_Class : Class :=
  mkClass Indet Indet Indet Indet Indet Indet Indet.

Definition set_Class_name v (c : Class) : Class :=
  mkClass v (Class_ctor c) (Class_dtor c) (Class_members c)
    (Class_num_members c) (Class_functions c) (Class_num_functions c).
Definition set_Class_ctor v (c : Class) : Class :=
  mkClass (Class_name c) v (Class_dtor c) (Class_members c)
    (Class_num_members c) (Class_functions c) (Class_num_functions c).
Definition set_Class_dtor v (c : Class) : Class :=
  mkClass (Class_name c) (Class_ctor c) v (Class_members c)
    (Class_num_members c) (Class_functions c) (Class_num_functions c).
Definition set_Class_members v (c : Class) : Class :=
  mkClass (Class_name c) (Class_ctor c) (Class_dtor c) v
    (Class_num_members c) (Class_functions c) (Class_num_functions c).
Definition set_Class_num_members v (c : Class) : Class :=
  mkClass (Class_name c) (Class_ctor c) (Class_dtor c) (Class_members c)
    v (Class_functions c) (Class_num_functions c).
Definition set_Class_functions v (c : Class) : Class :=
  mkClass (Class_name c) (Class_ctor c) (Class_dtor c) (Class_members c)
    (Class_num_members c) v (Class_num_functions c).
Definition set_Class_num_functions v (c : Class) : Class :=
  mkClass (Class_name c) (Class_ctor c) (Class_dtor c) (Class_members c)
    (Class_num_members c) (Class_functions c) v.

(** The creation descriptor. [class_create] dereferences its argument without
    a null check, so the model takes the pointee. *)
Record ClassCreateInfo := mkClassCreateInfo {
  ci_name : cstr;
  ci_ctor : ptr;
  ci_dtor : ptr;
  ci_members : ptr;
  ci_num_members : Z;
  ci_functions : ptr;
  ci_num_functions : Z
}.

Abbreviation St := (state Function Class).
Abbreviation Mon := (M Function Class).

(** [p->field] for a [Class* p] *)
Definition field {A} (klass : ptr) (proj : Class -> slot A) : Mon A :=
  let! c := load_Class klass in rd (proj c).

(** *** Functions *)

Definition function_get_name (function : ptr) : Mon cstr :=
  if decide (function = NULL) then ret None
  else let! f := load_Function function in rd (Function_name f).

Definition function_get_type (function : ptr) : Mon FunctionType :=
  if decide (function = NULL) then ret FUNCTION_TYPE_MEMBER_FUNCTION
  else let! f := load_Function function in rd (Function_type f).

Section Dispatch.
(** What the C functions behind the function pointers do. *)
Variable unary_code : code -> ptr -> Mon unit.
Variable binary_code : code -> ptr -> ptr -> Mon ptr.

(** [function->fn(klass)] *)
Definition call_fn (function klass : ptr) : Mon unit :=
  let! f := load_Function function in
  let! fn := rd (Function_fn f) in
  match fn with
  | Some c => emit (EvCall c klass) ;;; unary_code c klass
  | None => ub
  end.

(** [function->binary_member_fn(klass, other)] *)
Definition call_binary_member_fn (function klass other : ptr) : Mon ptr :=
  let! f := load_Function function in
  let! fn := rd (Function_binary_member_fn f) in
  match fn with
  | Some c => emit (EvCall2 c klass other) ;;; binary_code c klass other
  | None => ub
  end.

(** The [switch] covers the three enumerators, so the statements after it
    cannot be reached from a value of [FunctionType]. *)
Definition function_invoke (function klass other : ptr) : Mon ptr :=
  if decide (function = NULL \/ klass = NULL) then
    DEBUG_BREAK ;;; ret NULL
  else
    let! type := function_get_type function in
    match type with
    | FUNCTION_TYPE_CONSTRUCTOR => call_fn function klass ;;; ret NULL
    | FUNCTION_TYPE_DESTRUCTOR => call_fn function klass ;;; ret NULL
    | FUNCTION_TYPE_MEMBER_FUNCTION =>
        if decide (other = NULL) then
          call_fn function klass ;;; ret NULL
        else
          call_binary_member_fn function klass other
    end.

(** *** Read accessors *)

Definition class_get_name (klass : ptr) : Mon cstr :=
  if decide (klass = NULL) then ret None
  else field klass Class_name.

Definition class_has_constructor (klass : ptr) : Mon Z :=
  if decide (klass = NULL) then ret 0
  else let! p := field klass Class_ctor in
       ret (if decide (p <> NULL) then 1 else 0).

Definition class_has_destructor (klass : ptr) : Mon Z :=
  if decide (klass = NULL) then ret 0
  else let! p := field klass Class_dtor in
       ret (if decide (p <> NULL) then 1 else 0).

Definition class_get_constructor (klass : ptr) : Mon ptr :=
  if decide (klass = NULL) then ret NULL
  else field klass Class_ctor.

Definition class_get_destructor (klass : ptr) : Mon ptr :=
  if decide (klass = NULL) then ret NULL
  else field klass Class_dtor.

Definition class_get_num_members (klass : ptr) : Mon Z :=
  if decide (klass = NULL) then ret 0
  else field klass Class_num_members.

Definition class_get_num_functions (klass : ptr) : Mon Z :=
  if decide (klass = NULL) then ret 0
  else field klass Class_num_functions.

Definition class_get_member (klass : ptr) (idx : Z) : Mon ptr :=
  if decide (klass = NULL) then ret NULL
  else
    let! num_members := class_get_num_members klass in
    if decide (idx < num_members) then
      let! members := field klass Class_members in
      index members idx
    else
      DEBUG_BREAK ;;; ret NULL.

Definition class_get_function (klass : ptr) (idx : Z) : Mon ptr :=
  if decide (klass = NULL) then ret NULL
  else
    let! num_functions := class_get_num_functions klass in
    if decide (idx < num_functions) then
      let! functions := field klass Class_functions in
      index functions idx
    else
      DEBUG_BREAK ;;; ret NULL.

(** *** Invocation by index *)

Definition class_invoke_function (klass other : ptr) (idx : Z) : Mon ptr :=
  if decide (klass = NULL) then
    DEBUG_BREAK ;;; ret NULL
  else
    let! num_functions := class_get_num_functions klass in
    if decide (idx > size_sub num_functions 1) then
      DEBUG_BREAK ;;; ret NULL
    else
      let! function := class_get_function klass idx in
      function_invoke function klass other.

(** *** Lifecycle *)

(** The body of the first copy loop of [class_create]. *)
Definition copy_member (klass : ptr) (createInfo : ClassCreateInfo) (i : Z)
    : Mon unit :=
  let! members := field klass Class_members in
  let! member := index members i in
  let! other := index (ci_members createInfo) i in
  (let! o := load_Member other in
   update_Member member (set_Member_name (Member_name o))) ;;;
  (let! o := load_Member other in
   update_Member member (set_Member_type (Member_type o))) ;;;
  (let! o := load_Member other in
   update_Member member (set_Member_data (Member_data o))).

(** The body of the second copy loop of [class_create]. *)
Definition copy_function (klass : ptr) (createInfo : ClassCreateInfo) (i : Z)
    : Mon unit :=
  let! functions := field klass Class_functions in
  let! function := index functions i in
  let! other := index (ci_functions createInfo) i in
  (let! o := load_Function other in
   update_Function function (set_Function_fn (Function_fn o))) ;;;
  (let! o := load_Function other in
   update_Function function
     (set_Function_binary_member_fn (Function_binary_member_fn o))) ;;;
  (let! o := load_Function other in
   update_Function function (set_Function_name (Function_name o))) ;;;
  (let! o := load_Function other in
   update_Function function (set_Function_type (Function_type o))).

(** The [if (createInfo->ctor != NULL) ... else ...] statement; the result
    is [false] when the statement executes [return NULL]. *)
Definition install_ctor (klass : ptr) (createInfo : ClassCreateInfo)
    : Mon bool :=
  if decide (ci_ctor createInfo <> NULL) then
    let! p := malloc_Functions indet_Function sizeof_Function sizeof_Function in
    update_Class klass (set_Class_ctor (Init p)) ;;;
    if decide (p = NULL) then ret false
    else
      (let! o := load_Function (ci_ctor createInfo) in
       update_Function p (set_Function_fn (Function_fn o))) ;;;
      (let! o := load_Function (ci_ctor createInfo) in
       update_Function p (set_Function_name (Function_name o))) ;;;
      ret true
  else
    update_Class klass (set_Class_ctor (Init NULL)) ;;; ret true.

Definition install_dtor (klass : ptr) (createInfo : ClassCreateInfo)
    : Mon bool :=
  if decide (ci_dtor createInfo <> NULL) then
    let! p := malloc_Functions indet_Function sizeof_Function sizeof_Function in
    update_Class klass (set_Class_dtor (Init p)) ;;;
    if decide (p = NULL) then ret false
    else
      (let! o := load_Function (ci_dtor createInfo) in
       update_Function p (set_Function_fn (Function_fn o))) ;;;
      (let! o := load_Function (ci_dtor createInfo) in
       update_Function p (set_Function_name (Function_name o))) ;;;
      ret true
  else
    update_Class klass (set_Class_dtor (Init NULL)) ;;; ret true.

Definition class_create (createInfo : ClassCreateInfo) : Mon ptr :=
  let! klass := malloc_Class indet_Class in
  if decide (klass = NULL) then ret NULL
  else
    update_Class klass (set_Class_name (Init (ci_name createInfo))) ;;;
    let! fell_through := install_ctor klass createInfo in
    if negb fell_through then ret NULL
    else
    let! fell_through := install_dtor klass createInfo in
    if negb fell_through then ret NULL
    else
    let! members :=
      malloc_Members (size_mul sizeof_Member (ci_num_members createInfo)) in
    update_Class klass (set_Class_members (Init members)) ;;;
    if decide (members = NULL) then ret NULL
    else
    update_Class klass
      (set_Class_num_members (Init (ci_num_members createInfo))) ;;;
    let! num_members := field klass Class_num_members in
    for_loop (Z.to_nat num_members) 0 (copy_member klass createInfo) ;;;
    let! functions :=
      malloc_Functions indet_Function sizeof_Function
        (size_mul sizeof_Function (ci_num_functions createInfo)) in
    update_Class klass (set_Class_functions (Init functions)) ;;;
    if decide (functions = NULL) then ret NULL
    else
    update_Class klass
      (set_Class_num_functions (Init (ci_num_functions createInfo))) ;;;
    let! num_functions := field klass Class_num_functions in
    for_loop (Z.to_nat num_functions) 0 (copy_function klass createInfo) ;;;
    let! has := class_has_constructor klass in
    (if decide (has = 1) then
       let! ctor := field klass Class_ctor in
       update_Function ctor (set_Function_type (Init FUNCTION_TYPE_CONSTRUCTOR)) ;;;
       let! ctor := field klass Class_ctor in
       function_invoke ctor klass NULL ;;; ret tt
     else ret tt) ;;;
    ret klass.

Definition class_destroy (klass : ptr) : Mon unit :=
  if decide (klass = NULL) then
    DEBUG_BREAK ;;; ret tt
  else
    let! has := class_has_constructor klass in
    (if decide (has = 1) then
       let! ctor := field klass Class_ctor in free ctor
     else ret tt) ;;;
    let! has := class_has_destructor klass in
    (if decide (has = 1) then
       let! dtor := field klass Class_dtor in
       update_Function dtor (set_Function_type (Init FUNCTION_TYPE_DESTRUCTOR)) ;;;
       let! dtor := field klass Class_dtor in
       function_invoke dtor klass NULL ;;;
       let! dtor := field klass Class_dtor in
       free dtor
     else ret tt) ;;;
    let! num_members := class_get_num_members klass in
    (if decide (num_members > 0) then
       let! members := field klass Class_members in free members
     else ret tt) ;;;
    let! num_functions := class_get_num_functions klass in
    (if decide (num_functions > 0) then
       let! functions := field klass Class_functions in free functions
     else ret tt) ;;;
    free klass.

(** *** Mutators *)

Definition class_add_member (klass member : ptr) : Mon unit :=
  if decide (klass = NULL) then
    DEBUG_BREAK ;;; ret tt
  else if decide (member = NULL) then
    DEBUG_BREAK ;;; ret tt
  else
    let element_size := sizeof_Member in
    let! num_members := class_get_num_members klass in
    let data_size := size_mul element_size num_members in
    let! old := field klass Class_members in
    let! members := realloc_Members old (size_add data_size element_size) in
    update_Class klass (set_Class_members (Init members)) ;;;
    if decide (members = NULL) then ret tt
    else
      (let! n := field klass Class_num_members in
       update_Class klass (set_Class_num_members (Init (size_add n 1)))) ;;;
      let! members := field klass Class_members in
      let! n := field klass Class_num_members in
      let! dst := index members (size_sub n 1) in
      let! m := load_Member member in
      update_Member dst (fun _ => m).

Definition class_add_function (klass function : ptr) : Mon unit :=
  if decide (klass = NULL) then
    DEBUG_BREAK ;;; ret tt
  else if decide (function = NULL) then
    DEBUG_BREAK ;;; ret tt
  else
    let element_size := sizeof_Function in
    let! num_functions := class_get_num_functions klass in
    let data_size := size_mul element_size num_functions in
    let! old := field klass Class_functions in
    let! functions :=
      realloc_Functions indet_Function sizeof_Function old
        (size_add data_size element_size) in
    update_Class klass (set_Class_functions (Init functions)) ;;;
    if decide (functions = NULL) then ret tt
    else
      (let! n := field klass Class_num_functions in
       update_Class klass (set_Class_num_functions (Init (size_add n 1)))) ;;;
      let! functions := field klass Class_functions in
      let! n := field klass Class_num_functions in
      let! dst := index functions (size_sub n 1) in
      let! f := load_Function function in
      update_Function dst (fun _ => f).

End Dispatch.

(** ** The demonstration program of the fourth iteration *)

Definition vec2_ctor (this : ptr) : Mon unit := ret tt.

Definition vec2_dtor (this : ptr) : Mon unit := ret tt.

(** The functions of the program that have the unary signature. *)
Definition unary_table (c : code) : ptr -> Mon unit :=
  if decide (c = "vec2_ctor"%string) then vec2_ctor
  else if decide (c = "vec2_dtor"%string) then vec2_dtor
  else fun _ => ub.

(** [p->data.f_data] read as a [float] *)
Definition rd_f_data (d : MemberData) : Mon float :=
  match d with
  | f_data f => ret f
  | _ => ub
  end.

Section Vec2.
Variable binary_code : code -> ptr -> ptr -> Mon ptr.

Definition create_vec2 (x y : float) : Mon ptr :=
  let! ctor := alloca (BFunctions [indet_Function]) in
  update_Function ctor (set_Function_fn (Init (Some "vec2_ctor"%string))) ;;;
  update_Function ctor (set_Function_name (Init (Some "vec2_ctor"%string))) ;;;
  let! dtor := alloca (BFunctions [indet_Function]) in
  update_Function dtor (set_Function_fn (Init (Some "vec2_dtor"%string))) ;;;
  update_Function dtor (set_Function_name (Init (Some "vec2_dtor"%string))) ;;;
  let x_member := indet_Member in
  let y_member := indet_Member in
  let x_member := set_Member_name (Init (Some "x"%string)) x_member in
  let x_member := set_Member_data (f_data x) x_member in
  let y_member := set_Member_name (Init (Some "y"%string)) y_member in
  let y_member := set_Member_data (f_data y) y_member in
  let! members := alloca (BMembers [x_member; y_member]) in
  let num_members := 2 in
  for_loop (Z.to_nat num_members) 0
    (fun i => let! member := index members i in
              update_Member member (set_Member_type (Init MEMBER_TYPE_F32))) ;;;
  let! add_fn := alloca (BFunctions [indet_Function]) in
  update_Function add_fn
    (set_Function_type (Init FUNCTION_TYPE_MEMBER_FUNCTION)) ;;;
  update_Function add_fn
    (set_Function_binary_member_fn (Init (Some "vec2_add"%string))) ;;;
  update_Function add_fn (set_Function_name (Init (Some "vec2_add"%string))) ;;;
  let createInfo :=
    mkClassCreateInfo (Some "Vec2"%string) ctor dtor members num_members
      add_fn 1 in
  let! klass := class_create unary_table binary_code createInfo in
  leave add_fn ;;; leave members ;;; leave dtor ;;; leave ctor ;;;
  if decide (klass = NULL) then ret NULL
  else ret klass.

(** [klass->members[i].data.f_data] *)
Definition member_f_data (klass : ptr) (i : Z) : Mon float :=
  let! members := field klass Class_members in
  let! p := index members i in
  let! m := load_Member p in
  rd_f_data (Member_data m).

(** [klass->members[i].data.f_data = v] *)
Definition set_member_f_data (klass : ptr) (i : Z) (v : float) : Mon unit :=
  let! members := field klass Class_members in
  let! p := index members i in
  update_Member p (set_Member_data (f_data v)).

Definition vec2_add (lhs rhs : ptr) : Mon ptr :=
  let! result := create_vec2 (f32_of_Z 0) (f32_of_Z 0) in
  (let! a := member_f_data lhs 0 in
   let! b := member_f_data rhs 0 in
   set_member_f_data result 0 (f32_add a b)) ;;;
  (let! a := member_f_data lhs 1 in
   let! b := member_f_data rhs 1 in
   set_member_f_data result 1 (f32_add a b)) ;;;
  ret result.
End Vec2.

(** The functions of the program that have the binary signature. A call
    through a function pointer may re-enter the program, hence the fuel. *)
Fixpoint binary_table (fuel : nat) (c : code) (lhs rhs : ptr) : Mon ptr :=
  match fuel with
  | O => out_of_fuel
  | S n =>
      if decide (c = "vec2_add"%string) then vec2_add (binary_table n) lhs rhs
      else ub
  end.

(** The first three statements of [test_vec2_class]. *)
Definition vec2_scenario (fuel : nat) : Mon (ptr * ptr * ptr) :=
  let! a := create_vec2 (binary_table fuel) (f32_of_Z 1) (f32_of_Z 3) in
  let! b := create_vec2 (binary_table fuel) (f32_of_Z 2) (f32_of_Z 4) in
  let! c := class_invoke_function unary_table (binary_table fuel) a b 0 in
  ret (a, b, c).

(** [test_vec2_class], without the printing. *)
Definition test_vec2_class (fuel : nat) : Mon unit :=
  let! abc := vec2_scenario fuel in
  let '(a, b, c) := abc in
  class_destroy unary_table (binary_table fuel) a ;;;
  class_destroy unary_table (binary_table fuel) b ;;;
  class_destroy unary_table (binary_table fuel) c.

Definition start (o : list bool) : St := mkState ∅ 1%positive o [].

(** ** Printing and the test programs *)

Section Print.
Variable unary_code : code -> ptr -> Mon unit.
Variable binary_code : code -> ptr -> ptr -> Mon ptr.

(** The body of the first loop of [class_debug_print]. *)
Definition debug_print_member (klass : ptr) (i : Z) : Mon (list output) :=
  let! member := class_get_member klass i in
  let! name := member_get_name member in
  let! member_type := member_get_type member in
  let! type := member_type_to_string (MemberType_value member_type) in
  let! data := member_get_data member in
  ret [Printf "%zu." [arg_size (size_add i 1)];
       Printf "\tName: %s\n" [arg_str name];
       Printf "\tType: %s\n" [arg_str type];
       Printf "\tData: " [];
       print_data member_type data;
       Putchar newline].

(** The body of the second loop. *)
Definition debug_print_function (klass : ptr) (i : Z) : Mon (list output) :=
  let! function := class_get_function klass i in
  let! name := function_get_name function in
  ret [Printf "%zu." [arg_size (size_add i 1)];
       Printf "\tName: %s\n" [arg_str name]].

Definition class_debug_print (klass : ptr) : Mon (list output) :=
  if decide (klass = NULL) then ret []
  else
    let! class_name := class_get_name klass in
    let! num_members := class_get_num_members klass in
    let! num_functions := class_get_num_functions klass in
    say [Printf "Class: %s\n" [arg_str class_name];
         Printf "Data Members: %zu\n" [arg_size num_members];
         Printf "Member Functions: %zu\n" [arg_size num_functions];
         Printf "Ctor: " []] +++
    (let! has := class_has_constructor klass in
     if decide (has = 1) then
       let! ctor := class_get_constructor klass in
       let! ctor_name := function_get_name ctor in
       say [Printf "%s" [arg_str ctor_name]]
     else say [Printf "(null)" []]) +++
    say [Putchar newline; Printf "Dtor: " []] +++
    (let! has := class_has_destructor klass in
     if decide (has = 1) then
       let! dtor := class_get_destructor klass in
       let! dtor_name := function_get_name dtor in
       say [Printf "%s" [arg_str dtor_name]]
     else say [Printf "(null)" []]) +++
    say [Putchar newline; Putchar newline; Printf "Data Members: " []] +++
    (if decide (num_members = 0) then say [Printf "(null)" []] else say []) +++
    say [Putchar newline] +++
    for_say (Z.to_nat num_members) 0 (debug_print_member klass) +++
    say [Putchar newline; Printf "Member Functions: " []] +++
    (if decide (num_functions = 0) then say [Printf "(null)" []] else say []) +++
    say [Putchar newline] +++
    for_say (Z.to_nat num_functions) 0 (debug_print_function klass).

(** [test_class_test]: the descriptor has a name and nothing else. *)
Definition test_class_test : Mon (list output) :=
  let createInfo :=
    mkClassCreateInfo (Some "TestClass"%string) NULL NULL NULL 0 NULL 0 in
  let! klass := class_create unary_code binary_code createInfo in
  if decide (klass = NULL) then ret []
  else
    let! out := class_debug_print klass in
    class_destroy unary_code binary_code klass ;;;
    ret out.

(** [main]: [getchar()] yields [input]. *)
Definition main (input : Z) : Mon (list output * Z) :=
  let! out := test_class_test in
  ret (out, input).
End Print.

(** What [class_debug_print] prints for member [i] and for function [i],
    and for the tables from index [i] on. *)
Definition member_entry (i : Z) (name : cstr) (type : MemberType)
    (data : MemberData) : list output :=
  [Printf "%zu." [arg_size (size_add i 1)];
   Printf "\tName: %s\n" [arg_str name];
   Printf "\tType: %s\n"
     [arg_str (Some (match type with
                     | MEMBER_TYPE_F32 => "f32"
                     | MEMBER_TYPE_F64 => "f64"
                     | MEMBER_TYPE_I32 => "i32"
                     | MEMBER_TYPE_U32 => "u32"
                     end)%string)];
   Printf "\tData: " [];
   print_data type data;
   Putchar newline].

Fixpoint member_entries (i : Z) (ms : list Member) : list output :=
  match ms with
  | [] => []
  | m :: ms' =>
      match Member_name m, Member_type m with
      | Init name, Init type =>
          member_entry i name type (Member_data m) ++ member_entries (i + 1) ms'
      | _, _ => []
      end
  end.

Fixpoint function_entries (i : Z) (fs : list Function) : list output :=
  match fs with
  | [] => []
  | f :: fs' =>
      match Function_name f with
      | Init name =>
          [Printf "%zu." [arg_size (size_add i 1)];
           Printf "\tName: %s\n" [arg_str name]] ++ function_entries (i + 1) fs'
      | Indet => []
      end
  end.

(** The name [class_debug_print] shows for an optional callback record. *)
Definition shown (r : option Function) : list output :=
  match r with
  | Some f =>
      match Function_name f with
      | Init name => [Printf "%s" [arg_str name]]
      | Indet => []
      end
  | None => [Printf "(null)" []]
  end.

Definition null_if_empty {A} (l : list A) : list output :=
  match l with
  | [] => [Printf "(null)" []]
  | _ :: _ => []
  end.

(** Members and functions all of whose printed fields are assigned. *)
Definition printable_member (m : Member) : Prop :=
  (exists name, Member_name m = Init name) /\
  (exists type, Member_type m = Init type).

Definition printable_function (f : Function) : Prop :=
  exists name, Function_name f = Init name.

(** ** Vocabulary for stating properties *)

(** A well-formed instance in block [k]: its two tables are live [malloc]
    blocks of the recorded lengths. *)
Record class_at (s : St) (k : addr) (nm : cstr) (pc pd : ptr)
    (mb : addr) (ms : list Member) (fb : addr) (fs : list Function) : Prop :=
  mk_class_at {
    at_class :
      heap s !! k =
        Some (Dyn, BClass (mkClass (Init nm) (Init pc) (Init pd)
                             (Init (Ptr mb 0)) (Init (Z.of_nat (length ms)))
                             (Init (Ptr fb 0)) (Init (Z.of_nat (length fs)))));
    at_members : heap s !! mb = Some (Dyn, BMembers ms);
    at_functions : heap s !! fb = Some (Dyn, BFunctions fs);
    at_members_fit : sizeof_Member * Z.of_nat (length ms) < SIZE_MOD;
    at_functions_fit : sizeof_Function * Z.of_nat (length fs) < SIZE_MOD
  }.

(** [*class_get_member(klass, i)] and [*class_get_function(klass, i)] *)
Definition member_at (klass : ptr) (i : Z) : Mon Member :=
  let! p := class_get_member klass i in load_Member p.

Definition function_at (klass : ptr) (i : Z) : Mon Function :=
  let! p := class_get_function klass i in load_Function p.

(** The state in which the callee starts: the call has been recorded. *)
Definition called (s : St) (e : event) : St :=
  mkState (heap s) (next s) (oracle s) (trace s ++ [e]).

(** The [n] elements the descriptor's array pointer designates. *)
Definition members_at (h : gmap addr (storage * block Function Class))
    (p : ptr) (xs : list Member) : Prop :=
  xs = [] \/
  exists b o st src,
    p = Ptr b o /\ h !! b = Some (st, BMembers src) /\
    forall i x, xs !! i = Some x -> elem src (o + Z.of_nat i) = Some x.

Definition functions_at (h : gmap addr (storage * block Function Class))
    (p : ptr) (gs : list Function) : Prop :=
  gs = [] \/
  exists b o st src,
    p = Ptr b o /\ h !! b = Some (st, BFunctions src) /\
    forall i x, gs !! i = Some x -> elem src (o + Z.of_nat i) = Some x.

(** What a descriptor's optional function pointer designates. *)
Definition record_desc (h : gmap addr (storage * block Function Class))
    (p : ptr) (r : option Function) : Prop :=
  match r with
  | None => p = NULL
  | Some f =>
      exists b i st fs,
        p = Ptr b i /\ h !! b = Some (st, BFunctions fs) /\ elem fs i = Some f
  end.

(** The record [class_create] builds from it: name and unary callable are
    copied, the binary callable stays unset, the kind is [t]. *)
Definition installed (t : slot FunctionType) (f : Function) : Function :=
  mkFunction (Function_name f) t (Function_fn f) Indet.

Definition record_at (s : St) (p : ptr) (r : option Function) : Prop :=
  match r with
  | None => p = NULL
  | Some f => exists b, p = Ptr b 0 /\ heap s !! b = Some (Dyn, BFunctions [f])
  end.

Definition apart (p q : ptr) : Prop :=
  match p, q with
  | Ptr a _, Ptr b _ => a <> b
  | _, _ => True
  end.

Definition new_in (s : St) (p : ptr) : Prop :=
  match p with
  | NULL => True
  | Ptr b _ => (next s <= b)%positive
  end.

(** The number of allocation requests of one [class_create]. *)
Definition allocations (oc od : option Function) : nat :=
  (3 + (if oc is Some _ then 1 else 0) + (if od is Some _ then 1 else 0))%nat.

(** The [free] a pointer gives rise to. *)
Definition freed (p : ptr) : list event :=
  match p with
  | Ptr b _ => [EvFree b]
  | NULL => []
  end.

(** A table is released only when its count is positive. *)
Definition freed_table {A} (l : list A) (b : addr) : list event :=
  match l with
  | [] => []
  | _ :: _ => [EvFree b]
  end.

(** The member data of a Vec2 instance, as [vec2_add] reads it. *)
Definition vec2_data (klass : ptr) (s : St) : option float * option float :=
  (value (member_f_data klass 0 s), value (member_f_data klass 1 s)).

(** ** Example stores *)

(** The state after one more [__debugbreak()]. *)
Definition trapped (s : St) : St :=
  mkState (heap s) (next s) (oracle s) (trace s ++ [EvBreak]).

(** A store with one function record in block 1, an instance with an empty
    member table and that one-entry function table in blocks 2 to 4, and a
    detached member in block 5. *)
Definition demo_function : Function :=
  mkFunction (Init (Some "vec2_add"%string))
    (Init FUNCTION_TYPE_MEMBER_FUNCTION)
    (Init (Some "vec2_ctor"%string)) (Init (Some "vec2_add"%string)).

Definition demo_member : Member :=
  mkMember (f_data (f32_of_Z 1)) (Init (Some "x"%string)) (Init MEMBER_TYPE_F32).

Definition demo_class : Class :=
  mkClass (Init (Some "Vec2"%string)) (Init NULL) (Init NULL)
    (Init (Ptr 3 0)) (Init 0) (Init (Ptr 4 0)) (Init 1).

Definition demo_heap : gmap addr (storage * block Function Class) :=
  <[5%positive := (Auto, BMembers [demo_member])]>
    (<[4%positive := (Dyn, BFunctions [demo_function])]>
       (<[3%positive := (Dyn, BMembers [])]>
          (<[2%positive := (Dyn, BClass demo_class)]>
             (<[1%positive := (Auto, BFunctions [demo_function])]> ∅)))).

Definition demo_state : St := mkState demo_heap 6 [true; true] [].

(** The records and descriptors of [create_vec2] and [test_class_test]. *)
Definition vec2_ctor_record : Function :=
  mkFunction (Init (Some "vec2_ctor"%string)) Indet
    (Init (Some "vec2_ctor"%string)) Indet.

Definition vec2_dtor_record : Function :=
  mkFunction (Init (Some "vec2_dtor"%string)) Indet
    (Init (Some "vec2_dtor"%string)) Indet.

(** A caller's frame holding one function record, before any instance
    exists. *)
Definition frame_state (f : Function) (o : list bool) : St :=
  mkState {[ 1%positive := (Auto, BFunctions [f]) ]} 2 o [].

(** A descriptor with a name and a constructor only. *)
Definition ctor_only : ClassCreateInfo :=
  mkClassCreateInfo (Some "TestClass"%string) (Ptr 1 0) NULL NULL 0 NULL 0.

(** A descriptor with a name and a destructor only. *)
Definition dtor_only : ClassCreateInfo :=
  mkClassCreateInfo (Some "TestClass"%string) NULL (Ptr 1 0) NULL 0 NULL 0.

(** An instance with a destructor, one member and no function. *)
Definition dtor_class : Class :=
  mkClass (Init (Some "Vec2"%string)) (Init NULL) (Init (Ptr 3 0))
    (Init (Ptr 4 0)) (Init 1) (Init (Ptr 5 0)) (Init 0).

Definition dtor_state : St :=
  mkState
    (<[5%positive := (Dyn, BFunctions [])]>
       (<[4%positive := (Dyn, BMembers [demo_member])]>
          (<[3%positive := (Dyn, BFunctions [vec2_dtor_record])]>
             (<[2%positive := (Dyn, BClass dtor_class)]> ∅))))
    6 [] [].

(** A caller's frame holding a one-element member array. *)
Definition array_state (o : list bool) : St :=
  mkState {[ 1%positive := (Auto, BMembers [demo_member]) ]} 2 o [].

Definition array_only : ClassCreateInfo :=
  mkClassCreateInfo (Some "Vec1"%string) NULL NULL (Ptr 1 0) 1 NULL 0.

(** An instance with one member and one function, no constructor and no
    destructor. *)
Definition pair_class : Class :=
  mkClass (Init (Some "Vec2"%string)) (Init NULL) (Init NULL)
    (Init (Ptr 3 0)) (Init 1) (Init (Ptr 4 0)) (Init 1).

Definition pair_state (o : list bool) : St :=
  mkState
    (<[4%positive := (Dyn, BFunctions [demo_function])]>
       (<[3%positive := (Dyn, BMembers [demo_member])]>
          {[ 2%positive := (Dyn, BClass pair_class) ]}))
    5 o [].

(** The instance of [pair_state] beside a caller's frame that holds a
    function record (block 1) and a member (block 5) of no table. *)
Definition other_member : Member :=
  mkMember (f_data (f32_of_Z 2)) (Init (Some "y"%string)) (Init MEMBER_TYPE_F32).

Definition other_function : Function :=
  mkFunction (Init (Some "vec2_sub"%string))
    (Init FUNCTION_TYPE_MEMBER_FUNCTION) Indet (Init (Some "vec2_sub"%string)).

Definition grow_state (o : list bool) : St :=
  mkState
    (<[5%positive := (Auto, BMembers [other_member])]>
       (<[4%positive := (Dyn, BFunctions [demo_function])]>
          (<[3%positive := (Dyn, BMembers [demo_member])]>
             (<[2%positive := (Dyn, BClass pair_class)]>
                {[ 1%positive := (Auto, BFunctions [other_function]) ]}))))
    6 o [].

(** [dtor_state] as a destructor may leave it that has been called and has
    overwritten the member of the instance. *)
Definition dtor_state_written : St :=
  mkState
    (<[5%positive := (Dyn, BFunctions [])]>
       (<[4%positive := (Dyn, BMembers [other_member])]>
          (<[3%positive :=
               (Dyn, BFunctions
                       [set_Function_type (Init FUNCTION_TYPE_DESTRUCTOR)
                          vec2_dtor_record])]>
             (<[2%positive := (Dyn, BClass dtor_class)]> ∅))))
    6 [] [EvCall "vec2_dtor"%string (Ptr 2 0)].

(** What [create_vec2] puts into its descriptor: a member of type F32 and
    the record of the addition, whose unary callable is never assigned. *)
Definition vec2_member (name : string) (v : float) : Member :=
  mkMember (f_data v) (Init (Some name)) (Init MEMBER_TYPE_F32).

Definition vec2_add_record : Function :=
  mkFunction (Init (Some "vec2_add"%string))
    (Init FUNCTION_TYPE_MEMBER_FUNCTION) Indet (Init (Some "vec2_add"%string)).

(** A Vec2 instance in block [k] with the components [x] and [y]. *)
Definition vec2_at (s : St) (k : addr) (x y : float) : Prop :=
  exists cb db mb fb,
    class_at s k (Some "Vec2"%string) (Ptr cb 0) (Ptr db 0) mb
      [vec2_member "x" x; vec2_member "y" y] fb [vec2_add_record] /\
    heap s !! cb =
      Some (Dyn, BFunctions
                   [installed (Init FUNCTION_TYPE_CONSTRUCTOR) vec2_ctor_record]) /\
    heap s !! db = Some (Dyn, BFunctions [installed Indet vec2_dtor_record]) /\
    cb <> db /\ cb <> fb /\ db <> fb.

(** A store holding one Vec2 instance (block 1) with its two records
    (blocks 2 and 3) and its two tables (blocks 4 and 5). *)
Definition vec2_class : Class :=
  mkClass (Init (Some "Vec2"%string)) (Init (Ptr 2 0)) (Init (Ptr 3 0))
    (Init (Ptr 4 0)) (Init 2) (Init (Ptr 5 0)) (Init 1).

Definition vec2_state (x y : float) (o : list bool) : St :=
  mkState
    (<[5%positive := (Dyn, BFunctions [vec2_add_record])]>
       (<[4%positive := (Dyn, BMembers [vec2_member "x" x; vec2_member "y" y])]>
          (<[3%positive := (Dyn, BFunctions [installed Indet vec2_dtor_record])]>
             (<[2%positive :=
                  (Dyn, BFunctions
                          [installed (Init FUNCTION_TYPE_CONSTRUCTOR)
                             vec2_ctor_record])]>
                {[ 1%positive := (Dyn, BClass vec2_class) ]}))))
    6 o [].

(** The instance in block [k] has its member table in block [mb], which
    has room for [cap] members. *)
Definition table_of (k mb : addr) (c : Class) (cap : Z) (st : St) : Prop :=
  heap st !! k = Some (Dyn, BClass c) /\
  exists l, heap st !! mb = Some (Dyn, BMembers l) /\ Z.of_nat (length l) = cap.

(** A descriptor that asks for more members than [size_t] can size: the
    count is the least one whose byte size wraps. *)
Definition huge_count : Z := SIZE_MOD / sizeof_Member + 1.

Definition huge_info : ClassCreateInfo :=
  mkClassCreateInfo (Some "Huge"%string) NULL NULL (Ptr 1 0) huge_count NULL 0.

End Iter4.

(** * Raw storage: [memcpy] and [strlen] of [main.c] and [part_001]

    The two functions read and write bytes through [uint8_t*] and [char*];
    for them a block is a sequence of bytes. *)

Module Raw.

Abbreviation mem := (gmap addr (list Z)).

(** [p[i]], read *)
Definition load (p : ptr) (i : Z) (m : mem) : option Z :=
  match p with
  | NULL => None
  | Ptr b o =>
      match m !! b with
      | Some l => elem l (o + i)
      | None => None
      end
  end.

(** [p[i] = v] *)
Definition store (p : ptr) (i : Z) (v : Z) (m : mem) : option mem :=
  match p with
  | NULL => None
  | Ptr b o =>
      match m !! b with
      | Some l =>
          match elem l (o + i) with
          | Some _ => Some (<[b := <[Z.to_nat (o + i) := v]> l]> m)
          | None => None
          end
      | None => None
      end
  end.

(** [for (size_t i = ...; i < size; i++) dstData[i] = srcData[i];] with [n]
    iterations to go *)
Fixpoint memcpy_loop (n : nat) (i : Z) (srcData dstData : ptr) (m : mem)
    : result mem :=
  match n with
  | O => Ok m
  | S n' =>
      match load srcData i m with
      | Some v =>
          match store dstData i v m with
          | Some m' => memcpy_loop n' (i + 1) srcData dstData m'
          | None => Fault UndefinedBehaviour
          end
      | None => Fault UndefinedBehaviour
      end
  end.

(** [void memcpy(void* src, void* dest, size_t size)]: unlike the library
    function of that name, the source is the first parameter. *)
Definition memcpy (src dest : ptr) (size : Z) (m : mem) : result mem :=
  memcpy_loop (Z.to_nat size) 0 src dest m.

Definition INT_MAX : Z := 2 ^ 31 - 1.

(** [while (str[pos] != '\0') pos++;] with [pos] an [int]: incrementing
    [INT_MAX] overflows. *)
Fixpoint strlen_loop (fuel : nat) (str : ptr) (pos : Z) (m : mem) : result Z :=
  match fuel with
  | O => Fault OutOfFuel
  | S fuel' =>
      match load str pos m with
      | Some c =>
          if decide (c <> 0) then
            if decide (pos < INT_MAX) then strlen_loop fuel' str (pos + 1) m
            else Fault UndefinedBehaviour
          else Ok pos
      | None => Fault UndefinedBehaviour
      end
  end.

Definition strlen (fuel : nat) (str : ptr) (m : mem) : result Z :=
  strlen_loop fuel str 0 m.

(** *** Example storage *)

(** The bytes of ["Hi"] with its terminator, then two more bytes. *)
Definition hi_mem : mem := {[ 1%positive := [72; 105; 0; 7; 7] ]}.

(** A source block and a destination block. *)
Definition two_blocks : mem :=
  <[2%positive := [0; 0; 0; 0]]> {[ 1%positive := [10; 20; 30] ]}.

End Raw.

(** * Further vocabulary *)

(** The allocator turns the next request down. *)
Definition refusing {F C} (s : state F C) : Prop :=
  match oracle s with
  | true :: _ => False
  | _ => True
  end.

(** The state with one more [__debugbreak()] recorded. *)
Definition with_trap {F C} (s : state F C) : state F C :=
  mkState (heap s) (next s) (oracle s) (trace s ++ [EvBreak]).

(** What [free(p)] leaves of the store, and what it records. *)
Definition release {F C} (p : ptr)
    (h : gmap addr (storage * block F C)) : gmap addr (storage * block F C) :=
  match p with
  | Ptr b _ => delete b h
  | NULL => h
  end.

Definition release_events (p : ptr) : list event :=
  match p with
  | Ptr b _ => [EvFree b]
  | NULL => []
  end.

(** A pointer that may be passed to [free]: null, or the start of a block
    that [malloc] or [realloc] returned. *)
Definition owned {F C} (h : gmap addr (storage * block F C)) (p : ptr) : Prop :=
  match p with
  | NULL => True
  | Ptr b i => i = 0 /\ exists blk, h !! b = Some (Dyn, blk)
  end.

(** Two pointers into different blocks (or one of them null). *)
Definition separate (p q : ptr) : Prop :=
  match p, q with
  | Ptr a _, Ptr b _ => a <> b
  | _, _ => True
  end.

(** * Facts about the store *)

Arguments size_add : simpl never.
Arguments size_sub : simpl never.
Arguments size_mul : simpl never.
Arguments resize : simpl never.
Arguments fresh_array : simpl never.
Arguments elem : simpl never.

Lemma size_wrap_small z : 0 <= z < SIZE_MOD -> size_wrap z = z.
Proof. intros Hz. unfold size_wrap. now apply Z.mod_small. Qed.

Lemma size_mul_fit sz n :
  0 <= sz -> 0 <= n -> sz * n < SIZE_MOD -> size_mul sz n = sz * n.
Proof. intros. unfold size_mul. apply size_wrap_small. nia. Qed.

Lemma size_add_mul_fit sz n :
  0 < sz -> 0 <= n -> sz * (n + 1) < SIZE_MOD ->
  size_add (size_mul sz n) sz = sz * (n + 1).
Proof.
  intros. unfold size_add. rewrite size_mul_fit by nia.
  rewrite size_wrap_small by nia. lia.
Qed.

Lemma size_add_1 n : 0 <= n -> n + 1 < SIZE_MOD -> size_add n 1 = n + 1.
Proof. intros. unfold size_add. apply size_wrap_small. lia. Qed.

Lemma size_sub_1 n : 0 < n < SIZE_MOD -> size_sub n 1 = n - 1.
Proof. intros. unfold size_sub. apply size_wrap_small. lia. Qed.

(** With an empty table [count - 1] is the largest [size_t]. *)
Lemma size_sub_0_1 : size_sub 0 1 = SIZE_MOD - 1.
Proof. reflexivity. Qed.

Lemma fresh_array_exact {A} (d : A) sz n :
  0 < sz -> fresh_array d sz (sz * Z.of_nat n) = replicate n d.
Proof.
  intros. unfold fresh_array. rewrite Z.mul_comm, Z.div_mul by lia.
  now rewrite Nat2Z.id.
Qed.

Lemma fresh_array_one {A} (d : A) sz : 0 < sz -> fresh_array d sz sz = [d].
Proof.
  intros. unfold fresh_array. rewrite Z.div_same by lia. reflexivity.
Qed.

Lemma resize_grow {A} (d : A) (sz : Z) (l : list A) :
  0 < sz -> resize d sz (sz * (Z.of_nat (length l) + 1)) l = l ++ [d].
Proof.
  intros Hsz. unfold resize.
  replace (sz * (Z.of_nat (length l) + 1) / sz) with (Z.of_nat (S (length l))).
  2:{ rewrite Z.mul_comm, Z.div_mul by lia. lia. }
  rewrite Nat2Z.id, firstn_all2 by lia.
  now replace (S (length l) - length l)%nat with 1%nat by lia.
Qed.

Lemma elem_lookup {A} (l : list A) (i : nat) : elem l (Z.of_nat i) = l !! i.
Proof. unfold elem. rewrite decide_True by lia. now rewrite Nat2Z.id. Qed.

Lemma elem_Some {A} (l : list A) i x :
  elem l i = Some x -> 0 <= i < Z.of_nat (length l) /\ l !! Z.to_nat i = Some x.
Proof.
  unfold elem. destruct (decide (0 <= i)); [|discriminate].
  intros H. split; [|exact H]. apply lookup_lt_Some in H. lia.
Qed.

Lemma elem_None_ge {A} (l : list A) i : Z.of_nat (length l) <= i -> elem l i = None.
Proof.
  intros. unfold elem. destruct (decide (0 <= i)); [|reflexivity].
  apply lookup_ge_None. lia.
Qed.

Lemma elem_app_last {A} (l : list A) (x : A) :
  elem (l ++ [x]) (Z.of_nat (length l)) = Some x.
Proof.
  rewrite elem_lookup, lookup_app_r by lia.
  now replace (length l - length l)%nat with 0%nat by lia.
Qed.

Lemma elem_app_l {A} (l r : list A) i :
  i < Z.of_nat (length l) -> elem (l ++ r) i = elem l i.
Proof.
  intros. unfold elem. destruct (decide (0 <= i)); [|reflexivity].
  apply lookup_app_l. lia.
Qed.

Lemma insert_head {A} (x y : A) (l : list A) : <[0%nat := y]> (x :: l) = y :: l.
Proof. reflexivity. Qed.

Lemma elem_head {A} (x : A) (l : list A) : elem (x :: l) 0 = Some x.
Proof. reflexivity. Qed.

Lemma insert_app_last {A} (l : list A) (x y : A) :
  <[length l := y]> (l ++ [x]) = l ++ [y].
Proof.
  rewrite insert_app_r_alt by lia.
  now replace (length l - length l)%nat with 0%nat by lia.
Qed.

Lemma fresh_lt {F C} (s : state F C) a x :
  fresh s -> heap s !! a = Some x -> (a < next s)%positive.
Proof.
  intros Hf Ha. destruct (Pos.ltb_spec a (next s)) as [|Hle]; [assumption|].
  rewrite (Hf a Hle) in Ha. discriminate.
Qed.

Lemma bind_Ok {F C A B} (c : M F C A) (k : A -> M F C B) s a s' :
  c s = Ok (a, s') -> bind c k s = k a s'.
Proof. intros H. unfold bind. now rewrite H. Qed.

Lemma bind_assoc {F C A B D} (c : M F C A) (k : A -> M F C B) (g : B -> M F C D) s :
  bind (bind c k) g s = bind c (fun a => bind (k a) g) s.
Proof. unfold bind. destruct (c s) as [[a s']|e]; reflexivity. Qed.

Lemma determined_ret {F C A} (a : A) : store_determined (ret (F := F) (C := C) a).
Proof. intros s s' H. now split. Qed.

Lemma determined_ub {F C A} : store_determined (ub (F := F) (C := C) (A := A)).
Proof. intros s s' H. exact I. Qed.

Lemma determined_emit {F C} e : store_determined (emit (F := F) (C := C) e).
Proof. intros s s' H. now split. Qed.

Lemma determined_load_block {F C} b :
  store_determined (load_block (F := F) (C := C) b).
Proof.
  intros s s' H. unfold load_block. rewrite H.
  destruct (heap s' !! b) as [[st blk]|]; [now split|exact I].
Qed.

Lemma determined_bind {F C A B} (c : M F C A) (k : A -> M F C B) :
  store_determined c -> (forall a, store_determined (k a)) ->
  store_determined (bind c k).
Proof.
  intros Hc Hk s s' H. unfold bind. specialize (Hc s s' H).
  destruct (c s) as [[a t]|e], (c s') as [[a' t']|e']; try contradiction.
  - destruct Hc as [-> Ht]. exact (Hk a' t t' Ht).
  - exact I.
Qed.

Lemma determined_value {F C A} (c : M F C A) s s' :
  store_determined c -> heap s = heap s' -> value (c s) = value (c s').
Proof.
  intros Hc H. specialize (Hc s s' H).
  destruct (c s) as [[a t]|e], (c s') as [[a' t']|e']; try contradiction.
  - destruct Hc as [-> _]. reflexivity.
  - reflexivity.
Qed.

Ltac determined :=
  repeat first
    [ apply determined_ret
    | apply determined_ub
    | apply determined_emit
    | apply determined_load_block
    | apply determined_bind; [|intros ?]
    | match goal with
      | |- store_determined (match ?x with _ => _ end) => destruct x
      end ].

(** A computation run inside a strict context is that context bound to it. *)
Lemma bind_context {F C A B} (E : result (A * state F C) -> result (B * state F C))
    (c : M F C A) (s : state F C) :
  (forall e, E (Fault e) = Fault e) ->
  E (c s) = bind c (fun a s' => E (Ok (a, s'))) s.
Proof. intros HE. unfold bind. destruct (c s) as [[a s']|e]; [reflexivity|apply HE]. Qed.

(** Exhibits the goal's left-hand side, in which the call [c s] occurs in a
    strict context, as that call bound to the rest of the computation. *)
Ltac expose_call c s :=
  lazymatch goal with
  | |- ?L = _ =>
      lazymatch L with
      | context E [c s] =>
          let T := type of (c s) in
          let E' := constr:(fun r : T => ltac:(let t := context E [r] in exact t)) in
          transitivity (bind c (fun a s' => E' (Ok (a, s'))) s);
          [ exact (bind_context E' c s (fun e => eq_refl)) | cbv beta iota ]
      end
  end.

Ltac heap_rw :=
  repeat first
    [ rewrite lookup_insert_eq
    | rewrite lookup_insert_ne by (assumption || lia || congruence)
    | rewrite lookup_delete_eq
    | rewrite lookup_delete_ne by (assumption || lia || congruence)
    | match goal with
      | H : ?h !! ?a = _ |- context [?h !! ?a] => rewrite H
      end ].

(** Comparisons of pointers and of small constants that occur as guards. *)
Ltac guard_rw :=
  repeat match goal with
    | |- context [decide (Ptr ?b ?i = NULL)] =>
        rewrite (decide_False (P := Ptr b i = NULL)) by discriminate
    | |- context [decide (NULL = NULL)] =>
        rewrite (decide_True (P := NULL = NULL)) by reflexivity
    | |- context [decide (Ptr ?b ?i <> NULL)] =>
        rewrite (decide_True (P := Ptr b i <> NULL)) by discriminate
    | |- context [decide (NULL <> NULL)] =>
        rewrite (decide_False (P := NULL <> NULL)) by (intros ?; congruence)
    | |- context [decide (Ptr ?a ?i = NULL \/ Ptr ?b ?j = NULL)] =>
        rewrite (decide_False (P := Ptr a i = NULL \/ Ptr b j = NULL))
          by (intros [?|?]; discriminate)
    | |- context [decide (0 = 0)] =>
        rewrite (decide_True (P := 0 = 0)) by reflexivity
    | |- context [decide (1 = 1)] =>
        rewrite (decide_True (P := 1 = 1)) by reflexivity
    | |- context [decide (0 = 1)] =>
        rewrite (decide_False (P := 0 = 1)) by discriminate
    end.

Ltac store_simpl :=
  cbn beta iota zeta delta
    [heap next oracle trace fst snd negb
     Member_data Member_name Member_type
     set_Member_data set_Member_name set_Member_type indet_Member].

Ltac store_unfold :=
  unfold load_Class, update_Class, load_Member, update_Member,
    load_Function, update_Function, load_block, store_block,
    realloc_Members, realloc_Functions, realloc_with, malloc_Members,
    malloc_Functions, malloc_Class, malloc_block, new_block, alloca, leave,
    free, index, emit, DEBUG_BREAK, set_heap, bind, rd, ret, ub.

(** * The fourth iteration: tables and accessors *)

Module Iter4Tables.
Import Iter4.

Ltac munfold :=
  unfold class_add_member, class_add_function, class_get_num_members,
    class_get_num_functions, class_get_member, class_get_function,
    class_get_name, class_has_constructor, class_has_destructor,
    class_get_constructor, class_get_destructor, class_invoke_function,
    function_invoke, function_get_type, function_get_name, call_fn,
    call_binary_member_fn, member_get_name, member_get_type,
    member_get_data, field;
  store_unfold.

Ltac msimpl :=
  store_simpl;
  cbn beta iota zeta delta
    [Class_name Class_ctor Class_dtor Class_members Class_num_members
     Class_functions Class_num_functions
     set_Class_name set_Class_ctor set_Class_dtor set_Class_members
     set_Class_num_members set_Class_functions set_Class_num_functions
     indet_Class
     Function_name Function_type Function_fn Function_binary_member_fn
     set_Function_name set_Function_type set_Function_fn
     set_Function_binary_member_fn indet_Function].

Ltac mrun :=
  repeat (progress (munfold; heap_rw; msimpl; guard_rw;
                    rewrite ?Z.add_0_l; change (Z.to_nat 0) with 0%nat;
                    rewrite ?insert_head, ?elem_head)).

Section Accessors.
Variables (s : St) (k : addr) (nm : cstr) (pc pd : ptr).
Variables (mb : addr) (ms : list Member) (fb : addr) (fs : list Function).
Hypothesis Hat : class_at s k nm pc pd mb ms fb fs.

Lemma class_get_name_at : class_get_name (Ptr k 0) s = Ok (nm, s).
Proof. destruct Hat. mrun. reflexivity. Qed.

Lemma class_get_num_members_at :
  class_get_num_members (Ptr k 0) s = Ok (Z.of_nat (length ms), s).
Proof. destruct Hat. mrun. reflexivity. Qed.

Lemma class_get_num_functions_at :
  class_get_num_functions (Ptr k 0) s = Ok (Z.of_nat (length fs), s).
Proof. destruct Hat. mrun. reflexivity. Qed.

Lemma class_get_member_in i :
  0 <= i < Z.of_nat (length ms) ->
  class_get_member (Ptr k 0) i s = Ok (Ptr mb i, s).
Proof.
  intros Hi. destruct Hat. mrun.
  rewrite decide_True by lia. mrun. reflexivity.
Qed.

Lemma class_get_member_out i :
  Z.of_nat (length ms) <= i ->
  class_get_member (Ptr k 0) i s =
    Ok (NULL, mkState (heap s) (next s) (oracle s) (trace s ++ [EvBreak])).
Proof.
  intros Hi. destruct Hat. mrun.
  rewrite decide_False by lia. mrun. reflexivity.
Qed.

Lemma class_get_function_in i :
  0 <= i < Z.of_nat (length fs) ->
  class_get_function (Ptr k 0) i s = Ok (Ptr fb i, s).
Proof.
  intros Hi. destruct Hat. mrun.
  rewrite decide_True by lia. mrun. reflexivity.
Qed.

Lemma class_get_function_out i :
  Z.of_nat (length fs) <= i ->
  class_get_function (Ptr k 0) i s =
    Ok (NULL, mkState (heap s) (next s) (oracle s) (trace s ++ [EvBreak])).
Proof.
  intros Hi. destruct Hat. mrun.
  rewrite decide_False by lia. mrun. reflexivity.
Qed.

Lemma load_Member_at i m :
  elem ms i = Some m -> load_Member (Ptr mb i) s = Ok (m, s).
Proof. intros Hm. destruct Hat. mrun. rewrite Hm. reflexivity. Qed.

Lemma load_Function_at i f :
  elem fs i = Some f -> load_Function (Ptr fb i) s = Ok (f, s).
Proof. intros Hf. destruct Hat. mrun. rewrite Hf. reflexivity. Qed.

Lemma member_at_in i m :
  elem ms i = Some m -> member_at (Ptr k 0) i s = Ok (m, s).
Proof.
  intros Hm. unfold member_at.
  erewrite bind_Ok by (apply class_get_member_in; now apply elem_Some in Hm).
  now apply load_Member_at.
Qed.

Lemma function_at_in i f :
  elem fs i = Some f -> function_at (Ptr k 0) i s = Ok (f, s).
Proof.
  intros Hf. unfold function_at.
  erewrite bind_Ok by (apply class_get_function_in; now apply elem_Some in Hf).
  now apply load_Function_at.
Qed.

(** Out of range nothing is resolved: the accessor yields the null
    pointer, which designates no element. *)
Lemma member_at_out i :
  Z.of_nat (length ms) <= i -> value (member_at (Ptr k 0) i s) = None.
Proof.
  intros Hi. unfold member_at.
  erewrite bind_Ok by (now apply class_get_member_out). reflexivity.
Qed.

Lemma function_at_out i :
  Z.of_nat (length fs) <= i -> value (function_at (Ptr k 0) i s) = None.
Proof.
  intros Hi. unfold function_at.
  erewrite bind_Ok by (now apply class_get_function_out). reflexivity.
Qed.
End Accessors.

Lemma member_at_inv s k nm pc pd mb ms fb fs j m s' :
  class_at s k nm pc pd mb ms fb fs ->
  member_at (Ptr k 0) j s = Ok (m, s') -> elem ms j = Some m /\ s' = s.
Proof.
  intros [Hk Hm Hf _ _]. unfold member_at. mrun.
  destruct (decide (j < Z.of_nat (length ms))).
  - mrun. destruct (elem ms j); [|discriminate].
    now intros [= -> ->].
  - mrun. discriminate.
Qed.

Lemma function_at_inv s k nm pc pd mb ms fb fs j f s' :
  class_at s k nm pc pd mb ms fb fs ->
  function_at (Ptr k 0) j s = Ok (f, s') -> elem fs j = Some f /\ s' = s.
Proof.
  intros [Hk Hm Hf _ _]. unfold function_at. mrun.
  destruct (decide (j < Z.of_nat (length fs))).
  - mrun. destruct (elem fs j); [|discriminate].
    now intros [= -> ->].
  - mrun. discriminate.
Qed.



(** The accessors read the instance and its two tables only. *)
Lemma class_at_agree s s' k nm pc pd mb ms fb fs :
  class_at s k nm pc pd mb ms fb fs ->
  heap s' !! k = heap s !! k -> heap s' !! mb = heap s !! mb ->
  heap s' !! fb = heap s !! fb ->
  class_at s' k nm pc pd mb ms fb fs.
Proof.
  intros [H1 H2 H3 H4 H5] Hk Hm Hf.
  constructor; congruence || assumption.
Qed.

(** ** Appending *)

Lemma class_add_member_ok (s : St) k nm pc pd mb ms fb fs eb ei es st e o :
  class_at s k nm pc pd mb ms fb fs ->
  heap s !! eb = Some (st, BMembers es) -> elem es ei = Some e -> eb <> mb ->
  heap s !! next s = None ->
  oracle s = true :: o ->
  sizeof_Member * (Z.of_nat (length ms) + 1) < SIZE_MOD ->
  exists s',
    class_add_member (Ptr k 0) (Ptr eb ei) s = Ok (tt, s') /\
    class_at s' k nm pc pd (next s) (ms ++ [e]) fb fs /\
    (forall a, a <> k -> a <> mb -> a <> next s -> heap s' !! a = heap s !! a) /\
    heap s' !! mb = None /\
    next s' = Pos.succ (next s) /\ oracle s' = o /\ trace s' = trace s.
Proof.
  intros [Hk Hm Hf Hms Hfs] He Hei Hne Hfresh Ho Hfit.
  destruct s as [h nx orc tr]; simpl in *. subst orc.
  assert (nx <> k) by congruence.
  assert (nx <> mb) by congruence.
  assert (nx <> eb) by congruence.
  assert (mb <> k) by congruence.
  assert (eb <> k) by congruence.
  assert (fb <> k) by congruence.
  assert (fb <> mb) by congruence.
  assert (fb <> nx) by congruence.
  unfold sizeof_Member, SIZE_MOD in Hfit.
  eexists. split.
  { mrun.
    rewrite size_add_mul_fit by (unfold sizeof_Member, SIZE_MOD; lia).
    rewrite resize_grow by (unfold sizeof_Member; lia).
    mrun. rewrite Hei. mrun.
    rewrite size_add_1 by (unfold SIZE_MOD; lia).
    rewrite size_sub_1 by (unfold SIZE_MOD; lia).
    replace (Z.of_nat (length ms) + 1 - 1) with (Z.of_nat (length ms)) by lia.
    rewrite elem_app_last. mrun.
    rewrite Nat2Z.id, insert_app_last. reflexivity. }
  repeat split; simpl.
  - heap_rw. unfold set_Class_num_members, set_Class_members; simpl.
    rewrite length_app, Nat2Z.inj_add. reflexivity.
  - heap_rw. reflexivity.
  - heap_rw. reflexivity.
  - rewrite length_app, Nat2Z.inj_add. simpl. exact Hfit.
  - assumption.
  - intros a ? ? ?. heap_rw. reflexivity.
  - heap_rw. reflexivity.
Qed.

Lemma class_add_function_ok (s : St) k nm pc pd mb ms fb fs eb ei es st e o :
  class_at s k nm pc pd mb ms fb fs ->
  heap s !! eb = Some (st, BFunctions es) -> elem es ei = Some e -> eb <> fb ->
  heap s !! next s = None ->
  oracle s = true :: o ->
  sizeof_Function * (Z.of_nat (length fs) + 1) < SIZE_MOD ->
  exists s',
    class_add_function (Ptr k 0) (Ptr eb ei) s = Ok (tt, s') /\
    class_at s' k nm pc pd mb ms (next s) (fs ++ [e]) /\
    (forall a, a <> k -> a <> fb -> a <> next s -> heap s' !! a = heap s !! a) /\
    heap s' !! fb = None /\
    next s' = Pos.succ (next s) /\ oracle s' = o /\ trace s' = trace s.
Proof.
  intros [Hk Hm Hf Hms Hfs] He Hei Hne Hfresh Ho Hfit.
  destruct s as [h nx orc tr]; simpl in *. subst orc.
  assert (nx <> k) by congruence.
  assert (nx <> fb) by congruence.
  assert (nx <> eb) by congruence.
  assert (mb <> k) by congruence.
  assert (eb <> k) by congruence.
  assert (fb <> k) by congruence.
  assert (fb <> mb) by congruence.
  assert (mb <> nx) by congruence.
  unfold sizeof_Function, SIZE_MOD in Hfit.
  eexists. split.
  { mrun.
    rewrite size_add_mul_fit by (unfold sizeof_Function, SIZE_MOD; lia).
    rewrite resize_grow by (unfold sizeof_Function; lia).
    mrun. rewrite Hei. mrun.
    rewrite size_add_1 by (unfold SIZE_MOD; lia).
    rewrite size_sub_1 by (unfold SIZE_MOD; lia).
    replace (Z.of_nat (length fs) + 1 - 1) with (Z.of_nat (length fs)) by lia.
    rewrite elem_app_last. mrun.
    rewrite Nat2Z.id, insert_app_last. reflexivity. }
  repeat split; simpl.
  - heap_rw. unfold set_Class_num_functions, set_Class_functions; simpl.
    rewrite length_app, Nat2Z.inj_add. reflexivity.
  - heap_rw. reflexivity.
  - heap_rw. reflexivity.
  - assumption.
  - rewrite length_app, Nat2Z.inj_add. simpl. exact Hfit.
  - intros a ? ? ?. heap_rw. reflexivity.
  - heap_rw. reflexivity.
Qed.




End Iter4Tables.

(** * The fourth iteration: dispatch *)

Module Iter4Dispatch.
Import Iter4 Iter4Tables.

Section Dispatch.
Variable unary_code : code -> ptr -> Mon unit.
Variable binary_code : code -> ptr -> ptr -> Mon ptr.

Lemma function_invoke_unary s b i st fs f t c klass other :
  heap s !! b = Some (st, BFunctions fs) -> elem fs i = Some f ->
  Function_type f = Init t -> Function_fn f = Init (Some c) ->
  klass <> NULL ->
  t <> FUNCTION_TYPE_MEMBER_FUNCTION \/ other = NULL ->
  function_invoke unary_code binary_code (Ptr b i) klass other s =
    (unary_code c klass ;;; ret NULL) (called s (EvCall c klass)).
Proof.
  intros Hb Hi Ht Hfn Hk Hcase.
  unfold function_invoke.
  rewrite decide_False by (intros [?|?]; congruence).
  destruct s as [h nx o tr]; simpl in *.
  destruct t; [| |destruct Hcase as [? | ->]; [congruence | ]];
    mrun; rewrite Hi; mrun; rewrite Ht; mrun; rewrite Hi; mrun;
    rewrite Hfn; reflexivity.
Qed.

Lemma function_invoke_binary s b i st fs f c klass other :
  heap s !! b = Some (st, BFunctions fs) -> elem fs i = Some f ->
  Function_type f = Init FUNCTION_TYPE_MEMBER_FUNCTION ->
  Function_binary_member_fn f = Init (Some c) ->
  klass <> NULL -> other <> NULL ->
  function_invoke unary_code binary_code (Ptr b i) klass other s =
    binary_code c klass other (called s (EvCall2 c klass other)).
Proof.
  intros Hb Hi Ht Hfn Hk Ho.
  unfold function_invoke.
  rewrite decide_False by (intros [?|?]; congruence).
  destruct s as [h nx o tr]; simpl in *.
  mrun. rewrite Hi. mrun. rewrite Ht. mrun.
  rewrite decide_False by assumption.
  mrun. rewrite Hi. mrun. rewrite Hfn. reflexivity.
Qed.

Lemma function_invoke_null s f klass other :
  f = NULL \/ klass = NULL ->
  function_invoke unary_code binary_code f klass other s =
    Ok (NULL, called s EvBreak).
Proof.
  intros H. unfold function_invoke. rewrite decide_True by assumption.
  reflexivity.
Qed.

(** Invocation by index resolves the function and dispatches it. *)
Lemma class_invoke_function_in s k nm pc pd mb ms fb fs other i :
  class_at s k nm pc pd mb ms fb fs ->
  0 <= i < Z.of_nat (length fs) ->
  class_invoke_function unary_code binary_code (Ptr k 0) other i s =
    function_invoke unary_code binary_code (Ptr fb i) (Ptr k 0) other s.
Proof.
  intros Hat Hi. pose proof (at_functions_fit _ _ _ _ _ _ _ _ _ Hat) as Hfit.
  unfold class_invoke_function. simpl.
  erewrite bind_Ok by (eapply class_get_num_functions_at; eassumption).
  rewrite size_sub_1 by (unfold sizeof_Function, SIZE_MOD in *; lia).
  rewrite decide_False by lia.
  erewrite bind_Ok by (eapply class_get_function_in; eassumption).
  reflexivity.
Qed.

Lemma class_invoke_function_out s k nm pc pd mb ms fb fs other i :
  class_at s k nm pc pd mb ms fb fs ->
  is_size i -> Z.of_nat (length fs) <= i ->
  class_invoke_function unary_code binary_code (Ptr k 0) other i s =
    Ok (NULL,
        mkState (heap s) (next s) (oracle s)
          (trace s ++ (if decide (length fs = 0%nat)
                       then [EvBreak; EvBreak] else [EvBreak]))).
Proof.
  intros Hat [Hi0 Hi1] Hi.
  pose proof (at_functions_fit _ _ _ _ _ _ _ _ _ Hat) as Hfit.
  unfold class_invoke_function. simpl.
  erewrite bind_Ok by (eapply class_get_num_functions_at; eassumption).
  destruct (decide (length fs = 0%nat)) as [Hz|Hnz].
  - rewrite Hz in *. change (Z.of_nat 0) with 0. rewrite size_sub_0_1.
    rewrite decide_False by lia.
    erewrite bind_Ok
      by (eapply class_get_function_out; [eassumption | rewrite Hz; simpl; lia]).
    rewrite function_invoke_null by (now left).
    unfold called. simpl. now rewrite <- app_assoc.
  - rewrite size_sub_1 by (unfold sizeof_Function, SIZE_MOD in *; lia).
    rewrite decide_True by lia. reflexivity.
Qed.
End Dispatch.

End Iter4Dispatch.

(** * The fourth iteration: creation and destruction *)

Module Iter4Lifecycle.
Import Iter4 Iter4Tables Iter4Dispatch.

Lemma insert_middle {A} (l r : list A) (x y : A) :
  <[length l := y]> (l ++ x :: r) = l ++ y :: r.
Proof.
  rewrite insert_app_r_alt by lia.
  now replace (length l - length l)%nat with 0%nat by lia.
Qed.

Lemma elem_middle {A} (l r : list A) (x : A) :
  elem (l ++ x :: r) (Z.of_nat (length l)) = Some x.
Proof.
  rewrite elem_lookup, lookup_app_r by lia.
  now replace (length l - length l)%nat with 0%nat by lia.
Qed.

Lemma Member_eta (m : Member) :
  mkMember (Member_data m) (Member_name m) (Member_type m) = m.
Proof. now destruct m. Qed.

Lemma Function_eta (f : Function) :
  mkFunction (Function_name f) (Function_type f) (Function_fn f)
    (Function_binary_member_fn f) = f.
Proof. now destruct f. Qed.

Section CopyLoops.
Variables (ci : ClassCreateInfo) (k mb : addr) (stk stm : storage).
Variables (n : addr) (o : list bool) (t : list event).

Lemma copy_members_from sb so sst src c :
  ci_members ci = Ptr sb so -> sb <> mb -> k <> mb ->
  Class_members c = Init (Ptr mb 0) ->
  forall todo done h,
    h !! k = Some (stk, BClass c) ->
    h !! sb = Some (sst, BMembers src) ->
    h !! mb =
      Some (stm, BMembers (done ++ replicate (length todo) indet_Member)) ->
    (forall i x, todo !! i = Some x ->
       elem src (so + (Z.of_nat (length done) + Z.of_nat i)) = Some x) ->
    for_loop (length todo) (Z.of_nat (length done))
      (copy_member (Ptr k 0) ci) (mkState h n o t) =
      Ok (tt, mkState (<[mb := (stm, BMembers (done ++ todo))]> h) n o t).
Proof.
  intros Hsrc Hsb Hkm Hc.
  induction todo as [|x todo IH]; intros done h Hk Hs Hm Hread.
  - simpl. unfold ret. rewrite app_nil_r in *. now rewrite insert_id.
  - assert (Hx : elem src (so + Z.of_nat (length done)) = Some x).
    { rewrite <- (Hread 0%nat x eq_refl). f_equal. lia. }
    cbn [length replicate] in Hm.
    assert (Hbody :
      copy_member (Ptr k 0) ci (Z.of_nat (length done)) (mkState h n o t) =
        Ok (tt, mkState
                  (<[mb := (stm, BMembers
                              (done ++ x :: replicate (length todo) indet_Member))]> h)
                  n o t)).
    { unfold copy_member. rewrite Hsrc.
      mrun. rewrite Hc. mrun. rewrite Hx. mrun.
      rewrite elem_middle. mrun. rewrite Hx. mrun.
      rewrite Nat2Z.id, insert_middle, elem_middle. mrun.
      rewrite Hx. mrun.
      rewrite insert_middle, elem_middle. mrun.
      rewrite insert_middle.
      unfold set_Member_data, set_Member_type, set_Member_name. simpl.
      rewrite Member_eta, !insert_insert_eq. reflexivity. }
    simpl for_loop. rewrite (bind_Ok _ _ _ _ _ Hbody).
    replace (Z.of_nat (length done) + 1)
      with (Z.of_nat (length (done ++ [x])))
      by (rewrite length_app; simpl; lia).
    rewrite (IH (done ++ [x])).
    + rewrite insert_insert_eq, <- app_assoc. reflexivity.
    + now heap_rw.
    + now heap_rw.
    + heap_rw. now rewrite <- app_assoc.
    + intros i y Hy. rewrite <- (Hread (S i) y Hy).
      rewrite length_app. simpl. f_equal. lia.
Qed.

Lemma copy_functions_from sb so sst src c :
  ci_functions ci = Ptr sb so -> sb <> mb -> k <> mb ->
  Class_functions c = Init (Ptr mb 0) ->
  forall todo done h,
    h !! k = Some (stk, BClass c) ->
    h !! sb = Some (sst, BFunctions src) ->
    h !! mb =
      Some (stm, BFunctions (done ++ replicate (length todo) indet_Function)) ->
    (forall i x, todo !! i = Some x ->
       elem src (so + (Z.of_nat (length done) + Z.of_nat i)) = Some x) ->
    for_loop (length todo) (Z.of_nat (length done))
      (copy_function (Ptr k 0) ci) (mkState h n o t) =
      Ok (tt, mkState (<[mb := (stm, BFunctions (done ++ todo))]> h) n o t).
Proof.
  intros Hsrc Hsb Hkm Hc.
  induction todo as [|x todo IH]; intros done h Hk Hs Hm Hread.
  - simpl. unfold ret. rewrite app_nil_r in *. now rewrite insert_id.
  - assert (Hx : elem src (so + Z.of_nat (length done)) = Some x).
    { rewrite <- (Hread 0%nat x eq_refl). f_equal. lia. }
    cbn [length replicate] in Hm.
    assert (Hbody :
      copy_function (Ptr k 0) ci (Z.of_nat (length done)) (mkState h n o t) =
        Ok (tt, mkState
                  (<[mb := (stm, BFunctions
                              (done ++ x :: replicate (length todo) indet_Function))]> h)
                  n o t)).
    { unfold copy_function. rewrite Hsrc.
      mrun. rewrite Hc. mrun. rewrite Hx. mrun.
      rewrite elem_middle. mrun. rewrite Hx. mrun.
      rewrite Nat2Z.id, insert_middle, elem_middle. mrun.
      rewrite Hx. mrun.
      rewrite insert_middle, elem_middle. mrun.
      rewrite Hx. mrun.
      rewrite insert_middle, elem_middle. mrun.
      rewrite insert_middle.
      unfold set_Function_type, set_Function_name, set_Function_fn,
        set_Function_binary_member_fn. simpl.
      rewrite Function_eta, !insert_insert_eq. reflexivity. }
    simpl for_loop. rewrite (bind_Ok _ _ _ _ _ Hbody).
    replace (Z.of_nat (length done) + 1)
      with (Z.of_nat (length (done ++ [x])))
      by (rewrite length_app; simpl; lia).
    rewrite (IH (done ++ [x])).
    + rewrite insert_insert_eq, <- app_assoc. reflexivity.
    + now heap_rw.
    + now heap_rw.
    + heap_rw. now rewrite <- app_assoc.
    + intros i y Hy. rewrite <- (Hread (S i) y Hy).
      rewrite length_app. simpl. f_equal. lia.
Qed.

(** The copy loops as [class_create] runs them: the class's fresh table
    receives the descriptor's elements. [h0] is the store in which the
    descriptor was built. *)
Lemma copy_members_run h0 h xs c :
  h !! k = Some (stk, BClass c) ->
  Class_members c = Init (Ptr mb 0) ->
  h !! mb = Some (stm, BMembers (replicate (length xs) indet_Member)) ->
  k <> mb ->
  (forall a x, h0 !! a = Some x -> h !! a = Some x /\ a <> mb) ->
  members_at h0 (ci_members ci) xs ->
  for_loop (Z.to_nat (Z.of_nat (length xs))) 0
    (copy_member (Ptr k 0) ci) (mkState h n o t) =
    Ok (tt, mkState (<[mb := (stm, BMembers xs)]> h) n o t).
Proof.
  intros Hk Hc Hm Hkm Hframe [-> | (sb & so & sst & src & Hp & Hsb & Hread)].
  - simpl. unfold ret. now rewrite insert_id.
  - destruct (Hframe _ _ Hsb) as [Hsb' Hne].
    rewrite Nat2Z.id.
    apply (copy_members_from sb so sst src c Hp Hne Hkm Hc xs []);
      assumption.
Qed.

Lemma copy_functions_run h0 h gs c :
  h !! k = Some (stk, BClass c) ->
  Class_functions c = Init (Ptr mb 0) ->
  h !! mb = Some (stm, BFunctions (replicate (length gs) indet_Function)) ->
  k <> mb ->
  (forall a x, h0 !! a = Some x -> h !! a = Some x /\ a <> mb) ->
  functions_at h0 (ci_functions ci) gs ->
  for_loop (Z.to_nat (Z.of_nat (length gs))) 0
    (copy_function (Ptr k 0) ci) (mkState h n o t) =
    Ok (tt, mkState (<[mb := (stm, BFunctions gs)]> h) n o t).
Proof.
  intros Hk Hc Hm Hkm Hframe [-> | (sb & so & sst & src & Hp & Hsb & Hread)].
  - simpl. unfold ret. now rewrite insert_id.
  - destruct (Hframe _ _ Hsb) as [Hsb' Hne].
    rewrite Nat2Z.id.
    apply (copy_functions_from sb so sst src c Hp Hne Hkm Hc gs []);
      assumption.
Qed.
End CopyLoops.

(** ** Creation *)

Ltac crun :=
  repeat (progress
    (mrun;
     rewrite ?fresh_array_one by (unfold sizeof_Function; lia);
     try match goal with
         | H : elem ?l ?i = _ |- context [elem ?l ?i] => rewrite H
         end)).

(** Runs [class_create] up to the constructor dispatch; [h] is the
    caller's store, [nx] its allocation pointer. *)
Ltac create_script h nx Hold :=
  unfold class_create, install_ctor, install_dtor, allocations;
  cbn [replicate Nat.add app ci_name ci_ctor ci_dtor ci_members ci_num_members
       ci_functions ci_num_functions];
  crun;
  rewrite size_mul_fit, fresh_array_exact
    by (unfold sizeof_Member, SIZE_MOD in *; lia);
  erewrite (copy_members_run _ nx _ _ _ _ _ _ h);
    [ | heap_rw; reflexivity | reflexivity | heap_rw; reflexivity | lia
      | let a := fresh "a" in let x := fresh "x" in let Ha := fresh "Ha" in
        intros a x Ha; pose proof (Hold _ _ Ha); split; [now heap_rw | lia]
      | eassumption ];
  crun;
  rewrite size_mul_fit, fresh_array_exact
    by (unfold sizeof_Function, SIZE_MOD in *; lia);
  erewrite (copy_functions_run _ nx _ _ _ _ _ _ h);
    [ | heap_rw; reflexivity | reflexivity | heap_rw; reflexivity | lia
      | let a := fresh "a" in let x := fresh "x" in let Ha := fresh "Ha" in
        intros a x Ha; pose proof (Hold _ _ Ha); split; [now heap_rw | lia]
      | eassumption ];
  crun.

Section Create.
Variable unary_code : code -> ptr -> Mon unit.
Variable binary_code : code -> ptr -> ptr -> Mon ptr.

Lemma class_create_run ci (s : St) xs gs oc od o F :
  fresh s ->
  members_at (heap s) (ci_members ci) xs ->
  ci_num_members ci = Z.of_nat (length xs) ->
  sizeof_Member * Z.of_nat (length xs) < SIZE_MOD ->
  functions_at (heap s) (ci_functions ci) gs ->
  ci_num_functions ci = Z.of_nat (length gs) ->
  sizeof_Function * Z.of_nat (length gs) < SIZE_MOD ->
  record_desc (heap s) (ci_ctor ci) oc ->
  record_desc (heap s) (ci_dtor ci) od ->
  (forall f, oc = Some f -> Function_fn f = Init (Some F)) ->
  oracle s = replicate (allocations oc od) true ++ o ->
  exists s1 pc pd mb fb,
    class_create unary_code binary_code ci s =
      (if oc is Some _
       then (unary_code F (Ptr (next s) 0) ;;; ret (Ptr (next s) 0)) s1
       else Ok (Ptr (next s) 0, s1)) /\
    class_at s1 (next s) (ci_name ci) pc pd mb xs fb gs /\
    record_at s1 pc (installed (Init FUNCTION_TYPE_CONSTRUCTOR) <$> oc) /\
    record_at s1 pd (installed Indet <$> od) /\
    (new_in s pc /\ new_in s pd /\
     (next s <= mb)%positive /\ (next s <= fb)%positive) /\
    (apart pc pd /\ apart pc (Ptr fb 0) /\ apart pd (Ptr fb 0)) /\
    (forall a, (a < next s)%positive -> heap s1 !! a = heap s !! a) /\
    fresh s1 /\ oracle s1 = o /\
    trace s1 = trace s ++ (if oc is Some _ then [EvCall F (Ptr (next s) 0)] else []).
Proof.
  intros Hfresh Hms Hn Hmfit Hfs Hnf Hffit Hc Hd HF Ho.
  destruct s as [h nx orc tr]; simpl in *. subst orc.
  assert (Hold : forall a x, h !! a = Some x -> (a < nx)%positive).
  { intros a x Ha. exact (fresh_lt _ _ _ Hfresh Ha). }
  assert (Hnew : forall a, (nx <= a)%positive -> h !! a = None).
  { exact Hfresh. }
  destruct ci as [nm cp dp mp nn fp nfn]; simpl in *. subst nn nfn.
  destruct oc as [fc|], od as [fd|]; simpl in Hc, Hd;
    repeat match goal with
    | H : exists _, _ |- _ => destruct H as [? H]
    | H : _ /\ _ |- _ => destruct H as [? ?]
    end; subst; try (pose proof (HF _ eq_refl) as HFc);
    repeat match goal with
    | H : h !! _ = Some _ |- _ => pose proof (Hold _ _ H); revert H
    end; intros.
  all: do 5 eexists; split;
    [ create_script h nx Hold;
      first
        [ reflexivity
        | rewrite HFc; crun;
          lazymatch goal with
          | |- ?L = _ =>
              lazymatch L with
              | context [unary_code ?c ?k ?S] =>
                  transitivity (bind (unary_code c k) (fun _ => ret k) S);
                  [ unfold bind, ret;
                    destruct (unary_code c k S) as [[[] ?]|?]; reflexivity
                  | reflexivity ]
              end
          end ]
    | ].
  all: cbn [fmap option_fmap option_map record_at new_in apart installed
            heap next oracle trace app].
  all: unfold fresh; cbn [heap next].
  all: split;
    [ constructor; cbn [heap];
      [ heap_rw; reflexivity | heap_rw; reflexivity | heap_rw; reflexivity
      | assumption | assumption ]
    | ].
  all: repeat match goal with |- _ /\ _ => split end.
  all: try solve
    [ reflexivity
    | exact I
    | lia
    | cbn [new_in apart next]; lia
    | rewrite app_nil_r; reflexivity
    | eexists; split;
      [ reflexivity
      | heap_rw; unfold installed; try rewrite HFc; reflexivity ]
    | intros; heap_rw; first [reflexivity | apply Hnew; lia] ].
Qed.
End Create.
(** ** Destruction *)

Section Destroy.
Variable unary_code : code -> ptr -> Mon unit.
Variable binary_code : code -> ptr -> ptr -> Mon ptr.

Lemma class_destroy_run (s : St) k nm pc pd mb ms fb fs oc fd G :
  class_at s k nm pc pd mb ms fb fs ->
  record_at s pc oc -> record_at s pd (Some fd) ->
  apart pc pd -> apart pc (Ptr fb 0) -> apart pd (Ptr fb 0) ->
  Function_fn fd = Init (Some G) ->
  exists s1 tail,
    class_destroy unary_code binary_code (Ptr k 0) s =
      (unary_code G (Ptr k 0) ;;; tail) s1 /\
    trace s1 = trace s ++ freed pc ++ [EvCall G (Ptr k 0)] /\
    record_at s1 pd
      (Some (set_Function_type (Init FUNCTION_TYPE_DESTRUCTOR) fd)) /\
    (heap s1 !! k = heap s !! k /\ heap s1 !! mb = heap s !! mb /\
     heap s1 !! fb = heap s !! fb) /\
    (forall b, pc = Ptr b 0 -> heap s1 !! b = None) /\
    forall s2 nm2 pc2 mb2 ms2 fb2 fs2 fd2,
      class_at s2 k nm2 pc2 pd mb2 ms2 fb2 fs2 ->
      record_at s2 pd (Some fd2) -> apart pd (Ptr fb2 0) ->
      exists s',
        tail s2 = Ok (tt, s') /\
        trace s' =
          trace s2 ++ freed pd ++ freed_table ms2 mb2 ++
          freed_table fs2 fb2 ++ [EvFree k] /\
        heap s' !! k = None /\
        heap s' !! mb2 =
          (if ms2 is [] then Some (Dyn, BMembers []) else None) /\
        heap s' !! fb2 =
          (if fs2 is [] then Some (Dyn, BFunctions []) else None) /\
        (forall b, pd = Ptr b 0 -> heap s' !! b = None) /\
        (forall a : addr,
           a <> k -> a <> mb2 -> a <> fb2 -> pd <> Ptr a 0 ->
           heap s' !! a = heap s2 !! a).
Proof.
  intros [Hk Hm Hf Hmfit Hffit] Hc Hd Hcd Hcf Hdf HGd.
  destruct s as [h nx orc tr]; cbn [heap next oracle trace] in *.
  assert (k <> mb) by congruence.
  assert (k <> fb) by congruence.
  assert (mb <> fb) by congruence.
  destruct oc as [fc|]; cbn [record_at heap] in Hc, Hd;
    repeat match goal with
    | H : exists _, _ |- _ => destruct H as [? H]
    | H : _ /\ _ |- _ => destruct H as [? ?]
    end; subst; cbn [apart] in *.
  all: do 2 eexists; split;
    [ unfold class_destroy; mrun; rewrite HGd; mrun;
      lazymatch goal with
      | |- ?L = _ =>
          lazymatch L with
          | context [unary_code ?c ?kk ?S] =>
              expose_call (unary_code c kk) S
          end
      end;
      reflexivity
    | ].
  all: cbn [heap next oracle trace freed record_at].
  all: split; [now rewrite <- ?app_assoc|].
  all: split; [eexists; split; [reflexivity | now heap_rw]|].
  all: split; [repeat split; now heap_rw|].
  all: split; [intros b E; inversion E; subst; now heap_rw|].
  all: clear dependent h.
  all: intros [h2 n2 o2 t2] nm2 pc2 mb2 ms2 fb2 fs2 fd2
         [Hk2 Hm2 Hf2 Hmfit2 Hffit2] (d2 & Ed & Hd2) Hdf2;
       cbn [heap next oracle trace apart] in *.
  all: injection Ed as ->.
  all: assert (k <> mb2) by congruence.
  all: assert (k <> fb2) by congruence.
  all: assert (mb2 <> fb2) by congruence.
  all: assert (k <> d2) by congruence.
  all: assert (mb2 <> d2) by congruence.
  all: destruct ms2 as [|m ms2], fs2 as [|f fs2].
  all: cbn [length] in *.
  all: eexists; split;
    [ repeat (mrun;
              try match goal with
                  | |- context [decide (Z.of_nat ?n > 0)] =>
                      first
                        [ rewrite (decide_True (P := Z.of_nat n > 0)) by lia
                        | rewrite (decide_False (P := Z.of_nat n > 0)) by lia ]
                  end);
      reflexivity
    | ].
  all: cbn [heap next oracle trace freed freed_table app].
  all: split; [now rewrite <- ?app_assoc|].
  all: repeat split; try now heap_rw.
  all: try (intros b E; inversion E; subst; now heap_rw).
  all: intros a Hak Ham Haf Had.
  all: assert (d2 <> a) by (intros E; apply Had; now rewrite E).
  all: rewrite ?lookup_delete_ne
         by (intros E; first [contradiction | symmetry in E; contradiction]).
  all: reflexivity.
Qed.
End Destroy.

End Iter4Lifecycle.

(** * The properties of the object model *)

Section Properties.
Import Iter4 Iter4Tables Iter4Dispatch Iter4Lifecycle.

Lemma demo_class_at :
  class_at demo_state 2 (Some "Vec2"%string) NULL NULL 3 [] 4 [demo_function].
Proof. constructor; reflexivity. Qed.

Lemma grow_class_at o :
  class_at (grow_state o) 2 (Some "Vec2"%string) NULL NULL
    3 [demo_member] 4 [demo_function].
Proof. constructor; reflexivity. Qed.

Lemma demo_fresh : fresh demo_state.
Proof.
  intros a Ha. cbn [demo_state next heap] in *. unfold demo_heap.
  rewrite !lookup_insert_ne by lia. apply lookup_empty.
Qed.

(** C1. Dispatch rule of [function_invoke]: under the kinds Constructor and
    Destructor, and under MemberFunction when no other instance is given,
    the unary callable runs with the class as its only argument and the
    caller gets the null pointer, whatever the callee did; under
    MemberFunction with another instance the binary callable runs with
    (class, other) and its result is what the caller gets. *)
Theorem C1_dispatch_rule
    (unary_code : code -> ptr -> Mon unit)
    (binary_code : code -> ptr -> ptr -> Mon ptr)
    (s : St) (b : addr) (i : Z) (st : storage) (fs : list Function)
    (f : Function) (t : FunctionType) (klass other : ptr) :
  heap s !! b = Some (st, BFunctions fs) -> elem fs i = Some f ->
  Function_type f = Init t -> klass <> NULL ->
  match t, other with
  | FUNCTION_TYPE_MEMBER_FUNCTION, Ptr _ _ =>
      forall c, Function_binary_member_fn f = Init (Some c) ->
        function_invoke unary_code binary_code (Ptr b i) klass other s =
          binary_code c klass other (called s (EvCall2 c klass other))
  | _, _ =>
      forall c, Function_fn f = Init (Some c) ->
        function_invoke unary_code binary_code (Ptr b i) klass other s =
          (unary_code c klass ;;; ret NULL) (called s (EvCall c klass))
  end.
Proof.
  intros Hb Hi Ht Hk.
  destruct t, other; intros c Hc;
    solve
      [ eapply function_invoke_unary; eauto; (now left) || (now right)
      | eapply function_invoke_binary; eauto; discriminate ].
Qed.

Lemma C1_dispatch_rule_witness :
  function_invoke unary_table (binary_table 1) (Ptr 1 0) (Ptr 2 0) (Ptr 2 0)
    demo_state =
    binary_table 1 "vec2_add" (Ptr 2 0) (Ptr 2 0)
      (called demo_state (EvCall2 "vec2_add" (Ptr 2 0) (Ptr 2 0))).
Proof.
  apply (C1_dispatch_rule unary_table (binary_table 1) demo_state 1 0 Auto
           [demo_function] demo_function FUNCTION_TYPE_MEMBER_FUNCTION
           (Ptr 2 0) (Ptr 2 0));
    [reflexivity | reflexivity | reflexivity | discriminate | reflexivity].
Defined.

(** C2 (as the code has it). Append stability: when the allocator grants
    the growth, the grown table fits in [size_t] and the element handed in
    does not lie in the table that grows, [class_add_member] raises the
    member count by exactly one, the element at the last index is the
    appended one, and every index below the old count resolves to the
    element it resolved to before; likewise [class_add_function]. *)
Theorem C2_append_stability
    (s : St) (k : addr) (nm : cstr) (pc pd : ptr) (mb : addr)
    (ms : list Member) (fb : addr) (fs : list Function) (o : list bool) :
  class_at s k nm pc pd mb ms fb fs ->
  heap s !! next s = None -> oracle s = true :: o ->
  (forall eb ei st es e,
     heap s !! eb = Some (st, BMembers es) -> elem es ei = Some e ->
     eb <> mb -> sizeof_Member * (Z.of_nat (length ms) + 1) < SIZE_MOD ->
     exists s',
       class_add_member (Ptr k 0) (Ptr eb ei) s = Ok (tt, s') /\
       class_get_num_members (Ptr k 0) s = Ok (Z.of_nat (length ms), s) /\
       class_get_num_members (Ptr k 0) s' =
         Ok (Z.of_nat (length ms) + 1, s') /\
       member_at (Ptr k 0) (Z.of_nat (length ms) + 1 - 1) s' = Ok (e, s') /\
       forall j m, member_at (Ptr k 0) j s = Ok (m, s) ->
                   member_at (Ptr k 0) j s' = Ok (m, s')) /\
  (forall eb ei st es e,
     heap s !! eb = Some (st, BFunctions es) -> elem es ei = Some e ->
     eb <> fb -> sizeof_Function * (Z.of_nat (length fs) + 1) < SIZE_MOD ->
     exists s',
       class_add_function (Ptr k 0) (Ptr eb ei) s = Ok (tt, s') /\
       class_get_num_functions (Ptr k 0) s = Ok (Z.of_nat (length fs), s) /\
       class_get_num_functions (Ptr k 0) s' =
         Ok (Z.of_nat (length fs) + 1, s') /\
       function_at (Ptr k 0) (Z.of_nat (length fs) + 1 - 1) s' = Ok (e, s') /\
       forall j m, function_at (Ptr k 0) j s = Ok (m, s) ->
                   function_at (Ptr k 0) j s' = Ok (m, s')).
Proof.
  intros Hat Hfresh Ho. split.
  - intros eb ei st es e Heb Hei Hne Hfit.
    destruct (class_add_member_ok s k nm pc pd mb ms fb fs eb ei es st e o)
      as (s' & Hrun & Hat' & _); try assumption.
    exists s'. split; [exact Hrun|].
    split; [eapply class_get_num_members_at; eassumption|].
    split.
    { erewrite class_get_num_members_at by eassumption.
      rewrite length_app, Nat2Z.inj_add. reflexivity. }
    split.
    { eapply member_at_in; [eassumption|].
      replace (Z.of_nat (length ms) + 1 - 1) with (Z.of_nat (length ms)) by lia.
      apply elem_app_last. }
    intros j m Hj.
    destruct (member_at_inv _ _ _ _ _ _ _ _ _ _ _ _ Hat Hj) as [Hm _].
    eapply member_at_in; [eassumption|].
    rewrite elem_app_l by (apply elem_Some in Hm; lia). exact Hm.
  - intros eb ei st es e Heb Hei Hne Hfit.
    destruct (class_add_function_ok s k nm pc pd mb ms fb fs eb ei es st e o)
      as (s' & Hrun & Hat' & _); try assumption.
    exists s'. split; [exact Hrun|].
    split; [eapply class_get_num_functions_at; eassumption|].
    split.
    { erewrite class_get_num_functions_at by eassumption.
      rewrite length_app, Nat2Z.inj_add. reflexivity. }
    split.
    { eapply function_at_in; [eassumption|].
      replace (Z.of_nat (length fs) + 1 - 1) with (Z.of_nat (length fs)) by lia.
      apply elem_app_last. }
    intros j m Hj.
    destruct (function_at_inv _ _ _ _ _ _ _ _ _ _ _ _ Hat Hj) as [Hm _].
    eapply function_at_in; [eassumption|].
    rewrite elem_app_l by (apply elem_Some in Hm; lia). exact Hm.
Qed.

Lemma C2_append_stability_witness :
  member_at (Ptr 2 0) 0 (grow_state [true]) =
    Ok (demo_member, grow_state [true]) /\
  function_at (Ptr 2 0) 0 (grow_state [true]) =
    Ok (demo_function, grow_state [true]) /\
  (exists s',
     class_add_member (Ptr 2 0) (Ptr 5 0) (grow_state [true]) = Ok (tt, s') /\
     class_get_num_members (Ptr 2 0) (grow_state [true]) =
       Ok (1, grow_state [true]) /\
     class_get_num_members (Ptr 2 0) s' = Ok (2, s') /\
     member_at (Ptr 2 0) 1 s' = Ok (other_member, s') /\
     member_at (Ptr 2 0) 0 s' = Ok (demo_member, s')) /\
  (exists s',
     class_add_function (Ptr 2 0) (Ptr 1 0) (grow_state [true]) =
       Ok (tt, s') /\
     class_get_num_functions (Ptr 2 0) (grow_state [true]) =
       Ok (1, grow_state [true]) /\
     class_get_num_functions (Ptr 2 0) s' = Ok (2, s') /\
     function_at (Ptr 2 0) 1 s' = Ok (other_function, s') /\
     function_at (Ptr 2 0) 0 s' = Ok (demo_function, s')).
Proof.
  pose proof
    (C2_append_stability (grow_state [true]) 2 (Some "Vec2"%string) NULL NULL
       3 [demo_member] 4 [demo_function] [] (grow_class_at [true])
       eq_refl eq_refl)
    as [Hm Hf].
  split; [reflexivity|]. split; [reflexivity|]. split.
  - destruct (Hm 5%positive 0 Auto [other_member] other_member)
      as (s' & H1 & H2 & H3 & H4 & H5);
      [reflexivity | reflexivity | discriminate | reflexivity |].
    exists s'. split; [exact H1|]. split; [exact H2|]. split; [exact H3|].
    split; [exact H4|]. apply H5. reflexivity.
  - destruct (Hf 1%positive 0 Auto [other_function] other_function)
      as (s' & H1 & H2 & H3 & H4 & H5);
      [reflexivity | reflexivity | discriminate | reflexivity |].
    exists s'. split; [exact H1|]. split; [exact H2|]. split; [exact H3|].
    split; [exact H4|]. apply H5. reflexivity.
Defined.

(** Append stability does not hold for every valid class and member.
    When the allocator turns the growth down,
    [class_add_member] and [class_add_function] return and the count is
    what it was: 1, not 2. When the element handed in lies in the table
    that grows, the append reads it after [realloc] has ended the
    lifetime of that table. *)
Lemma C2_counterexample :
  (exists s',
     class_add_member (Ptr 2 0) (Ptr 5 0) (grow_state [false]) = Ok (tt, s') /\
     class_get_num_members (Ptr 2 0) (grow_state [false]) =
       Ok (1, grow_state [false]) /\
     class_get_num_members (Ptr 2 0) s' = Ok (1, s')) /\
  (exists s',
     class_add_function (Ptr 2 0) (Ptr 1 0) (grow_state [false]) =
       Ok (tt, s') /\
     class_get_num_functions (Ptr 2 0) (grow_state [false]) =
       Ok (1, grow_state [false]) /\
     class_get_num_functions (Ptr 2 0) s' = Ok (1, s')) /\
  class_get_member (Ptr 2 0) 0 (grow_state [true]) =
    Ok (Ptr 3 0, grow_state [true]) /\
  class_add_member (Ptr 2 0) (Ptr 3 0) (grow_state [true]) =
    Fault UndefinedBehaviour.
Proof.
  split; [eexists; repeat split; vm_compute; reflexivity|].
  split; [eexists; repeat split; vm_compute; reflexivity|].
  split; vm_compute; reflexivity.
Qed.

(** C5. Bounds: on a well-formed instance an index at or above the count
    makes [class_get_member], [class_get_function] and
    [class_invoke_function] return the null pointer and record the debug
    trap, and nothing else happens: no callable runs. With an empty
    function table [count - 1] wraps around, the range check of
    [class_invoke_function] lets every index through, and the null result
    comes from the two checks behind it. *)
Theorem C5_bounds
    (unary_code : code -> ptr -> Mon unit)
    (binary_code : code -> ptr -> ptr -> Mon ptr)
    (s : St) (k : addr) (nm : cstr) (pc pd : ptr) (mb : addr)
    (ms : list Member) (fb : addr) (fs : list Function) (other : ptr) (i : Z) :
  class_at s k nm pc pd mb ms fb fs -> is_size i ->
  (Z.of_nat (length ms) <= i ->
     class_get_member (Ptr k 0) i s = Ok (NULL, trapped s)) /\
  (Z.of_nat (length fs) <= i ->
     class_get_function (Ptr k 0) i s = Ok (NULL, trapped s) /\
     class_invoke_function unary_code binary_code (Ptr k 0) other i s =
       Ok (NULL, if decide (length fs = 0%nat) then trapped (trapped s)
                 else trapped s)).
Proof.
  intros Hat Hi. split; [|split].
  - now apply (class_get_member_out _ _ _ _ _ _ _ _ _ Hat).
  - now apply (class_get_function_out _ _ _ _ _ _ _ _ _ Hat).
  - erewrite class_invoke_function_out by eassumption.
    unfold trapped. cbn [heap next oracle trace].
    destruct (decide (length fs = 0%nat)); [|reflexivity].
    now rewrite <- app_assoc.
Qed.

Lemma C5_bounds_witness :
  (0 <= 7 -> class_get_member (Ptr 2 0) 7 demo_state = Ok (NULL, trapped demo_state)) /\
  (1 <= 7 ->
     class_get_function (Ptr 2 0) 7 demo_state = Ok (NULL, trapped demo_state) /\
     class_invoke_function unary_table (binary_table 1) (Ptr 2 0) NULL 7
       demo_state =
       Ok (NULL, if decide (length [demo_function] = 0%nat)
                 then trapped (trapped demo_state) else trapped demo_state)).
Proof.
  apply (C5_bounds unary_table (binary_table 1) demo_state 2
           (Some "Vec2"%string) NULL NULL 3 [] 4 [demo_function] NULL 7
           demo_class_at).
  split; [discriminate | reflexivity].
Defined.

(** The empty function table: every index passes the range check of
    [class_invoke_function] and the call still yields the null pointer. *)
Lemma class_invoke_function_empty_table
    (unary_code : code -> ptr -> Mon unit)
    (binary_code : code -> ptr -> ptr -> Mon ptr)
    (s : St) k nm pc pd mb ms fb other i :
  class_at s k nm pc pd mb ms fb [] -> is_size i ->
  class_invoke_function unary_code binary_code (Ptr k 0) other i s =
    Ok (NULL, trapped (trapped s)).
Proof.
  intros Hat Hi.
  rewrite (class_invoke_function_out unary_code binary_code _ _ _ _ _ _ _
             _ _ other i Hat Hi ltac:(destruct Hi; simpl; lia)).
  unfold trapped. cbn [heap next oracle trace length].
  rewrite decide_True by reflexivity. now rewrite <- app_assoc.
Qed.

(** ** Failing appends *)

Lemma class_add_member_null (s : St) klass member :
  klass = NULL \/ member = NULL ->
  class_add_member klass member s = Ok (tt, trapped s).
Proof.
  intros H. unfold class_add_member.
  destruct (decide (klass = NULL)); [reflexivity|].
  destruct H as [? | ->]; [contradiction|].
  rewrite decide_True by reflexivity. reflexivity.
Qed.

Lemma class_add_function_null (s : St) klass function :
  klass = NULL \/ function = NULL ->
  class_add_function klass function s = Ok (tt, trapped s).
Proof.
  intros H. unfold class_add_function.
  destruct (decide (klass = NULL)); [reflexivity|].
  destruct H as [? | ->]; [contradiction|].
  rewrite decide_True by reflexivity. reflexivity.
Qed.

(** What the accessors return depends on the store alone. *)
Lemma member_at_determined klass j : store_determined (member_at klass j).
Proof.
  unfold member_at, class_get_member, class_get_num_members, field,
    load_Member, load_Class, rd, index, DEBUG_BREAK.
  determined.
Qed.

Lemma function_at_determined klass j : store_determined (function_at klass j).
Proof.
  unfold function_at, class_get_function, class_get_num_functions, field,
    load_Function, load_Class, rd, index, DEBUG_BREAK.
  determined.
Qed.

Lemma class_get_num_members_determined klass :
  store_determined (class_get_num_members klass).
Proof. unfold class_get_num_members, field, load_Class, rd. determined. Qed.

Lemma class_get_num_functions_determined klass :
  store_determined (class_get_num_functions klass).
Proof. unfold class_get_num_functions, field, load_Class, rd. determined. Qed.

(** When the allocator refuses to grow the table, the instance loses its
    member array: the field is overwritten with the null pointer while the
    count stays, and the old block is no longer referenced. *)
Lemma class_add_member_allocation_failure
    (s : St) k nm pc pd mb ms fb fs eb ei o :
  class_at s k nm pc pd mb ms fb fs ->
  oracle s = false :: o ->
  exists s',
    class_add_member (Ptr k 0) (Ptr eb ei) s = Ok (tt, s') /\
    field (Ptr k 0) Class_members s' = Ok (NULL, s') /\
    class_get_num_members (Ptr k 0) s' = Ok (Z.of_nat (length ms), s') /\
    heap s' !! mb = Some (Dyn, BMembers ms).
Proof.
  intros [Hk Hm Hf Hmfit Hffit] Ho.
  destruct s as [h nx orc tr]; cbn [heap next oracle trace] in *. subst orc.
  assert (k <> mb) by congruence.
  eexists. split; [Iter4Tables.mrun; reflexivity|].
  repeat split; Iter4Tables.mrun; reflexivity.
Qed.

(** C7 (as the code has it). An append fails without touching the table
    when the class handle or the element pointer is null: the call records
    the debug trap and returns, and the count and every stored element are
    retrieved as before. (An append also fails when the table cannot be
    grown; what is left of the table then is not part of this statement.) *)
Theorem C7_append_failure_keeps_table (s : St) (klass element : ptr) :
  klass = NULL \/ element = NULL ->
  class_add_member klass element s = Ok (tt, trapped s) /\
  class_add_function klass element s = Ok (tt, trapped s) /\
  heap (trapped s) = heap s /\
  value (class_get_num_members klass (trapped s)) =
    value (class_get_num_members klass s) /\
  value (class_get_num_functions klass (trapped s)) =
    value (class_get_num_functions klass s) /\
  (forall j, value (member_at klass j (trapped s)) =
             value (member_at klass j s)) /\
  (forall j, value (function_at klass j (trapped s)) =
             value (function_at klass j s)).
Proof.
  intros H.
  split; [now apply class_add_member_null|].
  split; [now apply class_add_function_null|].
  split; [reflexivity|].
  split.
  { apply determined_value;
      [apply class_get_num_members_determined | reflexivity]. }
  split.
  { apply determined_value;
      [apply class_get_num_functions_determined | reflexivity]. }
  split; intros j.
  - apply determined_value; [apply member_at_determined | reflexivity].
  - apply determined_value; [apply function_at_determined | reflexivity].
Qed.

Lemma C7_append_failure_keeps_table_witness :
  class_add_member (Ptr 2 0) NULL demo_state = Ok (tt, trapped demo_state) /\
  class_add_function (Ptr 2 0) NULL demo_state = Ok (tt, trapped demo_state) /\
  heap (trapped demo_state) = heap demo_state /\
  value (class_get_num_members (Ptr 2 0) (trapped demo_state)) =
    value (class_get_num_members (Ptr 2 0) demo_state) /\
  value (class_get_num_functions (Ptr 2 0) (trapped demo_state)) =
    value (class_get_num_functions (Ptr 2 0) demo_state) /\
  (forall j, value (member_at (Ptr 2 0) j (trapped demo_state)) =
             value (member_at (Ptr 2 0) j demo_state)) /\
  (forall j, value (function_at (Ptr 2 0) j (trapped demo_state)) =
             value (function_at (Ptr 2 0) j demo_state)).
Proof.
  apply (C7_append_failure_keeps_table demo_state (Ptr 2 0) NULL).
  right. reflexivity.
Defined.

(** The append fails although the class handle is valid: the instance in
    block 2 is well formed, the element pointer is null, and the member
    count after the call is the count before it. *)
Lemma C7_counterexample :
  class_at demo_state 2 (Some "Vec2"%string) NULL NULL 3 [] 4 [demo_function] /\
  Ptr 2 0 <> NULL /\
  exists s',
    class_add_member (Ptr 2 0) NULL demo_state = Ok (tt, s') /\
    value (class_get_num_members (Ptr 2 0) demo_state) = Some 0 /\
    value (class_get_num_members (Ptr 2 0) s') = Some 0.
Proof.
  split; [exact demo_class_at|]. split; [discriminate|].
  eexists. split; [reflexivity|]. split; reflexivity.
Qed.

(** C8 (as the code has it). Called with a null handle the read accessors
    return: the null pointer for the name accessors, zero for the counts,
    the null pointer for the element accessors and for the constructor and
    destructor accessors, zero (false) for [class_has_constructor] and
    [class_has_destructor]; the two kind accessors return a fixed
    enumerator. None of them records a trap. *)
Theorem C8_null_handle_sentinels
    (unary_code : code -> ptr -> Mon unit)
    (binary_code : code -> ptr -> ptr -> Mon ptr) (s : St) :
  member_get_name NULL s = Ok (None, s) /\
  function_get_name NULL s = Ok (None, s) /\
  class_get_name NULL s = Ok (None, s) /\
  class_get_num_members NULL s = Ok (0, s) /\
  class_get_num_functions NULL s = Ok (0, s) /\
  (forall i, class_get_member NULL i s = Ok (NULL, s)) /\
  (forall i, class_get_function NULL i s = Ok (NULL, s)) /\
  class_get_constructor NULL s = Ok (NULL, s) /\
  class_get_destructor NULL s = Ok (NULL, s) /\
  class_has_constructor NULL s = Ok (0, s) /\
  class_has_destructor NULL s = Ok (0, s) /\
  member_get_type NULL s = Ok (MEMBER_TYPE_I32, s) /\
  function_get_type NULL s = Ok (FUNCTION_TYPE_MEMBER_FUNCTION, s).
Proof. repeat split. Qed.

(** The name accessors do not return the empty name for a null handle. *)
Lemma C8_counterexample :
  member_get_name NULL (start []) <> Ok (Some EmptyString, start []) /\
  function_get_name NULL (start []) <> Ok (Some EmptyString, start []) /\
  class_get_name NULL (start []) <> Ok (Some EmptyString, start []).
Proof. repeat split; discriminate. Qed.

(** [member_get_data] is the one accessor without a sentinel: after the
    trap it reads through the null pointer. *)
Lemma member_get_data_null (s : St) :
  member_get_data NULL s = Fault UndefinedBehaviour.
Proof. reflexivity. Qed.

(** Only the [member_get_name] of [main.c] answers a null member with the
    empty string. *)
Lemma Iter1_member_get_name_null (s : Iter1.St) :
  Iter1.member_get_name NULL s = Ok (Some EmptyString, s).
Proof. reflexivity. Qed.
End Properties.

(** C10. [member_get_type] of a null member is [MEMBER_TYPE_I32], in every
    state and without a fault, and that is also what it returns for a real
    member whose type is [MEMBER_TYPE_I32]: the result does not tell the two
    apart. The function reads the same in [main.c], [part_000] and
    [part_001]. *)
Theorem C10_member_get_type_null {F C : Type} (s : state F C) (p : ptr) (m : Member) :
  load_Member p s = Ok (m, s) -> Member_type m = Init MEMBER_TYPE_I32 ->
  member_get_type NULL s = Ok (MEMBER_TYPE_I32, s) /\
  member_get_type p s = member_get_type NULL s.
Proof.
  intros Hp Hm. split; [reflexivity|].
  destruct p as [|b i]; [discriminate|].
  unfold member_get_type. rewrite decide_False by discriminate.
  rewrite decide_True by reflexivity.
  rewrite (bind_Ok _ _ _ _ _ Hp), Hm. reflexivity.
Qed.

Lemma C10_member_get_type_null_witness :
  member_get_type NULL Iter1.MyInt_state = Ok (MEMBER_TYPE_I32, Iter1.MyInt_state) /\
  member_get_type (Ptr 1 0) Iter1.MyInt_state = member_get_type NULL Iter1.MyInt_state.
Proof.
  apply (C10_member_get_type_null Iter1.MyInt_state (Ptr 1 0) Iter1.MyInt); reflexivity.
Defined.

(** * Lifecycle properties *)

Section Lifecycle.
Import Iter4 Iter4Tables Iter4Dispatch Iter4Lifecycle.

Lemma frame_state_fresh f o : fresh (frame_state f o).
Proof.
  intros a Ha. cbn [frame_state next heap] in *.
  apply lookup_singleton_ne. lia.
Qed.

(** C3. Constructor-once: when the descriptor carries a constructor [F]
    and the allocations succeed, [class_create] runs as follows: it builds
    the new instance without calling anything, forces the kind of the
    instance's constructor record to Constructor, records one call of [F]
    with the new instance as its only argument, runs [F], and returns the
    instance as soon as [F] returns. *)
Theorem C3_constructor_once
    (unary_code : code -> ptr -> Mon unit)
    (binary_code : code -> ptr -> ptr -> Mon ptr)
    (ci : ClassCreateInfo) (s : St) (xs : list Member) (gs : list Function)
    (fc : Function) (od : option Function) (o : list bool) (F : code) :
  fresh s ->
  members_at (heap s) (ci_members ci) xs ->
  ci_num_members ci = Z.of_nat (length xs) ->
  sizeof_Member * Z.of_nat (length xs) < SIZE_MOD ->
  functions_at (heap s) (ci_functions ci) gs ->
  ci_num_functions ci = Z.of_nat (length gs) ->
  sizeof_Function * Z.of_nat (length gs) < SIZE_MOD ->
  record_desc (heap s) (ci_ctor ci) (Some fc) ->
  record_desc (heap s) (ci_dtor ci) od ->
  Function_fn fc = Init (Some F) ->
  oracle s = replicate (allocations (Some fc) od) true ++ o ->
  exists s1 cb pd mb fb,
    class_create unary_code binary_code ci s =
      (unary_code F (Ptr (next s) 0) ;;; ret (Ptr (next s) 0)) s1 /\
    trace s1 = trace s ++ [EvCall F (Ptr (next s) 0)] /\
    heap s !! next s = None /\
    class_at s1 (next s) (ci_name ci) (Ptr cb 0) pd mb xs fb gs /\
    heap s1 !! cb =
      Some (Dyn, BFunctions [installed (Init FUNCTION_TYPE_CONSTRUCTOR) fc]).
Proof.
  intros Hfresh Hms Hn Hmfit Hfs Hnf Hffit Hc Hd HF Ho.
  destruct (class_create_run unary_code binary_code ci s xs gs (Some fc) od o F)
    as (s1 & pc & pd & mb & fb & Hrun & Hat & Hpc & _ & _ & _ & _ & _ & _ & Htr);
    try assumption.
  { now intros f [= <-]. }
  cbn [fmap option_fmap option_map record_at] in Hpc.
  destruct Hpc as (cb & -> & Hcb).
  exists s1, cb, pd, mb, fb.
  split; [exact Hrun|]. split; [exact Htr|].
  split; [apply Hfresh; lia|]. split; assumption.
Qed.

Lemma C3_constructor_once_witness :
  exists s1 cb pd mb fb,
    class_create unary_table (binary_table 0) ctor_only
      (frame_state vec2_ctor_record (replicate 4 true)) =
      (unary_table "vec2_ctor" (Ptr 2 0) ;;; ret (Ptr 2 0)) s1 /\
    trace s1 = [] ++ [EvCall "vec2_ctor" (Ptr 2 0)] /\
    heap (frame_state vec2_ctor_record (replicate 4 true)) !! 2%positive = None /\
    class_at s1 2 (Some "TestClass"%string) (Ptr cb 0) pd mb [] fb [] /\
    heap s1 !! cb =
      Some (Dyn, BFunctions
                   [installed (Init FUNCTION_TYPE_CONSTRUCTOR) vec2_ctor_record]).
Proof.
  apply (C3_constructor_once unary_table (binary_table 0) ctor_only
           (frame_state vec2_ctor_record (replicate 4 true)) [] []
           vec2_ctor_record None [] "vec2_ctor"%string).
  - apply frame_state_fresh.
  - left. reflexivity.
  - reflexivity.
  - reflexivity.
  - left. reflexivity.
  - reflexivity.
  - reflexivity.
  - exists 1%positive, 0, Auto, [vec2_ctor_record]. repeat split.
  - reflexivity.
  - reflexivity.
  - reflexivity.
Defined.

(** With a constructor that merely returns, creation succeeds and the
    trace holds the one call. *)
Lemma class_create_ok
    (unary_code : code -> ptr -> Mon unit)
    (binary_code : code -> ptr -> ptr -> Mon ptr)
    ci (s : St) xs gs oc od o F :
  fresh s ->
  members_at (heap s) (ci_members ci) xs ->
  ci_num_members ci = Z.of_nat (length xs) ->
  sizeof_Member * Z.of_nat (length xs) < SIZE_MOD ->
  functions_at (heap s) (ci_functions ci) gs ->
  ci_num_functions ci = Z.of_nat (length gs) ->
  sizeof_Function * Z.of_nat (length gs) < SIZE_MOD ->
  record_desc (heap s) (ci_ctor ci) oc ->
  record_desc (heap s) (ci_dtor ci) od ->
  (forall f, oc = Some f -> Function_fn f = Init (Some F)) ->
  (forall f st, oc = Some f -> unary_code F (Ptr (next s) 0) st = Ok (tt, st)) ->
  oracle s = replicate (allocations oc od) true ++ o ->
  exists s1 pc pd mb fb,
    class_create unary_code binary_code ci s = Ok (Ptr (next s) 0, s1) /\
    class_at s1 (next s) (ci_name ci) pc pd mb xs fb gs /\
    record_at s1 pc (installed (Init FUNCTION_TYPE_CONSTRUCTOR) <$> oc) /\
    record_at s1 pd (installed Indet <$> od) /\
    (new_in s pc /\ new_in s pd /\
     (next s <= mb)%positive /\ (next s <= fb)%positive) /\
    (apart pc pd /\ apart pc (Ptr fb 0) /\ apart pd (Ptr fb 0)) /\
    (forall a, (a < next s)%positive -> heap s1 !! a = heap s !! a) /\
    fresh s1 /\ oracle s1 = o /\
    trace s1 = trace s ++ (if oc is Some _ then [EvCall F (Ptr (next s) 0)] else []).
Proof.
  intros Hfresh Hms Hn Hmfit Hfs Hnf Hffit Hc Hd HF Hq Ho.
  destruct (class_create_run unary_code binary_code ci s xs gs oc od o F)
    as (s1 & pc & pd & mb & fb & Hrun & Hrest); try assumption.
  exists s1, pc, pd, mb, fb. split; [|exact Hrest].
  rewrite Hrun. destruct oc as [f|]; [|reflexivity].
  unfold bind. now rewrite (Hq f s1 eq_refl).
Qed.

(** C4 (as the code has it). Destructor-once and release order: for an
    instance with a destructor [G], [class_destroy] first releases the
    constructor record if there is one, forces the kind of the destructor
    record to Destructor, records one call of [G] with the instance as its
    only argument and runs [G] while the instance and both tables are
    still allocated. [G] may change the store: whenever it returns
    leaving a well-formed instance in the same block, with the destructor
    field still designating the destructor record (the name, the tables,
    their contents and the counts may all be different, and so may every
    other block), the rest of [class_destroy] releases, in this order:
    the destructor record, the member table the instance has then if its
    count is positive, the function table if its count is positive, the
    instance. A table whose count is zero is not released, and no other
    block is touched. *)
Theorem C4_destructor_once_release_order
    (unary_code : code -> ptr -> Mon unit)
    (binary_code : code -> ptr -> ptr -> Mon ptr)
    (s : St) (k : addr) (nm : cstr) (pc pd : ptr) (mb : addr)
    (ms : list Member) (fb : addr) (fs : list Function)
    (oc : option Function) (fd : Function) (G : code) :
  class_at s k nm pc pd mb ms fb fs ->
  record_at s pc oc -> record_at s pd (Some fd) ->
  apart pc pd -> apart pc (Ptr fb 0) -> apart pd (Ptr fb 0) ->
  Function_fn fd = Init (Some G) ->
  exists s1 rest,
    class_destroy unary_code binary_code (Ptr k 0) s =
      (unary_code G (Ptr k 0) ;;; rest) s1 /\
    trace s1 = trace s ++ freed pc ++ [EvCall G (Ptr k 0)] /\
    record_at s1 pd
      (Some (set_Function_type (Init FUNCTION_TYPE_DESTRUCTOR) fd)) /\
    (heap s1 !! k = heap s !! k /\ heap s1 !! mb = heap s !! mb /\
     heap s1 !! fb = heap s !! fb) /\
    (forall b, pc = Ptr b 0 -> heap s1 !! b = None) /\
    forall s2 nm2 pc2 mb2 ms2 fb2 fs2 fd2,
      class_at s2 k nm2 pc2 pd mb2 ms2 fb2 fs2 ->
      record_at s2 pd (Some fd2) -> apart pd (Ptr fb2 0) ->
      exists s',
        rest s2 = Ok (tt, s') /\
        trace s' =
          trace s2 ++ freed pd ++ freed_table ms2 mb2 ++
          freed_table fs2 fb2 ++ [EvFree k] /\
        heap s' !! k = None /\
        heap s' !! mb2 =
          (if ms2 is [] then Some (Dyn, BMembers []) else None) /\
        heap s' !! fb2 =
          (if fs2 is [] then Some (Dyn, BFunctions []) else None) /\
        (forall b, pd = Ptr b 0 -> heap s' !! b = None) /\
        (forall a : addr,
           a <> k -> a <> mb2 -> a <> fb2 -> pd <> Ptr a 0 ->
           heap s' !! a = heap s2 !! a).
Proof. apply class_destroy_run. Qed.

Lemma C4_destructor_once_release_order_witness :
  exists s1 rest,
    class_destroy unary_table (binary_table 0) (Ptr 2 0) dtor_state =
      (unary_table "vec2_dtor" (Ptr 2 0) ;;; rest) s1 /\
    trace s1 = [EvCall "vec2_dtor"%string (Ptr 2 0)] /\
    heap s1 !! 3%positive =
      Some (Dyn, BFunctions
                   [set_Function_type (Init FUNCTION_TYPE_DESTRUCTOR)
                      vec2_dtor_record]) /\
    (heap s1 !! 2%positive = heap dtor_state !! 2%positive /\
     heap s1 !! 4%positive = heap dtor_state !! 4%positive /\
     heap s1 !! 5%positive = heap dtor_state !! 5%positive) /\
    exists s',
      rest dtor_state_written = Ok (tt, s') /\
      trace s' =
        [EvCall "vec2_dtor"%string (Ptr 2 0); EvFree 3; EvFree 4; EvFree 2] /\
      heap s' !! 2%positive = None /\
      heap s' !! 3%positive = None /\
      heap s' !! 4%positive = None /\
      heap s' !! 5%positive = Some (Dyn, BFunctions []).
Proof.
  destruct
    (C4_destructor_once_release_order unary_table (binary_table 0)
       dtor_state 2 (Some "Vec2"%string) NULL (Ptr 3 0) 4 [demo_member]
       5 [] None vec2_dtor_record "vec2_dtor"%string)
    as (s1 & rest & Hrun & Htr & (b & Eb & Hb) & Hkept & _ & Hrest).
  - constructor; reflexivity.
  - reflexivity.
  - exists 3%positive. split; reflexivity.
  - exact I.
  - exact I.
  - cbn. discriminate.
  - reflexivity.
  - injection Eb as <-.
    exists s1, rest. split; [exact Hrun|]. split; [exact Htr|].
    split; [exact Hb|]. split; [exact Hkept|].
    destruct (Hrest dtor_state_written (Some "Vec2"%string) NULL 4%positive
                [other_member] 5%positive [] 
                (set_Function_type (Init FUNCTION_TYPE_DESTRUCTOR)
                   vec2_dtor_record))
      as (s' & H1 & H2 & H3 & H4 & H5 & H6 & _).
    + constructor; reflexivity.
    + exists 3%positive. split; reflexivity.
    + cbn. discriminate.
    + exists s'. split; [exact H1|]. split; [exact H2|]. split; [exact H3|].
      split; [exact (H6 3%positive eq_refl)|]. split; [exact H4|exact H5].
Defined.

(** The condition on what the destructor leaves cannot be dropped: after
    a destructor that releases the instance itself, the rest of
    [class_destroy] reads a dead object. *)
Lemma class_destroy_after_self_release :
  class_destroy (fun _ this => free this) (binary_table 0) (Ptr 2 0)
    dtor_state = Fault UndefinedBehaviour.
Proof. vm_compute. reflexivity. Qed.

(** An instance created with a destructor and no member: after
    [class_destroy] its member storage (block 4) and its function storage
    (block 5) are still allocated, and the only releases were those of the
    destructor record and of the instance. *)
Lemma C4_counterexample :
  exists s1 s2,
    class_create unary_table (binary_table 0) dtor_only
      (frame_state vec2_dtor_record (replicate 4 true)) = Ok (Ptr 2 0, s1) /\
    field (Ptr 2 0) Class_members s1 = Ok (Ptr 4 0, s1) /\
    field (Ptr 2 0) Class_functions s1 = Ok (Ptr 5 0, s1) /\
    class_destroy unary_table (binary_table 0) (Ptr 2 0) s1 = Ok (tt, s2) /\
    trace s2 = [EvCall "vec2_dtor" (Ptr 2 0); EvFree 3; EvFree 2] /\
    heap s2 !! 4%positive = Some (Dyn, BMembers []) /\
    heap s2 !! 5%positive = Some (Dyn, BFunctions []).
Proof.
  do 2 eexists.
  split; [vm_compute; reflexivity|].
  split; [vm_compute; reflexivity|].
  split; [vm_compute; reflexivity|].
  split; [vm_compute; reflexivity|].
  split; [reflexivity|]. split; reflexivity.
Qed.

(** ** Copying creation *)

End Lifecycle.

Section Copying.
Import Iter4 Iter4Tables Iter4Dispatch Iter4Lifecycle.

End Copying.

(** ** The earlier iterations share the descriptor's arrays *)

Module Iter3Facts.
Import Iter3.

Ltac munfold :=
  unfold class_create, class_has_constructor, class_get_num_members,
    class_get_num_functions, class_get_member, class_get_function,
    function_invoke, function_get_type, call_fn, field;
  store_unfold.

Ltac msimpl :=
  store_simpl;
  cbn beta iota zeta delta
    [Class_name Class_ctor Class_members Class_num_members
     Class_functions Class_num_functions
     set_Class_name set_Class_ctor set_Class_members
     set_Class_num_members set_Class_functions set_Class_num_functions
     indet_Class
     Function_name Function_type Function_fn
     set_Function_name set_Function_type set_Function_fn indet_Function
     ci_name ci_ctor ci_members ci_num_members ci_functions ci_num_functions].

Ltac mrun :=
  repeat (progress (munfold; heap_rw; msimpl; guard_rw;
                    rewrite ?Z.add_0_l; change (Z.to_nat 0) with 0%nat;
                    rewrite ?insert_head, ?elem_head)).

(** Constructor-once in [part_000]: the class adopts the caller's
    constructor record, forces the kind of that very record to Constructor,
    records one call of [F] on the new instance, runs [F] and returns. *)
Lemma class_create_constructor_once
    (unary_code : code -> ptr -> Mon unit)
    (ci : ClassCreateInfo) (s : St) b i st fs f F o :
  ci_ctor ci = Ptr b i ->
  heap s !! b = Some (st, BFunctions fs) -> elem fs i = Some f ->
  Function_fn f = Init (Some F) ->
  heap s !! next s = None -> oracle s = true :: o ->
  exists s1,
    class_create unary_code ci s =
      (unary_code F (Ptr (next s) 0) ;;; ret (Ptr (next s) 0)) s1 /\
    trace s1 = trace s ++ [EvCall F (Ptr (next s) 0)] /\
    field (Ptr (next s) 0) Class_ctor s1 = Ok (Ptr b i, s1) /\
    heap s1 !! b =
      Some (st, BFunctions
                  (<[Z.to_nat i :=
                       set_Function_type (Init FUNCTION_TYPE_CONSTRUCTOR) f]> fs)).
Proof.
  intros Hci Hb Hi HF Hnx Ho.
  destruct s as [h nx orc tr]; cbn [heap next oracle trace] in *. subst orc.
  destruct ci as [nm cp mp nn fp nfn]; cbn [ci_ctor] in Hci. subst cp.
  assert (nx <> b) by congruence.
  assert (Hi' : 0 <= i < Z.of_nat (length fs)) by (now apply elem_Some in Hi).
  assert (Hi2 : elem
                  (<[Z.to_nat i :=
                       set_Function_type (Init FUNCTION_TYPE_CONSTRUCTOR) f]> fs) i =
                Some (set_Function_type (Init FUNCTION_TYPE_CONSTRUCTOR) f)).
  { unfold elem. rewrite decide_True by lia.
    apply list_lookup_insert_eq. lia. }
  eexists. split.
  { mrun. rewrite Hi. mrun. rewrite Hi2. mrun. rewrite Hi2. mrun.
    rewrite HF.
    lazymatch goal with
    | |- ?L = _ =>
        lazymatch L with
        | context [unary_code ?c ?kk ?S] => expose_call (unary_code c kk) S
        end
    end.
    reflexivity. }
  cbn [heap next oracle trace]. split; [reflexivity|].
  split; [mrun; reflexivity|]. now heap_rw.
Qed.

End Iter3Facts.


(** The same sharing in [main.c]: [class_new] stores the caller's pointer. *)
Lemma Iter1_class_new_shares :
  exists s1 s2,
    Iter1.class_new (Some "MyClass"%string) (Ptr 1 0) 1 Iter1.MyInt_state_live =
      Ok (Ptr 2 0, s1) /\
    Iter1.class_get_member (Ptr 2 0) 0 s1 = Ok (Ptr 1 0, s1) /\
    update_Member (Ptr 1 0) (set_Member_data (i_data 4)) s1 = Ok (tt, s2) /\
    value ((let! p := Iter1.class_get_member (Ptr 2 0) 0 in load_Member p) s2) =
      Some (set_Member_data (i_data 4) Iter1.MyInt).
Proof.
  do 2 eexists.
  split; [vm_compute; reflexivity|].
  split; [vm_compute; reflexivity|].
  split; [vm_compute; reflexivity|].
  vm_compute. reflexivity.
Qed.

(** * The demonstration program *)

Section Scenario.
Import Iter4 Iter4Tables.

(** C9. Scenario B: with fifteen successful allocations the first
    statements of [test_vec2_class] create [a = (1, 3)] and [b = (2, 4)],
    and invoking function 0 of [a] with [b] runs [vec2_add] on ([a], [b]),
    in binary32 arithmetic, and returns a third instance [c] with
    [c.members[0].data = 3.0] and [c.members[1].data = 7.0]; the member
    data of [a] and [b] is afterwards what it was before the invocation. *)
Theorem C9_scenario_B (n : nat) (o : list bool) :
  exists a b c s_ab s,
    (let! a := create_vec2 (binary_table (S n)) (f32_of_Z 1) (f32_of_Z 3) in
     let! b := create_vec2 (binary_table (S n)) (f32_of_Z 2) (f32_of_Z 4) in
     ret (a, b)) (start (replicate 15 true ++ o)) = Ok ((a, b), s_ab) /\
    class_invoke_function unary_table (binary_table (S n)) a b 0 s_ab =
      Ok (c, s) /\
    vec2_scenario (S n) (start (replicate 15 true ++ o)) = Ok ((a, b, c), s) /\
    c <> NULL /\ c <> a /\ c <> b /\
    vec2_data c s = (Some (f32_of_Z 3), Some (f32_of_Z 7)) /\
    vec2_data a s_ab = (Some (f32_of_Z 1), Some (f32_of_Z 3)) /\
    vec2_data b s_ab = (Some (f32_of_Z 2), Some (f32_of_Z 4)) /\
    vec2_data a s = vec2_data a s_ab /\
    vec2_data b s = vec2_data b s_ab /\
    In (EvCall2 "vec2_add" a b) (trace s).
Proof.
  do 5 eexists.
  split; [vm_compute; reflexivity|].
  split; [vm_compute; reflexivity|].
  split; [vm_compute; reflexivity|].
  split; [discriminate|]. split; [discriminate|]. split; [discriminate|].
  split; [vm_compute; reflexivity|].
  split; [vm_compute; reflexivity|].
  split; [vm_compute; reflexivity|].
  split; [vm_compute; reflexivity|].
  split; [vm_compute; reflexivity|].
  vm_compute. tauto.
Qed.

(** The whole of [test_vec2_class] runs without a fault and releases every
    block it allocated. *)
Lemma test_vec2_class_runs (n : nat) (o : list bool) :
  exists s,
    test_vec2_class (S n) (start (replicate 15 true ++ o)) = Ok (tt, s) /\
    heap s = ∅ /\ oracle s = o.
Proof.
  eexists. split; [vm_compute; reflexivity|]. split; reflexivity.
Qed.
End Scenario.

(** * Further properties of the code

    ** The type names *)

(** X1. [member_type_to_string] names every enumerator without raising the
    debug trap, the names are not empty, and two enumerators have the same
    name only when they are equal; for an integer that is no enumerator the
    function raises the trap and returns the empty string. *)
Theorem member_type_to_string_names {F C : Type} :
  (forall (t : MemberType) (s : state F C),
     exists name,
       member_type_to_string (MemberType_value t) s = Ok (Some name, s) /\
       name <> EmptyString) /\
  (forall (t1 t2 : MemberType) (s : state F C),
     member_type_to_string (MemberType_value t1) s =
       member_type_to_string (MemberType_value t2) s <-> t1 = t2) /\
  (forall (z : Z) (s : state F C),
     z < 0 \/ 3 < z ->
     member_type_to_string z s =
       Ok (Some EmptyString,
           mkState (heap s) (next s) (oracle s) (trace s ++ [EvBreak]))).
Proof.
  split; [|split].
  - intros [] s; eexists; (split; [reflexivity|discriminate]).
  - intros t1 t2 s. split; [|now intros ->].
    destruct t1, t2; intros H; try reflexivity; discriminate H.
  - intros z s Hz. unfold member_type_to_string, MemberType_value.
    repeat (rewrite decide_False by lia). reflexivity.
Qed.

(** ** Raw storage *)

Module RawFacts.
Import Raw.

Lemma load_at (m : mem) b l (o i : nat) :
  m !! b = Some l ->
  load (Ptr b (Z.of_nat o)) (Z.of_nat i) m = l !! (o + i)%nat.
Proof.
  intros Hb. unfold load. rewrite Hb, <- Nat2Z.inj_add. apply elem_lookup.
Qed.

Lemma store_at (m : mem) b l (o i : nat) v :
  m !! b = Some l -> (o + i < length l)%nat ->
  store (Ptr b (Z.of_nat o)) (Z.of_nat i) v m =
    Some (<[b := <[(o + i)%nat := v]> l]> m).
Proof.
  intros Hb Hi. unfold store. rewrite Hb, <- Nat2Z.inj_add, elem_lookup.
  destruct (lookup_lt_is_Some_2 l (o + i)%nat Hi) as [y ->].
  now rewrite Nat2Z.id.
Qed.

(** One more byte has arrived in the destination. *)
Lemma copied_one_more (ls ld : list Z) (so d0 i : nat) x :
  ls !! (so + i)%nat = Some x -> (d0 + i < length ld)%nat ->
  <[(d0 + i)%nat := x]>
    (take d0 ld ++ take i (drop so ls) ++ drop (d0 + i) ld) =
  take d0 ld ++ take (S i) (drop so ls) ++ drop (d0 + S i) ld.
Proof.
  intros Hx Hd.
  assert (Hls : (so + i < length ls)%nat) by (now apply lookup_lt_Some in Hx).
  assert (HA : length (take d0 ld) = d0) by (rewrite length_take; lia).
  assert (HB : length (take i (drop so ls)) = i)
    by (rewrite length_take, length_drop; lia).
  destruct (lookup_lt_is_Some_2 ld (d0 + i)%nat Hd) as [y Hy].
  rewrite (drop_S ld y (d0 + i)) by exact Hy.
  rewrite insert_app_r_alt by lia. rewrite HA.
  replace (d0 + i - d0)%nat with (length (take i (drop so ls))) by lia.
  rewrite insert_app_r_alt by lia.
  replace (length (take i (drop so ls)) - length (take i (drop so ls)))%nat
    with 0%nat by lia.
  cbn [list_insert insert].
  rewrite (take_S_r (drop so ls) i x) by (now rewrite lookup_drop).
  rewrite <- app_assoc. cbn [app].
  now replace (d0 + S i)%nat with (S (d0 + i)) by lia.
Qed.

Lemma memcpy_loop_disjoint sb db (so d0 : nat) (ls ld : list Z) :
  sb <> db ->
  forall (n i : nat) (m : mem),
    m !! sb = Some ls ->
    m !! db = Some (take d0 ld ++ take i (drop so ls) ++ drop (d0 + i) ld) ->
    (so + i + n <= length ls)%nat -> (d0 + i + n <= length ld)%nat ->
    memcpy_loop n (Z.of_nat i) (Ptr sb (Z.of_nat so)) (Ptr db (Z.of_nat d0)) m =
      Ok (<[db := take d0 ld ++ take (i + n) (drop so ls) ++
                  drop (d0 + (i + n)) ld]> m).
Proof.
  intros Hne. induction n as [|n IH]; intros i m Hs Hd Hsn Hdn.
  - cbn [memcpy_loop]. rewrite Nat.add_0_r. now rewrite insert_id.
  - cbn [memcpy_loop].
    destruct (lookup_lt_is_Some_2 ls (so + i)%nat ltac:(lia)) as [x Hx].
    rewrite (load_at m sb ls so i Hs), Hx.
    rewrite (store_at m db _ d0 i x Hd).
    2:{ rewrite !length_app, !length_take, !length_drop. lia. }
    rewrite copied_one_more by (assumption || lia).
    replace (Z.of_nat i + 1) with (Z.of_nat (S i)) by lia.
    rewrite (IH (S i)).
    + rewrite insert_insert_eq.
      now replace (S i + n)%nat with (i + S n)%nat by lia.
    + now rewrite lookup_insert_ne.
    + now rewrite lookup_insert_eq.
    + lia.
    + lia.
Qed.

(** The smear of an overlapping forward copy: [i] bytes behind the first
    have been overwritten with it. *)
Lemma memcpy_loop_overlap b (pre mid post : list Z) (c : Z) :
  forall (n i : nat) (m : mem),
    m !! b = Some (pre ++ replicate (S i) c ++ drop i mid ++ post) ->
    (i + n <= length mid)%nat ->
    memcpy_loop n (Z.of_nat i) (Ptr b (Z.of_nat (length pre)))
      (Ptr b (Z.of_nat (S (length pre)))) m =
      Ok (<[b := pre ++ replicate (S (i + n)) c ++ drop (i + n) mid ++ post]> m).
Proof.
  induction n as [|n IH]; intros i m Hb Hn.
  - cbn [memcpy_loop]. rewrite Nat.add_0_r. now rewrite insert_id.
  - cbn [memcpy_loop].
    rewrite (load_at m b _ (length pre) i Hb).
    rewrite lookup_app_r by lia.
    replace (length pre + i - length pre)%nat with i by lia.
    rewrite lookup_app_l by (rewrite length_replicate; lia).
    rewrite lookup_replicate_2 by lia.
    destruct (lookup_lt_is_Some_2 mid i ltac:(lia)) as [y Hy].
    rewrite (store_at m b _ (S (length pre)) i c Hb).
    2:{ rewrite !length_app, length_replicate, length_drop. lia. }
    rewrite (drop_S mid y i Hy).
    rewrite insert_app_r_alt by lia.
    replace (S (length pre) + i - length pre)%nat
      with (length (replicate (S i) c)) by (rewrite length_replicate; lia).
    rewrite insert_app_r_alt by lia.
    replace (length (replicate (S i) c) - length (replicate (S i) c))%nat
      with 0%nat by lia.
    cbn [app list_insert insert].
    replace (Z.of_nat i + 1) with (Z.of_nat (S i)) by lia.
    rewrite (IH (S i)).
    + rewrite insert_insert_eq.
      now replace (S i + n)%nat with (i + S n)%nat by lia.
    + rewrite lookup_insert_eq. do 2 f_equal.
      change (replicate (S (S i)) c) with (c :: replicate (S i) c).
      rewrite (replicate_cons_app (S i) c), <- app_assoc. reflexivity.
    + lia.
Qed.

Lemma strlen_loop_run (m : mem) b (pre post : list Z) :
  forall (todo done : list Z) (fuel : nat),
    m !! b = Some (pre ++ done ++ todo ++ 0 :: post) ->
    Forall (fun c => c <> 0) todo ->
    Z.of_nat (length done + length todo) <= INT_MAX ->
    (length todo < fuel)%nat ->
    strlen_loop fuel (Ptr b (Z.of_nat (length pre))) (Z.of_nat (length done)) m =
      Ok (Z.of_nat (length done + length todo)).
Proof.
  induction todo as [|c todo IH]; intros done fuel Hb Hnz Hmax Hfuel;
    (destruct fuel as [|fuel]; [cbn [length] in Hfuel; lia|]);
    cbn [strlen_loop]; rewrite (load_at m b _ _ _ Hb);
    rewrite lookup_app_r by lia;
    replace (length pre + length done - length pre)%nat
      with (length done) by lia;
    rewrite lookup_app_r by lia;
    replace (length done - length done)%nat with 0%nat by lia;
    cbn [app lookup list_lookup].
  - rewrite decide_False by (intros H; now apply H).
    cbn [length]. now rewrite Nat.add_0_r.
  - inversion Hnz as [|? ? Hc Hrest]; subst.
    rewrite decide_True by exact Hc.
    cbn [length] in Hmax, Hfuel.
    rewrite decide_True by lia.
    replace (Z.of_nat (length done) + 1)
      with (Z.of_nat (length (done ++ [c])))
      by (rewrite length_app; cbn [length]; lia).
    rewrite (IH (done ++ [c])).
    + rewrite length_app. cbn [length]. f_equal. lia.
    + now rewrite <- app_assoc.
    + exact Hrest.
    + rewrite length_app. cbn [length]. lia.
    + lia.
Qed.

Lemma strlen_loop_unterminated (m : mem) b (o : nat) (l : list Z) :
  m !! b = Some l -> Forall (fun c => c <> 0) (drop o l) ->
  forall (fuel pos : nat),
    (forall r, strlen_loop fuel (Ptr b (Z.of_nat o)) (Z.of_nat pos) m <> Ok r) /\
    ((length l - (o + pos) < fuel)%nat ->
     strlen_loop fuel (Ptr b (Z.of_nat o)) (Z.of_nat pos) m =
       Fault UndefinedBehaviour).
Proof.
  intros Hb Hnz. induction fuel as [|fuel IH]; intros pos.
  - split; [discriminate|]. lia.
  - cbn [strlen_loop]. rewrite (load_at m b l o pos Hb).
    destruct (l !! (o + pos)%nat) as [c|] eqn:Hc; [|split; [discriminate|reflexivity]].
    assert (Hlt : (o + pos < length l)%nat) by (now apply lookup_lt_Some in Hc).
    assert (c <> 0).
    { rewrite Forall_forall in Hnz. apply Hnz.
      apply list_elem_of_lookup. exists pos.
      now rewrite lookup_drop. }
    rewrite decide_True by assumption.
    destruct (decide (Z.of_nat pos < INT_MAX)); [|split; [discriminate|reflexivity]].
    replace (Z.of_nat pos + 1) with (Z.of_nat (S pos)) by lia.
    destruct (IH (S pos)) as [IH1 IH2]. split; [exact IH1|].
    intros Hfuel. apply IH2. lia.
Qed.

(** X2. [memcpy(src, dest, size)] copies from its first argument to its
    second: when the two ranges lie in different blocks and inside them,
    the destination range receives the [size] bytes of the source range,
    every other byte of the destination block and every other block
    (the source among them) stay as they were. *)
Theorem memcpy_copies (m : mem) (sb db : addr) (so d0 size : Z)
    (ls ld : list Z) :
  sb <> db -> m !! sb = Some ls -> m !! db = Some ld ->
  0 <= so -> 0 <= d0 -> 0 <= size ->
  so + size <= Z.of_nat (length ls) -> d0 + size <= Z.of_nat (length ld) ->
  memcpy (Ptr sb so) (Ptr db d0) size m =
    Ok (<[db := take (Z.to_nat d0) ld ++
                take (Z.to_nat size) (drop (Z.to_nat so) ls) ++
                drop (Z.to_nat (d0 + size)) ld]> m).
Proof.
  intros Hne Hs Hd Hso Hd0 Hsize Hsfit Hdfit. unfold memcpy.
  rewrite <- (Z2Nat.id so), <- (Z2Nat.id d0) at 1 by assumption.
  change 0 with (Z.of_nat 0).
  rewrite (memcpy_loop_disjoint sb db (Z.to_nat so) (Z.to_nat d0) ls ld Hne).
  - cbn [Nat.add]. now rewrite Z2Nat.inj_add by assumption.
  - exact Hs.
  - rewrite take_0, Nat.add_0_r. cbn [app]. now rewrite take_drop.
  - lia.
  - lia.
Qed.

Lemma memcpy_copies_witness :
  memcpy (Ptr 1 1) (Ptr 2 0) 2 two_blocks =
    Ok (<[2%positive := [20; 30; 0; 0]]> two_blocks).
Proof.
  apply (memcpy_copies two_blocks 1 2 1 0 2 [10; 20; 30] [0; 0; 0; 0]);
    first [discriminate | reflexivity | cbn; lia].
Defined.

(** X3. [memcpy] copies forward byte by byte, so it is no [memmove]: when
    the destination starts one byte behind the source in the same block,
    the first source byte is written over the whole destination range. *)
Theorem memcpy_overlap_smears (m : mem) (b : addr) (pre mid post : list Z)
    (c : Z) :
  m !! b = Some (pre ++ c :: mid ++ post) ->
  memcpy (Ptr b (Z.of_nat (length pre))) (Ptr b (Z.of_nat (length pre) + 1))
    (Z.of_nat (length mid)) m =
    Ok (<[b := pre ++ c :: replicate (length mid) c ++ post]> m).
Proof.
  intros Hb. unfold memcpy. rewrite Nat2Z.id.
  replace (Z.of_nat (length pre) + 1) with (Z.of_nat (S (length pre))) by lia.
  change 0 with (Z.of_nat 0).
  rewrite (memcpy_loop_overlap b pre mid post c (length mid) 0 m).
  - cbn [Nat.add]. rewrite drop_all. reflexivity.
  - rewrite drop_0. exact Hb.
  - lia.
Qed.

Lemma memcpy_overlap_smears_witness :
  memcpy (Ptr 1 0) (Ptr 1 1) 2 two_blocks =
    Ok (<[1%positive := [10; 10; 10]]> two_blocks).
Proof.
  apply (memcpy_overlap_smears two_blocks 1 [] [20; 30] [] 10). reflexivity.
Defined.

(** X4. [strlen] returns the number of bytes before the first zero byte,
    provided that number is representable as an [int]; the bytes behind
    the terminator play no part. *)
Theorem strlen_counts (m : mem) (b : addr) (pre s post : list Z) (fuel : nat) :
  m !! b = Some (pre ++ s ++ 0 :: post) ->
  Forall (fun c => c <> 0) s ->
  Z.of_nat (length s) <= INT_MAX ->
  (length s < fuel)%nat ->
  strlen fuel (Ptr b (Z.of_nat (length pre))) m = Ok (Z.of_nat (length s)).
Proof.
  intros Hb Hnz Hmax Hfuel. unfold strlen.
  change 0 with (Z.of_nat (length (@nil Z))).
  now rewrite (strlen_loop_run m b pre post s [] fuel).
Qed.

Lemma strlen_counts_witness : strlen 3 (Ptr 1 0) hi_mem = Ok 2.
Proof.
  apply (strlen_counts hi_mem 1 [] [72; 105] [7; 7] 3).
  - reflexivity.
  - repeat constructor; discriminate.
  - cbn. unfold INT_MAX. lia.
  - cbn. lia.
Defined.

(** X5. On storage without a zero byte from the start position to the
    end of the block [strlen] never returns: it runs off the block (or
    overflows its counter), which is undefined behaviour. *)
Theorem strlen_unterminated (m : mem) (b : addr) (o : nat) (l : list Z)
    (fuel : nat) :
  m !! b = Some l -> Forall (fun c => c <> 0) (drop o l) ->
  (forall r, strlen fuel (Ptr b (Z.of_nat o)) m <> Ok r) /\
  ((length l - o < fuel)%nat ->
   strlen fuel (Ptr b (Z.of_nat o)) m = Fault UndefinedBehaviour).
Proof.
  intros Hb Hnz. unfold strlen. change 0 with (Z.of_nat 0).
  destruct (strlen_loop_unterminated m b o l Hb Hnz fuel 0) as [H1 H2].
  split; [exact H1|]. intros Hf. apply H2. lia.
Qed.

Lemma strlen_unterminated_witness :
  (forall r, strlen 3 (Ptr 1 3) hi_mem <> Ok r) /\
  ((length [72; 105; 0; 7; 7] - 3 < 3)%nat ->
   strlen 3 (Ptr 1 3) hi_mem = Fault UndefinedBehaviour).
Proof.
  apply (strlen_unterminated hi_mem 1 3 [72; 105; 0; 7; 7] 3).
  - reflexivity.
  - repeat constructor; discriminate.
Defined.

End RawFacts.

(** ** The final iteration: appends that go wrong *)

Section Appends.
Import Iter4 Iter4Tables.

(** X6. When the allocator cannot grow the table, [class_add_member] and
    [class_add_function] return without a trap, having overwritten the
    table pointer of the instance with the null pointer while the count
    stays: the old table remains allocated but is no longer referenced,
    and resolving any index below the count is undefined behaviour from
    then on. *)
Theorem append_failed_growth (s : St) (k : addr) (nm : cstr) (pc pd : ptr)
    (mb : addr) (ms : list Member) (fb : addr) (fs : list Function)
    (element : ptr) :
  class_at s k nm pc pd mb ms fb fs -> refusing s -> element <> NULL ->
  (exists s',
     class_add_member (Ptr k 0) element s = Ok (tt, s') /\
     trace s' = trace s /\
     class_get_num_members (Ptr k 0) s' = Ok (Z.of_nat (length ms), s') /\
     field (Ptr k 0) Class_members s' = Ok (NULL, s') /\
     heap s' !! mb = Some (Dyn, BMembers ms) /\
     forall i, 0 <= i < Z.of_nat (length ms) ->
       class_get_member (Ptr k 0) i s' = Fault UndefinedBehaviour) /\
  (exists s',
     class_add_function (Ptr k 0) element s = Ok (tt, s') /\
     trace s' = trace s /\
     class_get_num_functions (Ptr k 0) s' = Ok (Z.of_nat (length fs), s') /\
     field (Ptr k 0) Class_functions s' = Ok (NULL, s') /\
     heap s' !! fb = Some (Dyn, BFunctions fs) /\
     forall i, 0 <= i < Z.of_nat (length fs) ->
       class_get_function (Ptr k 0) i s' = Fault UndefinedBehaviour).
Proof.
  intros [Hk Hm Hf Hmfit Hffit] Hno He.
  destruct element as [|eb ei]; [contradiction|].
  destruct s as [h nx orc tr]; unfold refusing in Hno;
    cbn [heap next oracle trace] in *.
  assert (k <> mb) by congruence.
  assert (k <> fb) by congruence.
  destruct orc as [|[] o]; [|contradiction|].
  all: split; eexists; (split; [mrun; reflexivity|]).
  all: cbn [heap next oracle trace].
  all: repeat split; try (mrun; reflexivity).
  all: intros i Hi; mrun; rewrite decide_True by lia; mrun; reflexivity.
Qed.

Lemma append_failed_growth_witness :
  (exists s',
     class_add_member (Ptr 2 0) (Ptr 5 0) dtor_state = Ok (tt, s') /\
     trace s' = trace dtor_state /\
     class_get_num_members (Ptr 2 0) s' =
       Ok (Z.of_nat (length [demo_member]), s') /\
     field (Ptr 2 0) Class_members s' = Ok (NULL, s') /\
     heap s' !! 4%positive = Some (Dyn, BMembers [demo_member]) /\
     forall i, 0 <= i < Z.of_nat (length [demo_member]) ->
       class_get_member (Ptr 2 0) i s' = Fault UndefinedBehaviour) /\
  (exists s',
     class_add_function (Ptr 2 0) (Ptr 5 0) dtor_state = Ok (tt, s') /\
     trace s' = trace dtor_state /\
     class_get_num_functions (Ptr 2 0) s' =
       Ok (Z.of_nat (length (@nil Function)), s') /\
     field (Ptr 2 0) Class_functions s' = Ok (NULL, s') /\
     heap s' !! 5%positive = Some (Dyn, BFunctions []) /\
     forall i, 0 <= i < Z.of_nat (length (@nil Function)) ->
       class_get_function (Ptr 2 0) i s' = Fault UndefinedBehaviour).
Proof.
  apply (append_failed_growth dtor_state 2 (Some "Vec2"%string) NULL (Ptr 3 0)
           4 [demo_member] 5 [] (Ptr 5 0)).
  - constructor; reflexivity.
  - exact I.
  - discriminate.
Defined.

(** X7. Appending a copy of one of the instance's own members through the
    pointer [class_get_member] returned is undefined behaviour whenever the
    table is grown: [realloc] ends the lifetime of the old table before
    [*member] is read. The same holds for functions. *)
Theorem append_own_element (s : St) (k : addr) (nm : cstr) (pc pd : ptr)
    (mb : addr) (ms : list Member) (fb : addr) (fs : list Function)
    (i : Z) (o : list bool) :
  class_at s k nm pc pd mb ms fb fs ->
  heap s !! next s = None -> oracle s = true :: o ->
  (0 <= i < Z.of_nat (length ms) ->
   (let! member := class_get_member (Ptr k 0) i in
    class_add_member (Ptr k 0) member) s = Fault UndefinedBehaviour) /\
  (0 <= i < Z.of_nat (length fs) ->
   (let! function := class_get_function (Ptr k 0) i in
    class_add_function (Ptr k 0) function) s = Fault UndefinedBehaviour).
Proof.
  intros Hat Hnx Ho. split; intros Hi.
  - rewrite (bind_Ok _ _ _ _ _
               (class_get_member_in s k nm pc pd mb ms fb fs Hat i Hi)).
    destruct Hat as [Hk Hm Hf Hmfit Hffit].
    destruct s as [h nx orc tr]; cbn [heap next oracle trace] in *. subst orc.
    assert (k <> mb) by congruence.
    assert (nx <> mb) by congruence.
    assert (nx <> k) by congruence.
    mrun. reflexivity.
  - rewrite (bind_Ok _ _ _ _ _
               (class_get_function_in s k nm pc pd mb ms fb fs Hat i Hi)).
    destruct Hat as [Hk Hm Hf Hmfit Hffit].
    destruct s as [h nx orc tr]; cbn [heap next oracle trace] in *. subst orc.
    assert (k <> fb) by congruence.
    assert (nx <> fb) by congruence.
    assert (nx <> k) by congruence.
    mrun. reflexivity.
Qed.

Lemma append_own_element_witness :
  (0 <= 0 < Z.of_nat (length [demo_member]) ->
   (let! member := class_get_member (Ptr 2 0) 0 in
    class_add_member (Ptr 2 0) member) (pair_state [true]) =
     Fault UndefinedBehaviour) /\
  (0 <= 0 < Z.of_nat (length [demo_function]) ->
   (let! function := class_get_function (Ptr 2 0) 0 in
    class_add_function (Ptr 2 0) function) (pair_state [true]) =
     Fault UndefinedBehaviour).
Proof.
  apply (append_own_element (pair_state [true]) 2 (Some "Vec2"%string)
           NULL NULL 3 [demo_member] 4 [demo_function] 0 []).
  - constructor; reflexivity.
  - reflexivity.
  - reflexivity.
Defined.
End Appends.

(** ** The final iteration: creation and destruction without callbacks *)

Section Plain.
Import Iter4 Iter4Tables Iter4Dispatch Iter4Lifecycle.

(** X8. For an instance without a destructor [class_destroy] calls
    nothing, whatever the function pointers stand for: it releases the
    constructor record if there is one (without invoking it), the member
    table if the member count is positive, the function table if the
    function count is positive, and the instance, in this order. *)
Theorem class_destroy_without_destructor
    (unary_code : code -> ptr -> Mon unit)
    (binary_code : code -> ptr -> ptr -> Mon ptr)
    (s : St) (k : addr) (nm : cstr) (pc : ptr) (mb : addr)
    (ms : list Member) (fb : addr) (fs : list Function)
    (oc : option Function) :
  class_at s k nm pc NULL mb ms fb fs ->
  record_at s pc oc -> apart pc (Ptr fb 0) ->
  exists s',
    class_destroy unary_code binary_code (Ptr k 0) s = Ok (tt, s') /\
    trace s' =
      trace s ++ freed pc ++ freed_table ms mb ++ freed_table fs fb ++
      [EvFree k] /\
    heap s' !! k = None /\
    heap s' !! mb = (if ms is [] then Some (Dyn, BMembers []) else None) /\
    heap s' !! fb = (if fs is [] then Some (Dyn, BFunctions []) else None) /\
    (forall b, pc = Ptr b 0 -> heap s' !! b = None) /\
    (forall a, a <> k -> a <> mb -> a <> fb -> pc <> Ptr a 0 ->
       heap s' !! a = heap s !! a).
Proof.
  intros [Hk Hm Hf Hmfit Hffit] Hc Hcf.
  destruct s as [h nx orc tr]; cbn [heap next oracle trace] in *.
  assert (k <> mb) by congruence.
  assert (k <> fb) by congruence.
  assert (mb <> fb) by congruence.
  destruct oc as [fc|]; cbn [record_at heap] in Hc;
    repeat match goal with
    | H : exists _, _ |- _ => destruct H as [? H]
    | H : _ /\ _ |- _ => destruct H as [? ?]
    end; subst; cbn [apart] in *.
  all: destruct ms as [|m ms], fs as [|f fs].
  all: cbn [length] in *.
  all: eexists; split;
    [ unfold class_destroy;
      repeat (mrun;
              try match goal with
                  | |- context [decide (Z.of_nat ?n > 0)] =>
                      first
                        [ rewrite (decide_True (P := Z.of_nat n > 0)) by lia
                        | rewrite (decide_False (P := Z.of_nat n > 0)) by lia ]
                  end);
      reflexivity
    | ].
  all: cbn [heap next oracle trace freed freed_table app].
  all: split; [now rewrite <- ?app_assoc|].
  all: repeat split; try now heap_rw.
  all: try (intros b E; inversion E; subst; now heap_rw).
  all: intros a ? ? ? Hp; heap_rw; try reflexivity.
  all: rewrite lookup_delete_ne by (intros ->; now apply Hp); now heap_rw.
Qed.

Lemma class_destroy_without_destructor_witness :
  exists s',
    class_destroy unary_table (binary_table 0) (Ptr 2 0) (pair_state []) =
      Ok (tt, s') /\
    trace s' =
      trace (pair_state []) ++ freed NULL ++ freed_table [demo_member] 3 ++
      freed_table [demo_function] 4 ++ [EvFree 2] /\
    heap s' !! 2%positive = None /\
    heap s' !! 3%positive = None /\
    heap s' !! 4%positive = None /\
    (forall b, NULL = Ptr b 0 -> heap s' !! b = None) /\
    (forall a, a <> 2%positive -> a <> 3%positive -> a <> 4%positive ->
       NULL <> Ptr a 0 -> heap s' !! a = heap (pair_state []) !! a).
Proof.
  apply (class_destroy_without_destructor unary_table (binary_table 0)
           (pair_state []) 2 (Some "Vec2"%string) NULL 3 [demo_member] 4
           [demo_function] None).
  - constructor; reflexivity.
  - reflexivity.
  - exact I.
Defined.
End Plain.

(** ** The final iteration: creation that fails half-way *)

Section Failures.
Import Iter4 Iter4Tables Iter4Dispatch Iter4Lifecycle.
Variable unary_code : code -> ptr -> Mon unit.
Variable binary_code : code -> ptr -> ptr -> Mon ptr.

(** Runs [class_create] as far as it gets. *)
Ltac fail_script h nx Hold :=
  unfold class_create, install_ctor, install_dtor;
  cbn [ci_name ci_ctor ci_dtor ci_members ci_num_members
       ci_functions ci_num_functions];
  crun;
  try (rewrite size_mul_fit, fresh_array_exact
         by (unfold sizeof_Member, SIZE_MOD in *; lia);
       erewrite (copy_members_run _ nx _ _ _ _ _ _ h);
         [ | heap_rw; reflexivity | reflexivity | heap_rw; reflexivity | lia
           | let a := fresh "a" in let x := fresh "x" in let Ha := fresh "Ha" in
             intros a x Ha; pose proof (Hold _ _ Ha); split; [now heap_rw | lia]
           | eassumption ];
       crun).

(** X9. When the allocation of the instance succeeds and a later one (of
    the constructor record, the destructor record, the member table or
    the function table) is turned down, [class_create] returns the null
    pointer at once, without a trap and without calling anything, and
    releases nothing: the instance block it had obtained stays allocated
    and the caller holds no pointer to it. *)
Theorem class_create_failure_leaks
    (ci : ClassCreateInfo) (s : St) (xs : list Member) (gs : list Function)
    (oc od : option Function) (n : nat) (rest : list bool) :
  fresh s ->
  members_at (heap s) (ci_members ci) xs ->
  ci_num_members ci = Z.of_nat (length xs) ->
  sizeof_Member * Z.of_nat (length xs) < SIZE_MOD ->
  functions_at (heap s) (ci_functions ci) gs ->
  ci_num_functions ci = Z.of_nat (length gs) ->
  sizeof_Function * Z.of_nat (length gs) < SIZE_MOD ->
  record_desc (heap s) (ci_ctor ci) oc ->
  record_desc (heap s) (ci_dtor ci) od ->
  (1 <= n < allocations oc od)%nat ->
  oracle s = replicate n true ++ rest ->
  rest = [] \/ (exists o, rest = false :: o) ->
  exists s1 c,
    class_create unary_code binary_code ci s = Ok (NULL, s1) /\
    trace s1 = trace s /\
    heap s1 !! next s = Some (Dyn, BClass c) /\
    (forall a, (a < next s)%positive -> heap s1 !! a = heap s !! a).
Proof.
  intros Hfresh Hms Hn Hmfit Hfs Hnf Hffit Hc Hd Hrange Ho Hrest.
  destruct s as [h nx orc tr]; cbn [heap next oracle trace] in *. subst orc.
  assert (Hold : forall a x, h !! a = Some x -> (a < nx)%positive).
  { intros a x Ha. exact (fresh_lt _ _ _ Hfresh Ha). }
  destruct ci as [nm cp dp mp nn fp nfn];
    cbn [ci_name ci_ctor ci_dtor ci_members ci_num_members
         ci_functions ci_num_functions] in *.
  subst nn nfn.
  destruct oc as [fc|], od as [fd|]; cbn [record_desc allocations Nat.add] in *;
    repeat match goal with
    | H : exists _, _ |- _ => destruct H as [? H]
    | H : _ /\ _ |- _ => destruct H as [? ?]
    end; subst;
    repeat match goal with
    | H : h !! _ = Some _ |- _ => pose proof (Hold _ _ H); revert H
    end; intros.
  all: destruct n as [|[|[|[|[|n]]]]]; try lia.
  all: cbn [replicate app].
  all: destruct Hrest as [-> | [o ->]].
  all: do 2 eexists; split; [fail_script h nx Hold; reflexivity|].
  all: cbn [heap next oracle trace].
  all: split; [reflexivity|].
  all: split; [heap_rw; reflexivity|].
  all: intros; heap_rw; reflexivity.
Qed.

End Failures.

Lemma class_create_failure_leaks_witness :
  exists s1 c,
    Iter4.class_create Iter4.unary_table (Iter4.binary_table 0) Iter4.array_only
      (Iter4.array_state [true; true; false]) = Ok (NULL, s1) /\
    trace s1 = trace (Iter4.array_state [true; true; false]) /\
    heap s1 !! next (Iter4.array_state [true; true; false]) =
      Some (Dyn, BClass c) /\
    (forall a, (a < next (Iter4.array_state [true; true; false]))%positive ->
       heap s1 !! a = heap (Iter4.array_state [true; true; false]) !! a).
Proof.
  apply (class_create_failure_leaks Iter4.unary_table (Iter4.binary_table 0)
           Iter4.array_only (Iter4.array_state [true; true; false])
           [Iter4.demo_member] [] None None 2 [false]).
  - intros a Ha. cbn [Iter4.array_state next heap] in *.
    apply lookup_singleton_ne. lia.
  - right. exists 1%positive, 0, Auto, [Iter4.demo_member].
    split; [reflexivity|]. split; [reflexivity|].
    intros [|i] x Hx; [exact Hx|discriminate].
  - reflexivity.
  - reflexivity.
  - left. reflexivity.
  - reflexivity.
  - reflexivity.
  - reflexivity.
  - reflexivity.
  - cbn. lia.
  - reflexivity.
  - right. now exists [].
Defined.

(** ** The final iteration: the records of an instance *)

Section Records.
Import Iter4 Iter4Tables Iter4Dispatch Iter4Lifecycle.
Variable unary_code : code -> ptr -> Mon unit.
Variable binary_code : code -> ptr -> ptr -> Mon ptr.
End Records.

(** ** The Vec2 class of the final iteration, for all components *)

Module Vec2Facts.
Import Iter4 Iter4Tables Iter4Dispatch Iter4Lifecycle.

Lemma elem_second {A} (x y : A) (l : list A) : elem (x :: y :: l) 1 = Some y.
Proof. reflexivity. Qed.

Lemma insert_second {A} (x y z : A) (l : list A) :
  <[1%nat := z]> (x :: y :: l) = x :: z :: l.
Proof. reflexivity. Qed.

Ltac vrun :=
  repeat (progress
    (mrun; rewrite ?elem_second; change (Z.to_nat 1) with 1%nat;
     rewrite ?insert_second, ?insert_insert_eq)).

Section Create.
Variable binary_code : code -> ptr -> ptr -> Mon ptr.

Lemma create_vec2_run (x y : float) (s : St) (o : list bool) :
  fresh s -> oracle s = replicate 5 true ++ o ->
  exists s1 k cb db mb fb,
    create_vec2 binary_code x y s = Ok (Ptr k 0, s1) /\
    class_at s1 k (Some "Vec2"%string) (Ptr cb 0) (Ptr db 0) mb
      [vec2_member "x" x; vec2_member "y" y] fb [vec2_add_record] /\
    heap s1 !! cb =
      Some (Dyn, BFunctions
                   [installed (Init FUNCTION_TYPE_CONSTRUCTOR) vec2_ctor_record]) /\
    heap s1 !! db = Some (Dyn, BFunctions [installed Indet vec2_dtor_record]) /\
    (cb <> db /\ cb <> fb /\ db <> fb) /\
    ((next s <= k)%positive /\ (next s <= cb)%positive /\
     (next s <= db)%positive /\ (next s <= mb)%positive /\
     (next s <= fb)%positive) /\
    trace s1 = trace s ++ [EvCall "vec2_ctor" (Ptr k 0)] /\
    oracle s1 = o /\ fresh s1 /\ (next s <= next s1)%positive /\
    (forall a : addr, (a < next s)%positive -> heap s1 !! a = heap s !! a) /\
    (forall a : addr, (next s <= a)%positive -> (a < k)%positive ->
       heap s1 !! a = None).
Proof.
  intros Hfresh Ho.
  destruct s as [h nx orc tr]; cbn [heap next oracle trace] in *. subst orc.
  unfold create_vec2.
  change (Z.to_nat 2) with 2%nat. cbn [for_loop].
  vrun.
  lazymatch goal with
  | |- context [class_create _ _ ?ci ?s4] =>
      destruct (class_create_ok unary_table binary_code ci s4
                  [vec2_member "x" x; vec2_member "y" y] [vec2_add_record]
                  (Some vec2_ctor_record) (Some vec2_dtor_record) o
                  "vec2_ctor"%string)
        as (s1 & pc & pd & mb & fb & Hrun & Hat & Hpc & Hpd & Hnew & Hapart
            & Hold & Hfresh1 & Ho1 & Htr)
  end.
  all: cbn [heap next oracle trace ci_members ci_num_members ci_functions
            ci_num_functions ci_ctor ci_dtor length].
  - unfold fresh; cbn [heap next]. intros a Ha.
    rewrite !lookup_insert_ne by lia. apply Hfresh. cbn [next]. lia.
  - right. eexists _, 0, Auto, _. split; [reflexivity|].
    split; [heap_rw; reflexivity|].
    intros [|[|i]] m Hm; inversion Hm; reflexivity.
  - reflexivity.
  - reflexivity.
  - right. eexists _, 0, Auto, _. split; [reflexivity|].
    split; [heap_rw; reflexivity|].
    intros [|i] m Hm; inversion Hm; reflexivity.
  - reflexivity.
  - reflexivity.
  - eexists _, 0, Auto, _. split; [reflexivity|].
    split; [heap_rw; reflexivity|reflexivity].
  - eexists _, 0, Auto, _. split; [reflexivity|].
    split; [heap_rw; reflexivity|reflexivity].
  - now intros f [= <-].
  - reflexivity.
  - reflexivity.
  - cbn [heap next oracle trace ci_name fmap option_fmap option_map
           record_at new_in apart] in *.
    destruct Hpc as (cb & -> & Hcb). destruct Hpd as (db & -> & Hdb).
    destruct Hnew as (Hcb' & Hdb' & Hmb' & Hfb').
    destruct Hapart as (Hcd & Hcf & Hdf). cbn [new_in apart next] in *.
    rewrite Hrun.
    assert (H3 : heap s1 !! (Pos.succ (Pos.succ (Pos.succ nx)) : addr) =
                 Some (Auto, BFunctions [vec2_add_record]))
      by (rewrite Hold by lia; heap_rw; reflexivity).
    assert (H2 : heap s1 !! (Pos.succ (Pos.succ nx) : addr) =
                 Some (Auto, BMembers [vec2_member "x" x; vec2_member "y" y]))
      by (rewrite Hold by lia; heap_rw; reflexivity).
    assert (H1 : heap s1 !! (Pos.succ nx : addr) =
                 Some (Auto, BFunctions [vec2_dtor_record]))
      by (rewrite Hold by lia; heap_rw; reflexivity).
    assert (H0 : heap s1 !! nx = Some (Auto, BFunctions [vec2_ctor_record]))
      by (rewrite Hold by lia; heap_rw; reflexivity).
    assert (Hk1 : (Pos.succ (Pos.succ (Pos.succ (Pos.succ nx))) < next s1)%positive).
    { destruct Hat as [Hk _ _ _ _]. exact (fresh_lt _ _ _ Hfresh1 Hk). }
    vrun.
    exists (mkState
              (delete nx
                 (delete (Pos.succ nx)
                    (delete (Pos.succ (Pos.succ nx))
                       (delete (Pos.succ (Pos.succ (Pos.succ nx))) (heap s1)))))
              (next s1) (oracle s1) (trace s1)),
      (Pos.succ (Pos.succ (Pos.succ (Pos.succ nx)))), cb, db, mb, fb.
    split; [reflexivity|].
    split.
    { eapply class_at_agree; [exact Hat| | |]; cbn [heap];
        now rewrite !lookup_delete_ne by lia. }
    cbn [heap next oracle trace].
    split; [rewrite !lookup_delete_ne by lia; assumption|].
    split; [rewrite !lookup_delete_ne by lia; assumption|].
    split; [repeat split; assumption|].
    split; [repeat split; lia|].
    split; [exact Htr|]. split; [exact Ho1|].
    split.
    { intros a Ha. cbn [heap next] in *.
      rewrite !lookup_delete_ne by lia. now apply Hfresh1. }
    split; [lia|].
    split.
    { intros a Ha. rewrite !lookup_delete_ne by lia.
      rewrite Hold by lia. now rewrite !lookup_insert_ne by lia. }
    intros a Ha Hak.
    destruct (decide (a = nx)) as [->|?]; [now rewrite lookup_delete_eq|].
    rewrite lookup_delete_ne by congruence.
    destruct (decide (a = Pos.succ nx)) as [->|?];
      [now rewrite lookup_delete_eq|].
    rewrite lookup_delete_ne by congruence.
    destruct (decide (a = Pos.succ (Pos.succ nx))) as [->|?];
      [now rewrite lookup_delete_eq|].
    rewrite lookup_delete_ne by congruence.
    destruct (decide (a = Pos.succ (Pos.succ (Pos.succ nx)))) as [->|?];
      [now rewrite lookup_delete_eq|].
    lia.
Qed.

(** A Vec2 instance stays one when the blocks below the allocation
    pointer of an earlier fresh state are left alone. *)
Lemma vec2_at_kept (s s1 : St) k x y :
  fresh s -> vec2_at s k x y ->
  (forall a : addr, (a < next s)%positive -> heap s1 !! a = heap s !! a) ->
  vec2_at s1 k x y.
Proof.
  intros Hfresh (cb & db & mb & fb & Hat & Hcb & Hdb & Hne) Hold.
  pose proof Hat as [Hk Hm Hf _ _].
  exists cb, db, mb, fb. split; [|split; [|split]].
  - eapply class_at_agree; [exact Hat| | |];
      apply Hold; eapply fresh_lt; eassumption.
  - rewrite Hold by (eapply fresh_lt; eassumption). exact Hcb.
  - rewrite Hold by (eapply fresh_lt; eassumption). exact Hdb.
  - exact Hne.
Qed.

Lemma vec2_data_at (s : St) k x y :
  vec2_at s k x y -> vec2_data (Ptr k 0) s = (Some x, Some y).
Proof.
  intros (cb & db & mb & fb & [Hk Hm Hf _ _] & _).
  destruct s as [h nx orc tr]; cbn [heap] in *.
  unfold vec2_data, member_f_data, rd_f_data. vrun. reflexivity.
Qed.

Lemma vec2_add_run (x1 y1 x2 y2 : float) (s : St) (kl kr : addr)
    (o : list bool) :
  fresh s -> oracle s = replicate 5 true ++ o ->
  vec2_at s kl x1 y1 -> vec2_at s kr x2 y2 ->
  exists s1 c,
    vec2_add binary_code (Ptr kl 0) (Ptr kr 0) s = Ok (Ptr c 0, s1) /\
    vec2_at s1 c (f32_add x1 x2) (f32_add y1 y2) /\
    heap s !! c = None /\
    trace s1 = trace s ++ [EvCall "vec2_ctor" (Ptr c 0)] /\
    oracle s1 = o /\ fresh s1 /\ (next s <= next s1)%positive /\
    (forall a : addr, (a < next s)%positive -> heap s1 !! a = heap s !! a).
Proof.
  intros Hfresh Ho Hl Hr.
  destruct (create_vec2_run (f32_of_Z 0) (f32_of_Z 0) s o Hfresh Ho)
    as (s1 & c & cb & db & mb & fb & Hrun & [Hk Hm Hf Hmfit Hffit] & Hcb
        & Hdb & Hne & Hnew & Htr & Ho1 & Hfresh1 & Hnx & Hold & _).
  destruct Hnew as (Hc' & Hcb' & Hdb' & Hmb' & Hfb').
  unfold vec2_add. rewrite (bind_Ok _ _ _ _ _ Hrun).
  destruct Hl as (cl & dl & ml & fl & [Hkl Hml Hfl _ _] & _).
  destruct Hr as (cr & dr & mr & fr & [Hkr Hmr Hfr _ _] & _).
  pose proof (fresh_lt _ _ _ Hfresh Hkl).
  pose proof (fresh_lt _ _ _ Hfresh Hml).
  pose proof (fresh_lt _ _ _ Hfresh Hkr).
  pose proof (fresh_lt _ _ _ Hfresh Hmr).
  rewrite <- (Hold kl) in Hkl by assumption.
  rewrite <- (Hold ml) in Hml by assumption.
  rewrite <- (Hold kr) in Hkr by assumption.
  rewrite <- (Hold mr) in Hmr by assumption.
  assert (mb <> c) by congruence.
  assert (mb <> cb) by congruence.
  assert (mb <> db) by congruence.
  assert (mb <> fb) by congruence.
  destruct s1 as [h1 n1 o1 t1]; cbn [heap next oracle trace] in *.
  unfold member_f_data, set_member_f_data, rd_f_data, vec2_member in *.
  vrun.
  do 2 eexists. split; [reflexivity|].
  split.
  { exists cb, db, mb, fb. split; [constructor|]; cbn [heap];
      repeat split; try assumption; now heap_rw. }
  cbn [heap next oracle trace].
  split; [apply Hfresh; lia|].
  repeat split; try assumption.
  - intros a Ha. cbn [heap next] in *.
    destruct (decide (a = mb)) as [->|Hne'].
    + exfalso. rewrite Hfresh1 in Hm by exact Ha. discriminate.
    + rewrite lookup_insert_ne by congruence. now apply Hfresh1.
  - intros a Ha. rewrite lookup_insert_ne by lia. now apply Hold.
Qed.

(** Without memory [create_vec2] gives the null pointer. *)
Lemma create_vec2_refused (x y : float) (s : St) :
  refusing s -> exists s', create_vec2 binary_code x y s = Ok (NULL, s').
Proof.
  intros Hno. destruct s as [h nx orc tr]. unfold refusing in Hno.
  cbn [oracle] in Hno.
  unfold create_vec2, class_create.
  change (Z.to_nat 2) with 2%nat. cbn [for_loop].
  destruct orc as [|[] o]; [|contradiction|]; vrun; eexists; reflexivity.
Qed.

(** Reading a component either fails as undefined behaviour or leaves the
    state alone. *)
Lemma member_f_data_cases (p : ptr) (i : Z) (s : St) :
  member_f_data p i s = Fault UndefinedBehaviour \/
  exists v, member_f_data p i s = Ok (v, s).
Proof.
  unfold member_f_data, field, load_Class, load_Member, load_block, index,
    rd, rd_f_data, bind, ret, ub.
  destruct p as [|b z]; [now left|].
  destruct z; try now left.
  destruct (heap s !! b) as [[st [c|ms|fs]]|]; try now left.
  destruct (Class_members c) as [|[|mb o]]; try now left.
  destruct (heap s !! mb) as [[st' [c'|ms'|fs']]|]; try now left.
  destruct (elem ms' (o + i)) as [m|]; try now left.
  destruct (Member_data m); try now left.
  right. eexists. reflexivity.
Qed.
End Create.

(** X11. [create_vec2(x, y)], for all [x] and [y] and from every store in
    which five allocations succeed: the result is a new instance named
    Vec2 with the members [x] and [y] of type F32 holding the arguments and
    with the one function [vec2_add]; the constructor has been invoked
    exactly once, on that instance; the four locals of [create_vec2] are
    gone and no block of the caller is changed. *)
Theorem create_vec2_instance
    (binary_code : code -> ptr -> ptr -> Mon ptr)
    (x y : float) (s : St) (o : list bool) :
  fresh s -> oracle s = replicate 5 true ++ o ->
  exists s1 k,
    create_vec2 binary_code x y s = Ok (Ptr k 0, s1) /\
    vec2_at s1 k x y /\
    vec2_data (Ptr k 0) s1 = (Some x, Some y) /\
    heap s !! k = None /\
    trace s1 = trace s ++ [EvCall "vec2_ctor" (Ptr k 0)] /\
    oracle s1 = o /\
    (forall a : addr, (a < next s)%positive -> heap s1 !! a = heap s !! a) /\
    (forall a : addr, (next s <= a)%positive -> (a < k)%positive ->
       heap s1 !! a = None).
Proof.
  intros Hfresh Ho.
  destruct (create_vec2_run binary_code x y s o Hfresh Ho)
    as (s1 & k & cb & db & mb & fb & Hrun & Hat & Hcb & Hdb & Hne & Hnew
        & Htr & Ho1 & Hfresh1 & Hnx & Hold & Hgone).
  assert (Hv : vec2_at s1 k x y)
    by (exists cb, db, mb, fb; split; [exact Hat|]; split; [exact Hcb|];
        split; [exact Hdb|exact Hne]).
  exists s1, k. split; [exact Hrun|]. split; [exact Hv|].
  split; [now apply vec2_data_at|].
  split; [apply Hfresh; tauto|].
  repeat split; assumption.
Qed.

Lemma create_vec2_instance_witness :
  exists s1 k,
    create_vec2 (binary_table 0) (f32_of_Z 1) (f32_of_Z 3)
      (start (replicate 5 true)) = Ok (Ptr k 0, s1) /\
    vec2_at s1 k (f32_of_Z 1) (f32_of_Z 3) /\
    vec2_data (Ptr k 0) s1 = (Some (f32_of_Z 1), Some (f32_of_Z 3)) /\
    heap (start (replicate 5 true)) !! k = None /\
    trace s1 = trace (start (replicate 5 true)) ++ [EvCall "vec2_ctor" (Ptr k 0)] /\
    oracle s1 = [] /\
    (forall a : addr, (a < next (start (replicate 5 true)))%positive ->
       heap s1 !! a = heap (start (replicate 5 true)) !! a) /\
    (forall a : addr, (next (start (replicate 5 true)) <= a)%positive ->
       (a < k)%positive -> heap s1 !! a = None).
Proof.
  apply (create_vec2_instance (binary_table 0) (f32_of_Z 1) (f32_of_Z 3)
           (start (replicate 5 true)) []).
  - intros a Ha. reflexivity.
  - reflexivity.
Defined.

(** X12. Vec2 addition through the function table, for all operands:
    invoking function 0 of a Vec2 instance [a] with a Vec2 instance [b]
    (which may be [a] itself) records the call of [vec2_add] on ([a], [b]),
    creates a new instance whose components are the binary32 sums of the
    operands' components, and changes no block that existed before. *)
Theorem vec2_addition (n : nat) (x1 y1 x2 y2 : float) (s : St) (a b : addr)
    (o : list bool) :
  fresh s -> oracle s = replicate 5 true ++ o ->
  vec2_at s a x1 y1 -> vec2_at s b x2 y2 ->
  exists s1 c,
    class_invoke_function unary_table (binary_table (S n))
      (Ptr a 0) (Ptr b 0) 0 s = Ok (Ptr c 0, s1) /\
    vec2_at s1 c (f32_add x1 x2) (f32_add y1 y2) /\
    vec2_data (Ptr c 0) s1 = (Some (f32_add x1 x2), Some (f32_add y1 y2)) /\
    vec2_at s1 a x1 y1 /\ vec2_at s1 b x2 y2 /\
    heap s !! c = None /\
    trace s1 =
      trace s ++ [EvCall2 "vec2_add" (Ptr a 0) (Ptr b 0);
                  EvCall "vec2_ctor" (Ptr c 0)] /\
    (forall a : addr, (a < next s)%positive -> heap s1 !! a = heap s !! a).
Proof.
  intros Hfresh Ho Ha Hb.
  pose proof Ha as (ca & da & ma & fa & Hat & _).
  rewrite (class_invoke_function_in unary_table (binary_table (S n)) s a _ _ _
             _ _ _ _ (Ptr b 0) 0 Hat) by (cbn; lia).
  destruct Hat as [_ _ Hfa _ _].
  rewrite (function_invoke_binary unary_table (binary_table (S n)) s fa 0 Dyn
             [vec2_add_record] vec2_add_record "vec2_add"%string
             (Ptr a 0) (Ptr b 0) Hfa eq_refl eq_refl eq_refl)
    by discriminate.
  cbn [binary_table]. rewrite decide_True by reflexivity.
  set (s0 := called s (EvCall2 "vec2_add" (Ptr a 0) (Ptr b 0))).
  assert (Hfresh0 : fresh s0) by exact Hfresh.
  assert (Ha0 : vec2_at s0 a x1 y1)
    by (apply (vec2_at_kept s s0 a x1 y1 Hfresh Ha); reflexivity).
  assert (Hb0 : vec2_at s0 b x2 y2)
    by (apply (vec2_at_kept s s0 b x2 y2 Hfresh Hb); reflexivity).
  destruct (vec2_add_run (binary_table n) x1 y1 x2 y2 s0 a b o Hfresh0 Ho
              Ha0 Hb0)
    as (s1 & c & Hrun & Hc & Hnew & Htr & Ho1 & Hfresh1 & Hnx & Hold).
  exists s1, c. split; [exact Hrun|]. split; [exact Hc|].
  split; [now apply vec2_data_at|].
  split; [eapply vec2_at_kept; [exact Hfresh|exact Ha|exact Hold]|].
  split; [eapply vec2_at_kept; [exact Hfresh|exact Hb|exact Hold]|].
  split; [exact Hnew|].
  split; [rewrite Htr; unfold s0; cbn [called trace]; now rewrite <- app_assoc|].
  exact Hold.
Qed.

Lemma vec2_state_fresh x y o : fresh (vec2_state x y o).
Proof.
  intros a Ha. cbn [vec2_state next heap] in *.
  rewrite !lookup_insert_ne by lia. apply lookup_singleton_ne. lia.
Qed.

Lemma vec2_state_at x y o : vec2_at (vec2_state x y o) 1 x y.
Proof.
  exists 2%positive, 3%positive, 4%positive, 5%positive.
  split; [constructor; reflexivity|]. repeat split; discriminate.
Qed.

Lemma vec2_addition_witness :
  exists s1 c,
    class_invoke_function unary_table (binary_table 1) (Ptr 1 0) (Ptr 1 0) 0
      (vec2_state (f32_of_Z 1) (f32_of_Z 3) (replicate 5 true)) =
      Ok (Ptr c 0, s1) /\
    vec2_at s1 c (f32_add (f32_of_Z 1) (f32_of_Z 1))
      (f32_add (f32_of_Z 3) (f32_of_Z 3)) /\
    vec2_data (Ptr c 0) s1 =
      (Some (f32_add (f32_of_Z 1) (f32_of_Z 1)),
       Some (f32_add (f32_of_Z 3) (f32_of_Z 3))) /\
    vec2_at s1 1 (f32_of_Z 1) (f32_of_Z 3) /\
    vec2_at s1 1 (f32_of_Z 1) (f32_of_Z 3) /\
    heap (vec2_state (f32_of_Z 1) (f32_of_Z 3) (replicate 5 true)) !! c = None /\
    trace s1 =
      trace (vec2_state (f32_of_Z 1) (f32_of_Z 3) (replicate 5 true)) ++
      [EvCall2 "vec2_add" (Ptr 1 0) (Ptr 1 0); EvCall "vec2_ctor" (Ptr c 0)] /\
    (forall a : addr,
       (a < next (vec2_state (f32_of_Z 1) (f32_of_Z 3) (replicate 5 true)))%positive ->
       heap s1 !! a =
         heap (vec2_state (f32_of_Z 1) (f32_of_Z 3) (replicate 5 true)) !! a).
Proof.
  apply (vec2_addition 0 (f32_of_Z 1) (f32_of_Z 3) (f32_of_Z 1) (f32_of_Z 3)
           (vec2_state (f32_of_Z 1) (f32_of_Z 3) (replicate 5 true)) 1 1 []).
  - apply vec2_state_fresh.
  - reflexivity.
  - apply vec2_state_at.
  - apply vec2_state_at.
Defined.

(** X13. [vec2_add] does not check the result of [create_vec2]: when the
    allocator turns the first request down, the null pointer it got is
    dereferenced, whatever the operands are. *)
Theorem vec2_add_without_memory
    (binary_code : code -> ptr -> ptr -> Mon ptr) (lhs rhs : ptr) (s : St) :
  refusing s ->
  vec2_add binary_code lhs rhs s = Fault UndefinedBehaviour.
Proof.
  intros Hno.
  destruct (create_vec2_refused binary_code (f32_of_Z 0) (f32_of_Z 0) s Hno)
    as [s' Hrun].
  unfold vec2_add. rewrite (bind_Ok _ _ _ _ _ Hrun).
  unfold bind.
  destruct (member_f_data_cases lhs 0 s') as [-> | [v ->]]; [reflexivity|].
  destruct (member_f_data_cases rhs 0 s') as [-> | [w ->]]; reflexivity.
Qed.

Lemma vec2_add_without_memory_witness :
  vec2_add (binary_table 0) (Ptr 1 0) (Ptr 1 0)
    (vec2_state (f32_of_Z 1) (f32_of_Z 3) []) = Fault UndefinedBehaviour.
Proof.
  apply (vec2_add_without_memory (binary_table 0) (Ptr 1 0) (Ptr 1 0)
           (vec2_state (f32_of_Z 1) (f32_of_Z 3) [])).
  exact I.
Defined.

(** X14. The function of a Vec2 instance can only be invoked with a second
    operand: [create_vec2] never assigns the unary callable of the record,
    so invoking function 0 with a null [other] calls through an
    indeterminate function pointer, whatever the callables do. *)
Theorem vec2_function_needs_other
    (unary_code : code -> ptr -> Mon unit)
    (binary_code : code -> ptr -> ptr -> Mon ptr)
    (s : St) (k : addr) (x y : float) :
  vec2_at s k x y ->
  class_invoke_function unary_code binary_code (Ptr k 0) NULL 0 s =
    Fault UndefinedBehaviour.
Proof.
  intros (cb & db & mb & fb & Hat & _).
  rewrite (class_invoke_function_in unary_code binary_code s k _ _ _
             _ _ _ _ NULL 0 Hat) by (cbn; lia).
  destruct Hat as [_ _ Hf _ _].
  destruct s as [h nx orc tr]; cbn [heap] in *.
  unfold vec2_add_record in *. mrun. reflexivity.
Qed.

Lemma vec2_function_needs_other_witness :
  class_invoke_function unary_table (binary_table 1) (Ptr 1 0) NULL 0
    (vec2_state (f32_of_Z 1) (f32_of_Z 3) []) = Fault UndefinedBehaviour.
Proof.
  apply (vec2_function_needs_other unary_table (binary_table 1)
           (vec2_state (f32_of_Z 1) (f32_of_Z 3) []) 1 (f32_of_Z 1) (f32_of_Z 3)).
  apply vec2_state_at.
Defined.
End Vec2Facts.

(** ** The final iteration: a member count that makes the size wrap *)

(** A loop whose body cannot get past index [cap] faults when it has to. *)
Lemma for_loop_must_fault {F C} (body : Z -> M F C unit)
    (inv : state F C -> Prop) (cap : Z) :
  (forall j st, inv st ->
     body j st = Fault UndefinedBehaviour \/
     exists st', body j st = Ok (tt, st') /\ inv st' /\ j < cap) ->
  forall (n : nat) (i : Z) (st : state F C),
    inv st -> i <= cap < i + Z.of_nat n ->
    for_loop n i body st = Fault UndefinedBehaviour.
Proof.
  intros Hbody. induction n as [|n IH]; intros i st Hinv Hi; [lia|].
  cbn [for_loop]. unfold bind.
  destruct (Hbody i st Hinv) as [-> | (st' & -> & Hinv' & Hlt)]; [reflexivity|].
  apply IH; [exact Hinv'|lia].
Qed.

Lemma load_Member_cases {F C} (p : ptr) (s : state F C) :
  load_Member p s = Fault UndefinedBehaviour \/
  exists m, load_Member p s = Ok (m, s).
Proof.
  unfold load_Member, load_block, bind, ret, ub.
  destruct p as [|b i]; [now left|].
  destruct (heap s !! b) as [[st [c|ms|fs]]|]; try now left.
  destruct (elem ms i) as [m|]; [right; now exists m|now left].
Qed.

Lemma bind_Fault {F C A B} (c : M F C A) (k : A -> M F C B) s e :
  c s = Fault e -> bind c k s = Fault e.
Proof. intros H. unfold bind. now rewrite H. Qed.

Section Overflow.
Import Iter4 Iter4Tables Iter4Dispatch Iter4Lifecycle.
Variable unary_code : code -> ptr -> Mon unit.
Variable binary_code : code -> ptr -> ptr -> Mon ptr.

Lemma copy_step (k mb : addr) (c : Class) (cap : Z) (p : ptr) (j : Z)
    (g : Member -> Member -> Member) (st : St) :
  k <> mb -> table_of k mb c cap st ->
  (let! o := load_Member p in update_Member (Ptr mb j) (g o)) st =
    Fault UndefinedBehaviour \/
  exists st',
    (let! o := load_Member p in update_Member (Ptr mb j) (g o)) st =
      Ok (tt, st') /\
    table_of k mb c cap st' /\ j < cap.
Proof.
  intros Hne (Hk & l & Hm & Hlen).
  destruct (load_Member_cases p st) as [H | [m H]].
  { left. now apply bind_Fault. }
  rewrite (bind_Ok _ _ _ _ _ H).
  unfold update_Member, load_block, store_block, set_heap, bind, ret, ub.
  rewrite Hm. destruct (elem l j) as [x|] eqn:Hx; [|now left].
  rewrite Hm. right. eexists. split; [reflexivity|].
  apply elem_Some in Hx. destruct Hx as [Hj _].
  split; [|lia]. split; cbn [heap].
  - now rewrite lookup_insert_ne by congruence.
  - eexists. split; [apply lookup_insert_eq|].
    now rewrite length_insert.
Qed.

Lemma copy_member_cases (ci : ClassCreateInfo) (k mb : addr) (c : Class)
    (cap j : Z) (st : St) :
  k <> mb -> Class_members c = Init (Ptr mb 0) ->
  table_of k mb c cap st ->
  copy_member (Ptr k 0) ci j st = Fault UndefinedBehaviour \/
  exists st',
    copy_member (Ptr k 0) ci j st = Ok (tt, st') /\
    table_of k mb c cap st' /\ j < cap.
Proof.
  intros Hne Hc Hinv. pose proof Hinv as (Hk & _).
  unfold copy_member.
  assert (Hf : field (Ptr k 0) Class_members st = Ok (Ptr mb 0, st)).
  { unfold field, load_Class, load_block, bind, ret, rd. rewrite Hk.
    cbn beta iota. now rewrite Hc. }
  destruct (ci_members ci) as [|sb so] eqn:Hsrc.
  { left. now rewrite (bind_Ok _ _ _ _ _ Hf). }
  assert (Heq :
    (let! members := field (Ptr k 0) Class_members in
     let! member := index members j in
     let! other := index (Ptr sb so) j in
     (let! o := load_Member other in
      update_Member member (set_Member_name (Member_name o))) ;;;
     (let! o := load_Member other in
      update_Member member (set_Member_type (Member_type o))) ;;;
     (let! o := load_Member other in
      update_Member member (set_Member_data (Member_data o)))) st =
    ((let! o := load_Member (Ptr sb (so + j)) in
      update_Member (Ptr mb (0 + j)) (set_Member_name (Member_name o))) ;;;
     (let! o := load_Member (Ptr sb (so + j)) in
      update_Member (Ptr mb (0 + j)) (set_Member_type (Member_type o))) ;;;
     (let! o := load_Member (Ptr sb (so + j)) in
      update_Member (Ptr mb (0 + j)) (set_Member_data (Member_data o)))) st)
    by now rewrite (bind_Ok _ _ _ _ _ Hf).
  rewrite Heq. clear Heq.
  destruct (copy_step k mb c cap (Ptr sb (so + j)) (0 + j)
              (fun o => set_Member_name (Member_name o)) st Hne Hinv)
    as [H1 | (st1 & H1 & Hinv1 & _)].
  { left. now apply bind_Fault. }
  rewrite (bind_Ok _ _ _ _ _ H1).
  destruct (copy_step k mb c cap (Ptr sb (so + j)) (0 + j)
              (fun o => set_Member_type (Member_type o)) st1 Hne Hinv1)
    as [H2 | (st2 & H2 & Hinv2 & _)].
  { left. now apply bind_Fault. }
  rewrite (bind_Ok _ _ _ _ _ H2).
  destruct (copy_step k mb c cap (Ptr sb (so + j)) (0 + j)
              (fun o => set_Member_data (Member_data o)) st2 Hne Hinv2)
    as [H3 | (st3 & H3 & Hinv3 & Hj)].
  { now left. }
  right. exists st3. split; [exact H3|]. split; [exact Hinv3|lia].
Qed.

(** X15. [class_create] does not guard the product
    [sizeof(Member) * num_members]: for a descriptor whose member count
    makes it wrap around, the member table that is allocated is too small
    for the count, and the copy loop runs off it (or off the descriptor's
    array): the call is undefined behaviour, whatever array the
    descriptor supplies. *)
Theorem class_create_size_overflow (ci : ClassCreateInfo) (s : St)
    (o : list bool) :
  ci_ctor ci = NULL -> ci_dtor ci = NULL ->
  0 <= ci_num_members ci < SIZE_MOD ->
  SIZE_MOD <= sizeof_Member * ci_num_members ci ->
  oracle s = true :: true :: o ->
  class_create unary_code binary_code ci s = Fault UndefinedBehaviour.
Proof.
  intros Hctor Hdtor Hn Hwrap Ho.
  destruct s as [h nx orc tr]; cbn [heap next oracle trace] in *. subst orc.
  destruct ci as [nm cp dp mp nn fp nfn];
    cbn [ci_name ci_ctor ci_dtor ci_members ci_num_members] in *.
  subst cp dp.
  unfold class_create, install_ctor, install_dtor.
  cbn [ci_name ci_ctor ci_dtor ci_members ci_num_members
       ci_functions ci_num_functions].
  mrun.
  erewrite (for_loop_must_fault _
              (table_of nx (Pos.succ nx)
                 (mkClass (Init nm) (Init NULL) (Init NULL)
                    (Init (Ptr (Pos.succ nx) 0)) (Init nn) Indet Indet)
                 (size_mul sizeof_Member nn / sizeof_Member))
              (size_mul sizeof_Member nn / sizeof_Member)).
  - reflexivity.
  - intros j st Hinv.
    apply (copy_member_cases _ nx (Pos.succ nx) _ _ j st); [lia|reflexivity|exact Hinv].
  - split; cbn [heap].
    + heap_rw. reflexivity.
    + eexists. split; [heap_rw; reflexivity|].
      unfold fresh_array. rewrite length_replicate.
      apply Z2Nat.id. apply Z.div_pos; [|unfold sizeof_Member; lia].
      unfold size_mul, size_wrap. apply Z.mod_pos_bound. reflexivity.
  - assert (size_mul sizeof_Member nn / sizeof_Member < nn).
    { apply Z.div_lt_upper_bound; [unfold sizeof_Member; lia|].
      unfold size_mul, size_wrap.
      pose proof (Z.mod_pos_bound (sizeof_Member * nn) SIZE_MOD eq_refl). lia. }
    assert (0 <= size_mul sizeof_Member nn / sizeof_Member).
    { apply Z.div_pos; [|unfold sizeof_Member; lia].
      unfold size_mul, size_wrap. apply Z.mod_pos_bound. reflexivity. }
    lia.
Qed.
End Overflow.

Lemma class_create_size_overflow_witness :
  Iter4.class_create Iter4.unary_table (Iter4.binary_table 0) Iter4.huge_info
    (Iter4.array_state [true; true]) = Fault UndefinedBehaviour.
Proof.
  apply (class_create_size_overflow Iter4.unary_table (Iter4.binary_table 0)
           Iter4.huge_info (Iter4.array_state [true; true]) []).
  - reflexivity.
  - reflexivity.
  - vm_compute. split; [discriminate|reflexivity].
  - vm_compute. discriminate.
  - reflexivity.
Defined.

(** * The first iteration: [main.c] *)

Module Iter1Facts.
Import Iter1.

Ltac munfold :=
  unfold class_new, class_free, class_add_member, class_get_member,
    class_get_num_members, class_get_name, member_get_name, field;
  store_unfold.

Ltac msimpl :=
  store_simpl;
  cbn beta iota zeta delta
    [Class_name Class_members Class_num_members
     set_Class_name set_Class_members set_Class_num_members indet_Class].

Ltac mrun :=
  repeat (progress (munfold; heap_rw; msimpl; guard_rw;
                    rewrite ?Z.add_0_l; change (Z.to_nat 0) with 0%nat;
                    rewrite ?insert_head, ?elem_head, ?insert_insert_eq)).

(** X16. In [main.c] an instance that was created without a member array
    can never receive a member: [class_add_member] treats the null array
    as an invalid class, raises the trap and returns, whatever member is
    offered, and the count stays what [class_new] was given. *)
Theorem class_without_array_cannot_grow (nm : cstr) (n : Z) (member : ptr)
    (h : gmap addr (storage * block Empty_set Class)) (nx : addr)
    (o : list bool) (tr : list event) :
  exists k s1,
    class_new nm NULL n (mkState h nx (true :: o) tr) = Ok (Ptr k 0, s1) /\
    class_add_member (Ptr k 0) member s1 = Ok (tt, with_trap s1) /\
    class_get_num_members (Ptr k 0) (with_trap s1) = Ok (n, with_trap s1) /\
    field (Ptr k 0) Class_members (with_trap s1) = Ok (NULL, with_trap s1).
Proof.
  do 2 eexists. split; [mrun; reflexivity|].
  unfold with_trap. cbn [heap next oracle trace].
  split; [|split; mrun; reflexivity].
  destruct member as [|eb ei]; mrun; reflexivity.
Qed.

(** X17. [class_new] adopts the caller's array and [class_free] releases
    it: after [class_new(name, members, n)] and [class_free] the array
    block is gone together with the instance when [n > 0] and the array
    came from [malloc]; with [n = 0] the array is left to the caller; an
    array in automatic storage makes [class_free] undefined. *)
Theorem class_new_then_free (nm : cstr) (mb : addr) (ms : list Member)
    (st : storage) (n : Z) (s : St) (o : list bool) :
  heap s !! next s = None ->
  heap s !! mb = Some (st, BMembers ms) ->
  oracle s = true :: o ->
  exists s1,
    class_new nm (Ptr mb 0) n s = Ok (Ptr (next s) 0, s1) /\
    (n <= 0 ->
     class_free (Ptr (next s) 0) s1 =
       Ok (tt, mkState (heap s) (Pos.succ (next s)) o
                 (trace s ++ [EvFree (next s)]))) /\
    (n > 0 -> st = Dyn ->
     class_free (Ptr (next s) 0) s1 =
       Ok (tt, mkState (delete mb (heap s)) (Pos.succ (next s)) o
                 (trace s ++ [EvFree mb; EvFree (next s)]))) /\
    (n > 0 -> st = Auto ->
     class_free (Ptr (next s) 0) s1 = Fault UndefinedBehaviour).
Proof.
  intros Hnx Hmb Ho.
  destruct s as [h nx orc tr]; cbn [heap next oracle trace] in *. subst orc.
  assert (nx <> mb) by congruence.
  eexists. split; [mrun; reflexivity|].
  split; [|split].
  - intros Hn. mrun. rewrite decide_False by lia. mrun.
    now rewrite delete_insert_id.
  - intros Hn ->. mrun. rewrite decide_True by lia. mrun.
    rewrite <- app_assoc. cbn [app].
    rewrite delete_insert_ne by congruence.
    rewrite delete_insert_id; [reflexivity|].
    now rewrite lookup_delete_ne.
  - intros Hn ->. mrun. rewrite decide_True by lia. mrun. reflexivity.
Qed.

Lemma class_new_then_free_witness :
  exists s1,
    class_new (Some "MyClass"%string) (Ptr 1 0) 1 MyInt_state_live =
      Ok (Ptr (next MyInt_state_live) 0, s1) /\
    (1 <= 0 ->
     class_free (Ptr (next MyInt_state_live) 0) s1 =
       Ok (tt, mkState (heap MyInt_state_live) (Pos.succ (next MyInt_state_live))
                 [] (trace MyInt_state_live ++ [EvFree (next MyInt_state_live)]))) /\
    (1 > 0 -> Dyn = Dyn ->
     class_free (Ptr (next MyInt_state_live) 0) s1 =
       Ok (tt, mkState (delete 1%positive (heap MyInt_state_live))
                 (Pos.succ (next MyInt_state_live)) []
                 (trace MyInt_state_live ++
                  [EvFree 1; EvFree (next MyInt_state_live)]))) /\
    (1 > 0 -> Dyn = Auto ->
     class_free (Ptr (next MyInt_state_live) 0) s1 = Fault UndefinedBehaviour).
Proof.
  apply (class_new_then_free (Some "MyClass"%string) 1 [MyInt] Dyn 1
           MyInt_state_live []); reflexivity.
Defined.
End Iter1Facts.

(** * The third iteration: [part_000] *)

Module Iter3Lifecycle.
Import Iter3.

Ltac munfold :=
  unfold class_create, class_destroy, class_add_member, class_add_function,
    class_has_constructor, class_get_num_members,
    class_get_num_functions, class_get_member, class_get_function,
    class_get_name, class_get_constructor, class_invoke_function,
    function_invoke, function_get_type, function_get_name, call_fn, field;
  store_unfold.

Ltac msimpl :=
  store_simpl;
  cbn beta iota zeta delta
    [Class_name Class_ctor Class_members Class_num_members
     Class_functions Class_num_functions
     set_Class_name set_Class_ctor set_Class_members
     set_Class_num_members set_Class_functions set_Class_num_functions
     indet_Class
     Function_name Function_type Function_fn
     set_Function_name set_Function_type set_Function_fn indet_Function
     ci_name ci_ctor ci_members ci_num_members ci_functions ci_num_functions].

Ltac mrun :=
  repeat (progress (munfold; heap_rw; msimpl; guard_rw;
                    rewrite ?Z.add_0_l; change (Z.to_nat 0) with 0%nat;
                    rewrite ?insert_head, ?elem_head, ?insert_insert_eq)).

(** X18. In [part_000] an instance without a member array does accept
    members: [realloc] of the null pointer allocates, so the first
    [class_add_member] gives the instance a one-element table of its own
    that holds a copy of the member; no other block changes. *)
Theorem class_add_member_first (s : St) (k : addr) (nm : cstr) (pc pf : ptr)
    (nf : Z) (eb : addr) (ei : Z) (st : storage) (es : list Member)
    (e : Member) (o : list bool) :
  instance_at s k nm pc NULL 0 pf nf ->
  heap s !! eb = Some (st, BMembers es) -> elem es ei = Some e ->
  heap s !! next s = None -> oracle s = true :: o ->
  exists s',
    class_add_member (Ptr k 0) (Ptr eb ei) s = Ok (tt, s') /\
    instance_at s' k nm pc (Ptr (next s) 0) 1 pf nf /\
    heap s' !! next s = Some (Dyn, BMembers [e]) /\
    (forall a : addr, a <> k -> a <> next s -> heap s' !! a = heap s !! a) /\
    trace s' = trace s.
Proof.
  unfold instance_at. intros Hk He Hei Hnx Ho.
  destruct s as [h nx orc tr]; cbn [heap next oracle trace] in *. subst orc.
  assert (nx <> k) by congruence.
  assert (nx <> eb) by congruence.
  assert (k <> eb) by congruence.
  eexists. split.
  { mrun. change (size_mul sizeof_Member 0) with 0.
    change (size_add 0 sizeof_Member) with sizeof_Member.
    rewrite fresh_array_one by (unfold sizeof_Member; lia).
    mrun. rewrite Hei. mrun.
    change (size_add 0 1) with 1. change (size_sub 1 1) with 0.
    mrun. reflexivity. }
  cbn [heap next oracle trace].
  repeat split.
  - now heap_rw.
  - now heap_rw.
  - intros a ? ?. now heap_rw.
Qed.

Lemma class_add_member_first_witness :
  exists s',
    class_add_member (Ptr 1 0) (Ptr 2 0) (bare_state [true]) = Ok (tt, s') /\
    instance_at s' 1 (Some "Bare"%string) NULL
      (Ptr (next (bare_state [true])) 0) 1 NULL 0 /\
    heap s' !! next (bare_state [true]) = Some (Dyn, BMembers [x_member]) /\
    (forall a : addr, a <> 1%positive -> a <> next (bare_state [true]) ->
       heap s' !! a = heap (bare_state [true]) !! a) /\
    trace s' = trace (bare_state [true]).
Proof.
  apply (class_add_member_first (bare_state [true]) 1 (Some "Bare"%string)
           NULL NULL 0 2 0 Dyn [x_member] x_member []); reflexivity.
Defined.

Section Destroy.
(** X19. [class_destroy] of [part_000] calls nothing and releases what
    the caller handed to [class_create]: the member array if the member
    count is positive, the function array if the function count is
    positive, the constructor record, and the instance, in this order;
    no other block changes. *)
Theorem class_destroy_releases (s : St) (k : addr) (nm : cstr)
    (pc pm pf : ptr) (n nf : Z) :
  instance_at s k nm pc pm n pf nf ->
  owned (heap s) pc -> owned (heap s) pm -> owned (heap s) pf ->
  separate pc pm -> separate pc pf -> separate pm pf ->
  separate pc (Ptr k 0) -> separate pm (Ptr k 0) -> separate pf (Ptr k 0) ->
  class_destroy (Ptr k 0) s =
    Ok (tt,
        mkState
          (delete k
             (release pc
                (release (if decide (nf > 0) then pf else NULL)
                   (release (if decide (n > 0) then pm else NULL) (heap s)))))
          (next s) (oracle s)
          (trace s ++
           release_events (if decide (n > 0) then pm else NULL) ++
           release_events (if decide (nf > 0) then pf else NULL) ++
           release_events pc ++ [EvFree k])).
Proof.
  unfold instance_at. intros Hk Hc Hm Hf Hcm Hcf Hmf Hck Hmk Hfk.
  destruct s as [h nx orc tr]; cbn [heap next oracle trace] in *.
  destruct pc as [|cb ci], pm as [|mb mi], pf as [|fb fi];
    cbn [owned separate] in *;
    repeat match goal with
    | H : _ /\ _ |- _ => destruct H as [? ?]
    | H : exists _, _ |- _ => destruct H as [? H]
    end; subst.
  all: destruct (decide (n > 0)), (decide (nf > 0)).
  all: cbn [release release_events app].
  all: mrun;
    repeat (first [ rewrite (decide_True (P := n > 0)) by assumption
                  | rewrite (decide_False (P := n > 0)) by assumption
                  | rewrite (decide_True (P := nf > 0)) by assumption
                  | rewrite (decide_False (P := nf > 0)) by assumption ];
            mrun).
  all: rewrite <- ?app_assoc; reflexivity.
Qed.
End Destroy.

Lemma class_destroy_releases_witness :
  class_destroy (Ptr 1 0) owner_state =
    Ok (tt,
        mkState
          (delete 1%positive
             (release (Ptr 2 0)
                (release (if decide (1 > 0) then Ptr 4 0 else NULL)
                   (release (if decide (1 > 0) then Ptr 3 0 else NULL)
                      (heap owner_state)))))
          (next owner_state) (oracle owner_state)
          (trace owner_state ++
           release_events (if decide (1 > 0) then Ptr 3 0 else NULL) ++
           release_events (if decide (1 > 0) then Ptr 4 0 else NULL) ++
           release_events (Ptr 2 0) ++ [EvFree 1])).
Proof.
  apply (class_destroy_releases owner_state 1 (Some "Vec1"%string)
           (Ptr 2 0) (Ptr 3 0) (Ptr 4 0) 1 1).
  - reflexivity.
  - split; [reflexivity|]. eexists. reflexivity.
  - split; [reflexivity|]. eexists. reflexivity.
  - split; [reflexivity|]. eexists. reflexivity.
  - cbn. discriminate.
  - cbn. discriminate.
  - cbn. discriminate.
  - cbn. discriminate.
  - cbn. discriminate.
  - cbn. discriminate.
Defined.

Ltac vrun :=
  repeat (progress
    (mrun; rewrite ?Vec2Facts.elem_second; change (Z.to_nat 1) with 1%nat;
     rewrite ?Vec2Facts.insert_second, ?insert_insert_eq)).

(** X20. [create_vec2] of [part_000] gives up without releasing what it
    has built: when the second allocation (the member array) or the third
    (the instance) is turned down, it returns the null pointer and the
    constructor record (and, in the second case, the member array too)
    stays allocated with no pointer to it left. *)
Theorem create_vec2_failure_leaks (x y : float) (s : St) (n : nat)
    (rest : list bool) :
  (1 <= n <= 2)%nat ->
  oracle s = replicate n true ++ rest ->
  rest = [] \/ (exists o, rest = false :: o) ->
  exists s',
    create_vec2 x y s = Ok (NULL, s') /\
    heap s' !! next s = Some (Dyn, BFunctions [vec2_ctor_record]) /\
    (n = 2%nat ->
     heap s' !! Pos.succ (next s) =
       Some (Dyn, BMembers [Iter4.vec2_member "x" x; Iter4.vec2_member "y" y])) /\
    (forall a : addr, a <> next s -> a <> Pos.succ (next s) ->
       heap s' !! a = heap s !! a) /\
    trace s' = trace s.
Proof.
  intros Hn Ho Hrest.
  destruct s as [h nx orc tr]; cbn [heap next oracle trace] in *. subst orc.
  unfold create_vec2.
  change (Z.to_nat 2) with 2%nat. cbn [for_loop].
  change (size_mul sizeof_Member 2) with (sizeof_Member * Z.of_nat 2).
  destruct n as [|[|[|n]]]; try lia; cbn [replicate app];
    destruct Hrest as [-> | [o ->]].
  all: eexists; split;
    [ vrun; rewrite ?fresh_array_one by (unfold sizeof_Function; lia);
      rewrite ?fresh_array_exact by (unfold sizeof_Member; lia);
      cbn [replicate]; vrun; reflexivity
    | ].
  all: cbn [heap next oracle trace].
  all: split; [heap_rw; reflexivity|].
  all: split; [intros Hn2; first [discriminate Hn2 | heap_rw; reflexivity]|].
  all: split; [intros a ? ?; heap_rw; reflexivity|reflexivity].
Qed.

Lemma create_vec2_failure_leaks_witness :
  exists s',
    create_vec2 (f32_of_Z 1) (f32_of_Z 3) (start [true; true]) = Ok (NULL, s') /\
    heap s' !! next (start [true; true]) =
      Some (Dyn, BFunctions [vec2_ctor_record]) /\
    (2%nat = 2%nat ->
     heap s' !! Pos.succ (next (start [true; true])) =
       Some (Dyn, BMembers [Iter4.vec2_member "x" (f32_of_Z 1);
                            Iter4.vec2_member "y" (f32_of_Z 3)])) /\
    (forall a : addr, a <> next (start [true; true]) ->
       a <> Pos.succ (next (start [true; true])) ->
       heap s' !! a = heap (start [true; true]) !! a) /\
    trace s' = trace (start [true; true]).
Proof.
  apply (create_vec2_failure_leaks (f32_of_Z 1) (f32_of_Z 3)
           (start [true; true]) 2 []).
  - lia.
  - reflexivity.
  - now left.
Defined.

(** X21. The life of a Vec2 instance in [part_000], for all components:
    with three successful allocations [create_vec2(x, y)] returns an
    instance with the two members holding [x] and [y] and no function,
    having invoked the constructor once; [class_destroy] then releases the
    member array, the constructor record and the instance, and the store
    is what it was before the creation. *)
Theorem create_vec2_then_destroy (x y : float) (s : St) (o : list bool) :
  fresh s -> oracle s = replicate 3 true ++ o ->
  exists k s1 s2,
    create_vec2 x y s = Ok (Ptr k 0, s1) /\
    class_get_num_members (Ptr k 0) s1 = Ok (2, s1) /\
    class_get_num_functions (Ptr k 0) s1 = Ok (0, s1) /\
    value (member_at (Ptr k 0) 0 s1) = Some (Iter4.vec2_member "x" x) /\
    value (member_at (Ptr k 0) 1 s1) = Some (Iter4.vec2_member "y" y) /\
    trace s1 = trace s ++ [EvCall "vec2_ctor" (Ptr k 0)] /\
    class_destroy (Ptr k 0) s1 = Ok (tt, s2) /\
    heap s2 = heap s /\ oracle s2 = o /\
    trace s2 =
      trace s1 ++ [EvFree (Pos.succ (next s)); EvFree (next s); EvFree k].
Proof.
  intros Hfresh Ho.
  destruct s as [h nx orc tr]; cbn [heap next oracle trace] in *. subst orc.
  assert (H0 : h !! nx = None) by (apply Hfresh; cbn [next]; lia).
  assert (H1 : h !! (Pos.succ nx : addr) = None)
    by (apply Hfresh; cbn [next]; lia).
  assert (H2 : h !! (Pos.succ (Pos.succ nx) : addr) = None)
    by (apply Hfresh; cbn [next]; lia).
  do 3 eexists. split.
  { unfold create_vec2, unary_table, vec2_ctor.
    change (Z.to_nat 2) with 2%nat. cbn [for_loop replicate app].
    change (size_mul sizeof_Member 2) with (sizeof_Member * Z.of_nat 2).
    vrun; rewrite ?fresh_array_one by (unfold sizeof_Function; lia);
      rewrite ?fresh_array_exact by (unfold sizeof_Member; lia);
      cbn [replicate]; vrun.
    rewrite decide_True by reflexivity. vrun. reflexivity. }
  cbn [heap next oracle trace].
  split; [vrun; reflexivity|]. split; [vrun; reflexivity|].
  split; [unfold member_at; vrun; rewrite decide_True by lia; vrun; reflexivity|].
  split; [unfold member_at; vrun; rewrite decide_True by lia; vrun; reflexivity|].
  split; [reflexivity|].
  split.
  { vrun. rewrite decide_True by lia. vrun.
    rewrite decide_False by lia. vrun. reflexivity. }
  cbn [heap next oracle trace].
  split; [|split; [reflexivity|now rewrite <- !app_assoc]].
  apply map_eq. intros a.
  destruct (decide (a = Pos.succ (Pos.succ nx))) as [->|?];
    [now rewrite lookup_delete_eq|].
  rewrite lookup_delete_ne by congruence.
  destruct (decide (a = nx)) as [->|?]; [now rewrite lookup_delete_eq|].
  rewrite lookup_delete_ne by congruence.
  destruct (decide (a = Pos.succ nx)) as [->|?]; [now rewrite lookup_delete_eq|].
  rewrite lookup_delete_ne by congruence.
  now rewrite !lookup_insert_ne by congruence.
Qed.

Lemma create_vec2_then_destroy_witness :
  exists k s1 s2,
    create_vec2 (f32_of_Z 1) (f32_of_Z 3) (start (replicate 3 true)) =
      Ok (Ptr k 0, s1) /\
    class_get_num_members (Ptr k 0) s1 = Ok (2, s1) /\
    class_get_num_functions (Ptr k 0) s1 = Ok (0, s1) /\
    value (member_at (Ptr k 0) 0 s1) = Some (Iter4.vec2_member "x" (f32_of_Z 1)) /\
    value (member_at (Ptr k 0) 1 s1) = Some (Iter4.vec2_member "y" (f32_of_Z 3)) /\
    trace s1 = trace (start (replicate 3 true)) ++ [EvCall "vec2_ctor" (Ptr k 0)] /\
    class_destroy (Ptr k 0) s1 = Ok (tt, s2) /\
    heap s2 = heap (start (replicate 3 true)) /\ oracle s2 = [] /\
    trace s2 =
      trace s1 ++ [EvFree (Pos.succ (next (start (replicate 3 true))));
                   EvFree (next (start (replicate 3 true))); EvFree k].
Proof.
  apply (create_vec2_then_destroy (f32_of_Z 1) (f32_of_Z 3)
           (start (replicate 3 true)) []).
  - intros a Ha. reflexivity.
  - reflexivity.
Defined.
End Iter3Lifecycle.

(** * Printing *)

Lemma then_say_Ok {F C} (c1 c2 : M F C (list output)) s a b :
  c1 s = Ok (a, s) -> c2 s = Ok (b, s) ->
  (c1 +++ c2) s = Ok (a ++ b, s).
Proof. intros H1 H2. unfold then_say, bind, ret. now rewrite H1, H2. Qed.

Module Iter4Print.
Import Iter4 Iter4Tables Iter4Dispatch Iter4Lifecycle.

Section Listing.
Variables (s : St) (k : addr) (nm : cstr) (pc pd : ptr).
Variables (mb : addr) (ms : list Member) (fb : addr) (fs : list Function).
Hypothesis Hat : class_at s k nm pc pd mb ms fb fs.

Lemma debug_print_member_at i m name type :
  elem ms i = Some m ->
  Member_name m = Init name -> Member_type m = Init type ->
  debug_print_member (Ptr k 0) i s =
    Ok (member_entry i name type (Member_data m), s).
Proof.
  intros Hm Hname Htype. unfold debug_print_member.
  rewrite (bind_Ok _ _ _ _ _
             (class_get_member_in s k nm pc pd mb ms fb fs Hat i
                ltac:(now apply elem_Some in Hm))).
  destruct Hat as [Hk Hmb Hfb _ _].
  destruct s as [h nx orc tr]; cbn [heap] in *.
  repeat (progress (mrun; rewrite ?Hm, ?Hname, ?Htype)).
  unfold member_type_to_string.
  destruct type; cbn [MemberType_value];
    repeat (first [rewrite decide_True by reflexivity
                  |rewrite decide_False by discriminate]);
    repeat (progress (mrun; rewrite ?Hm)); reflexivity.
Qed.

Lemma debug_print_function_at i f name :
  elem fs i = Some f -> Function_name f = Init name ->
  debug_print_function (Ptr k 0) i s =
    Ok ([Printf "%zu." [arg_size (size_add i 1)];
         Printf "\tName: %s\n" [arg_str name]], s).
Proof.
  intros Hf Hname. unfold debug_print_function.
  rewrite (bind_Ok _ _ _ _ _
             (class_get_function_in s k nm pc pd mb ms fb fs Hat i
                ltac:(now apply elem_Some in Hf))).
  destruct Hat as [Hk Hmb Hfb _ _].
  destruct s as [h nx orc tr]; cbn [heap] in *.
  repeat (progress (mrun; rewrite ?Hf, ?Hname)). reflexivity.
Qed.

Lemma members_listed todo :
  Forall printable_member todo ->
  forall done, ms = done ++ todo ->
    for_say (length todo) (Z.of_nat (length done))
      (debug_print_member (Ptr k 0)) s =
      Ok (member_entries (Z.of_nat (length done)) todo, s).
Proof.
  induction 1 as [|m todo [[name Hname] [type Htype]] Hrest IH];
    intros done Hms; [reflexivity|].
  cbn [length for_say member_entries]. rewrite Hname, Htype.
  apply then_say_Ok.
  - apply debug_print_member_at; [|assumption|assumption].
    rewrite Hms. apply Iter4Lifecycle.elem_middle.
  - replace (Z.of_nat (length done) + 1)
      with (Z.of_nat (length (done ++ [m])))
      by (rewrite length_app; cbn [length]; lia).
    apply IH. now rewrite <- app_assoc.
Qed.

Lemma functions_listed todo :
  Forall printable_function todo ->
  forall done, fs = done ++ todo ->
    for_say (length todo) (Z.of_nat (length done))
      (debug_print_function (Ptr k 0)) s =
      Ok (function_entries (Z.of_nat (length done)) todo, s).
Proof.
  induction 1 as [|f todo [name Hname] Hrest IH];
    intros done Hfs; [reflexivity|].
  cbn [length for_say function_entries]. rewrite Hname.
  apply then_say_Ok.
  - apply (debug_print_function_at _ f name); [|assumption].
    rewrite Hfs. apply Iter4Lifecycle.elem_middle.
  - replace (Z.of_nat (length done) + 1)
      with (Z.of_nat (length (done ++ [f])))
      by (rewrite length_app; cbn [length]; lia).
    apply IH. now rewrite <- app_assoc.
Qed.

Lemma shown_constructor oc :
  record_at s pc oc -> (forall f, oc = Some f -> printable_function f) ->
  (let! has := class_has_constructor (Ptr k 0) in
   if decide (has = 1) then
     let! ctor := class_get_constructor (Ptr k 0) in
     let! ctor_name := function_get_name ctor in
     say [Printf "%s" [arg_str ctor_name]]
   else say [Printf "(null)" []]) s = Ok (shown oc, s).
Proof.
  intros Hc Hp. destruct Hat as [Hk Hmb Hfb _ _].
  destruct s as [h nx orc tr]; cbn [heap] in *.
  destruct oc as [f|]; cbn [record_at heap] in Hc.
  - destruct Hc as (b & -> & Hb). destruct (Hp f eq_refl) as [name Hname].
    unfold say. repeat (progress (mrun; rewrite ?Hname)).
    cbn [shown]. now rewrite Hname.
  - subst pc. unfold say. mrun. reflexivity.
Qed.

Lemma shown_destructor od :
  record_at s pd od -> (forall f, od = Some f -> printable_function f) ->
  (let! has := class_has_destructor (Ptr k 0) in
   if decide (has = 1) then
     let! dtor := class_get_destructor (Ptr k 0) in
     let! dtor_name := function_get_name dtor in
     say [Printf "%s" [arg_str dtor_name]]
   else say [Printf "(null)" []]) s = Ok (shown od, s).
Proof.
  intros Hd Hp. destruct Hat as [Hk Hmb Hfb _ _].
  destruct s as [h nx orc tr]; cbn [heap] in *.
  destruct od as [f|]; cbn [record_at heap] in Hd.
  - destruct Hd as (b & -> & Hb). destruct (Hp f eq_refl) as [name Hname].
    unfold say. repeat (progress (mrun; rewrite ?Hname)).
    cbn [shown]. now rewrite Hname.
  - subst pd. unfold say. mrun. reflexivity.
Qed.
End Listing.

(** X22. [class_debug_print] only reads: on an instance whose printed
    fields are all assigned it raises no trap and leaves the state as it
    was, and what it prints is the heading with the name and the two
    counts, the names of the constructor and the destructor (or "(null)"),
    then one entry per member in table order, numbered from 1, with name,
    type name and the data read through the union member of that type,
    then one entry per function in table order; an empty table is shown
    as "(null)". *)
Theorem class_debug_print_lists (s : St) (k : addr) (nm : cstr) (pc pd : ptr)
    (mb : addr) (ms : list Member) (fb : addr) (fs : list Function)
    (oc od : option Function) :
  class_at s k nm pc pd mb ms fb fs ->
  record_at s pc oc -> record_at s pd od ->
  Forall printable_member ms -> Forall printable_function fs ->
  (forall f, oc = Some f -> printable_function f) ->
  (forall f, od = Some f -> printable_function f) ->
  class_debug_print (Ptr k 0) s =
    Ok ([Printf "Class: %s\n" [arg_str nm];
         Printf "Data Members: %zu\n" [arg_size (Z.of_nat (length ms))];
         Printf "Member Functions: %zu\n" [arg_size (Z.of_nat (length fs))];
         Printf "Ctor: " []] ++
        shown oc ++
        [Putchar newline; Printf "Dtor: " []] ++
        shown od ++
        [Putchar newline; Putchar newline; Printf "Data Members: " []] ++
        null_if_empty ms ++
        [Putchar newline] ++
        member_entries 0 ms ++
        [Putchar newline; Printf "Member Functions: " []] ++
        null_if_empty fs ++
        [Putchar newline] ++
        function_entries 0 fs, s).
Proof.
  intros Hat Hc Hd Hms Hfs Hpc Hpd.
  unfold class_debug_print. rewrite decide_False by discriminate.
  rewrite (bind_Ok _ _ _ _ _ (class_get_name_at s k nm pc pd mb ms fb fs Hat)).
  rewrite (bind_Ok _ _ _ _ _
             (class_get_num_members_at s k nm pc pd mb ms fb fs Hat)).
  rewrite (bind_Ok _ _ _ _ _
             (class_get_num_functions_at s k nm pc pd mb ms fb fs Hat)).
  rewrite !Nat2Z.id.
  apply then_say_Ok; [reflexivity|].
  apply then_say_Ok; [now apply (shown_constructor s k nm pc pd mb ms fb fs)|].
  apply then_say_Ok; [reflexivity|].
  apply then_say_Ok; [now apply (shown_destructor s k nm pc pd mb ms fb fs)|].
  apply then_say_Ok; [reflexivity|].
  apply then_say_Ok; [destruct ms; reflexivity|].
  apply then_say_Ok; [reflexivity|].
  apply then_say_Ok;
    [apply (members_listed s k nm pc pd mb ms fb fs Hat ms Hms []); reflexivity|].
  apply then_say_Ok; [reflexivity|].
  apply then_say_Ok; [destruct fs; reflexivity|].
  apply then_say_Ok; [reflexivity|].
  apply (functions_listed s k nm pc pd mb ms fb fs Hat fs Hfs []). reflexivity.
Qed.

Lemma class_debug_print_lists_witness :
  class_debug_print (Ptr 2 0) (pair_state []) =
    Ok ([Printf "Class: %s\n" [arg_str (Some "Vec2"%string)];
         Printf "Data Members: %zu\n" [arg_size (Z.of_nat (length [demo_member]))];
         Printf "Member Functions: %zu\n"
           [arg_size (Z.of_nat (length [demo_function]))];
         Printf "Ctor: " []] ++
        shown None ++
        [Putchar newline; Printf "Dtor: " []] ++
        shown None ++
        [Putchar newline; Putchar newline; Printf "Data Members: " []] ++
        null_if_empty [demo_member] ++
        [Putchar newline] ++
        member_entries 0 [demo_member] ++
        [Putchar newline; Printf "Member Functions: " []] ++
        null_if_empty [demo_function] ++
        [Putchar newline] ++
        function_entries 0 [demo_function], pair_state []).
Proof.
  apply (class_debug_print_lists (pair_state []) 2 (Some "Vec2"%string)
           NULL NULL 3 [demo_member] 4 [demo_function] None None).
  - constructor; reflexivity.
  - reflexivity.
  - reflexivity.
  - repeat constructor; eexists; reflexivity.
  - repeat constructor; eexists; reflexivity.
  - discriminate.
  - discriminate.
Defined.

(** X23. [test_class_test], and with it [main], never gives back all it
    takes: whatever the allocator does after granting the first request,
    the run ends without a trap and with a block still allocated. If a
    later request is turned down, [class_create] has given up and the
    instance is lost; if all are granted, [class_destroy] leaves the two
    empty tables behind. *)
Theorem test_class_test_leaks (fuel : nat) (input : Z) (o : list bool) :
  exists out s',
    main unary_table (binary_table fuel) input (start (true :: o)) =
      Ok ((out, input), s') /\
    (exists (b : addr) blk, heap s' !! b = Some (Dyn, blk)) /\
    ~ In EvBreak (trace s').
Proof.
  destruct o as [|[] [|[] o]].
  all: do 2 eexists; split; [vm_compute; reflexivity|].
  all: split;
    [ first [ exists 1%positive; eexists; vm_compute; reflexivity
            | exists 2%positive; eexists; vm_compute; reflexivity ]
    | vm_compute; intuition discriminate ].
Qed.
End Iter4Print.

(** * The second iteration: invocation without a check *)

Module Iter2Facts.
Import Iter2.

Ltac munfold :=
  unfold class_invoke_function, class_get_function, class_get_num_functions,
    field;
  store_unfold.

Ltac msimpl :=
  store_simpl;
  cbn beta iota zeta delta
    [Class_name Class_members Class_num_members Class_functions
     Class_num_functions Function_name Function_fn].

Ltac mrun :=
  repeat (progress (munfold; heap_rw; msimpl; guard_rw;
                    rewrite ?Z.add_0_l; change (Z.to_nat 0) with 0%nat)).

(** X24. [class_invoke_function] of the first program of [part_001]. It
    calls the function at an index below the count directly, once, with
    the instance as argument. For an index at or above a positive count it
    raises the trap and calls nothing. With an empty table the range check
    lets every index through ([0 - 1] wraps), [class_get_function] yields
    the null pointer, and [function->fn] dereferences it: undefined
    behaviour for every index. *)
Theorem class_invoke_function_unchecked
    (unary_code : code -> ptr -> Mon (list output))
    (s : St) (k : addr) (c : Class) (fb : option addr) (fs : list Function)
    (i : Z) :
  functions_of s k c fb fs -> 0 <= i < SIZE_MOD ->
  (forall f code, elem fs i = Some f -> Function_fn f = Init (Some code) ->
     class_invoke_function unary_code (Ptr k 0) i s =
       unary_code code (Ptr k 0)
         (mkState (heap s) (next s) (oracle s)
            (trace s ++ [EvCall code (Ptr k 0)]))) /\
  (fs <> [] -> Z.of_nat (length fs) <= i ->
   class_invoke_function unary_code (Ptr k 0) i s = Ok ([], with_trap s)) /\
  (fs = [] ->
   class_invoke_function unary_code (Ptr k 0) i s = Fault UndefinedBehaviour).
Proof.
  intros (Hk & Hn & Hfit & Hfb) Hi.
  destruct s as [h nx orc tr]; unfold with_trap; cbn [heap next oracle trace] in *.
  split; [|split].
  - intros f code Hf Hfn. pose proof (elem_Some _ _ _ Hf) as [Hlt _].
    destruct fb as [b|]; [|destruct Hfb as [_ ->]; cbn in Hlt; lia].
    destruct Hfb as (Hp & st & Hb).
    mrun. rewrite Hn. mrun.
    rewrite size_sub_1 by lia. rewrite decide_False by lia.
    mrun. rewrite Hn. mrun. rewrite decide_True by lia.
    mrun. rewrite Hp. mrun. rewrite Hf. mrun. rewrite Hfn. reflexivity.
  - intros Hne Hge.
    assert (0 < Z.of_nat (length fs)) by (destruct fs; [congruence|cbn; lia]).
    mrun. rewrite Hn. mrun.
    rewrite size_sub_1 by lia. rewrite decide_True by lia. reflexivity.
  - intros ->. cbn [length] in Hn. change (Z.of_nat 0) with 0 in Hn.
    mrun. rewrite Hn. mrun. rewrite size_sub_0_1.
    rewrite decide_False by lia.
    mrun. rewrite Hn. mrun. rewrite decide_False by lia. reflexivity.
Qed.

Lemma class_invoke_function_unchecked_witness :
  (forall f code, elem [my_class_method_record] 0 = Some f ->
     Function_fn f = Init (Some code) ->
     class_invoke_function quiet (Ptr 1 0) 0 test_state =
       quiet code (Ptr 1 0)
         (mkState (heap test_state) (next test_state) (oracle test_state)
            (trace test_state ++ [EvCall code (Ptr 1 0)]))) /\
  ([my_class_method_record] <> [] ->
   Z.of_nat (length [my_class_method_record]) <= 0 ->
   class_invoke_function quiet (Ptr 1 0) 0 test_state =
     Ok ([], with_trap test_state)) /\
  ([my_class_method_record] = [] ->
   class_invoke_function quiet (Ptr 1 0) 0 test_state =
     Fault UndefinedBehaviour).
Proof.
  apply (class_invoke_function_unchecked quiet test_state 1 test_class
           (Some 2%positive) [my_class_method_record] 0).
  - split; [reflexivity|]. split; [reflexivity|]. split; [reflexivity|].
    split; [reflexivity|]. exists Dyn. reflexivity.
  - vm_compute. split; [discriminate|reflexivity].
Defined.
End Iter2Facts.
